(** * In-kind tracker API: sessions, login and the permission gate

    A shallow embedding of the authorization and session core of the
    Express application:

    - [src/middleware/authorization.js]: [queryUserPermissions],
      [getUserPermissions], [requirePermissions], [listUserPermissions];
    - [src/routes/auth.js]: [fetchUserForLogin], [fetchUserBySession],
      [extractSessionId], the [/login], [/logout] and [/me] handlers, and
      the status filter of [/users];
    - [src/routes/userAccount.js]: [normalizeUserRow], [validateStatus];
    - [src/server.js]: [isAuthExemptPath], [updateSessionActivity], the
      identity middleware and the table of guarded routes.

    Strings are held as their UTF-8 bytes.  [trim] strips the white space
    of the language; [toLowerCase] is a parameter, known by what it does on
    ASCII strings, and every property holds for each such function, the one
    of the language among them.

    Handlers are written in a state-and-exception monad over a handler
    state that holds the relational store, the transaction opened on the
    dedicated connection, and the chronological trace of everything the
    handler does to the outside (store calls, connection release, cookie
    changes, [next()], the response).  A store call consults a fault plan,
    so that every [await] on the store can raise. *)

From Stdlib Require Import Ascii String QArith.
From stdpp Require Import gmap strings list fin_maps.

Local Open Scope string_scope.
Local Open Scope list_scope.
Local Open Scope Z_scope.

(** ** JavaScript strings

    A string of the program is held as its UTF-8 encoding, one [ascii] for
    each byte: an ASCII character is the byte of its code, U+00A0 is the two
    bytes C2 A0, U+2028 the three bytes E2 80 A8.  The bytes of a character
    outside ASCII are all above 127, so that splitting at an ASCII
    separator, looking for an ASCII suffix and comparing two strings read
    the same on the encoding as on the string. *)

Module JsString.

Definition chars (s : string) : list ascii := list_ascii_of_string s.
Definition of_chars (l : list ascii) : string := string_of_list_ascii l.

Definition lower_char (c : ascii) : ascii :=
  let n := nat_of_ascii c in
  if ((65 <=? n) && (n <=? 90))%nat then ascii_of_nat (n + 32) else c.

(** Lowercasing of an ASCII string: [A]-[Z] become [a]-[z]. *)
Definition ascii_lower (s : string) : string :=
  of_chars (map lower_char (chars s)).

Definition is_ascii (s : string) : Prop :=
  Forall (fun c => (nat_of_ascii c < 128)%nat) (chars s).

#[global] Instance is_ascii_dec (s : string) : Decision (is_ascii s) :=
  Forall_dec (fun c => (nat_of_ascii c < 128)%nat) (chars s).

(** A string is truthy when it is not empty. *)
Definition nonempty (s : string) : bool :=
  match s with EmptyString => false | String _ _ => true end.

(** [String.prototype.toLowerCase].  The case mapping of Unicode is not
    written out: the function is any one that does on ASCII strings what
    the language's does, and that, like the language's, makes no non-empty
    string empty. *)
Class Lowercase := {
  toLowerCase : string -> string;
  toLowerCase_ascii : forall s, is_ascii s -> toLowerCase s = ascii_lower s;
  toLowerCase_nonempty : forall s, nonempty s = true -> nonempty (toLowerCase s) = true
}.

(** The characters [trim] strips, WhiteSpace and LineTerminator of the
    language, each as its bytes: U+0009 to U+000D, U+0020, U+00A0, U+1680,
    U+2000 to U+200A, U+2028, U+2029, U+202F, U+205F, U+3000, U+FEFF. *)
Definition WHITE_SPACE : list (list ascii) :=
  Eval cbv in
    map (map ascii_of_nat)
      [[9]; [10]; [11]; [12]; [13]; [32]; [194; 160]; [225; 154; 128];
       [226; 128; 128]; [226; 128; 129]; [226; 128; 130]; [226; 128; 131];
       [226; 128; 132]; [226; 128; 133]; [226; 128; 134]; [226; 128; 135];
       [226; 128; 136]; [226; 128; 137]; [226; 128; 138];
       [226; 128; 168]; [226; 128; 169]; [226; 128; 175];
       [226; 129; 159]; [227; 128; 128]; [239; 187; 191]]%nat.

(** What follows [p] at the head of [l]. *)
Fixpoint starts_with (p l : list ascii) : option (list ascii) :=
  match p, l with
  | [], _ => Some l
  | c :: p', d :: l' => if Ascii.eqb c d then starts_with p' l' else None
  | _ :: _, [] => None
  end.

(** The number of bytes of the character of [table] that [l] begins
    with; 0 when it begins with none. *)
Fixpoint width_at (table : list (list ascii)) (l : list ascii) : nat :=
  match table with
  | [] => 0
  | p :: table' =>
      match starts_with p l with
      | Some _ => length p
      | None => width_at table' l
      end
  end.

(** [l] without the characters of [table] it begins with; [skip] bytes of
    the character being dropped are still to go. *)
Fixpoint drop_spaces (table : list (list ascii)) (skip : nat) (l : list ascii)
  : list ascii :=
  match l with
  | [] => []
  | _ :: l' =>
      match skip with
      | S k => drop_spaces table k l'
      | O =>
          match width_at table l with
          | O => l
          | S k => drop_spaces table k l'
          end
      end
  end.

Definition trimStart (l : list ascii) : list ascii := drop_spaces WHITE_SPACE 0 l.

(** From the end: the same on the reversed bytes, with the characters
    reversed. *)
Definition trimEnd (l : list ascii) : list ascii :=
  rev (drop_spaces (map (@rev ascii) WHITE_SPACE) 0 (rev l)).

(** [String.prototype.trim]. *)
Definition trim (s : string) : string :=
  of_chars (trimEnd (trimStart (chars s))).

(** [s.split(sep)] for a one-character separator: the pieces between
    the separators, in order; never the empty array. *)
Fixpoint split_chars (sep : ascii) (cur : list ascii) (l : list ascii)
  : list string :=
  match l with
  | [] => [of_chars (rev cur)]
  | c :: l' =>
      if Ascii.eqb c sep then of_chars (rev cur) :: split_chars sep [] l'
      else split_chars sep (c :: cur) l'
  end.

Definition split (sep : ascii) (s : string) : list string :=
  split_chars sep [] (chars s).

(** [parts.join(sep)]. *)
Fixpoint join (sep : string) (parts : list string) : string :=
  match parts with
  | [] => ""
  | [p] => p
  | p :: rest => p +:+ sep +:+ join sep rest
  end.

Definition endsWith (s suffix : string) : bool :=
  let ls := chars s in
  let lx := chars suffix in
  (length lx <=? length ls)%nat &&
  bool_decide (drop (length ls - length lx) ls = lx).

(** [s.charAt(i)]: the empty string out of range. *)
Definition charAt (s : string) (i : Z) : string :=
  if i <? 0 then ""
  else match chars s !! Z.to_nat i with
       | Some c => String c EmptyString
       | None => ""
       end.

Fixpoint drop_slashes (l : list ascii) : list ascii :=
  match l with
  | c :: l' => if Ascii.eqb c "/" then drop_slashes l' else l
  | [] => []
  end.

(** [s.replace(/\/+$/, '')]. *)
Definition strip_trailing_slashes (s : string) : string :=
  of_chars (rev (drop_slashes (rev (chars s)))).

(** The length of the encoding, which is [s.length] for an ASCII string and
    larger otherwise.  [isAuthExemptPath] uses lengths in three places, and
    each reads the same on the encoding: a string of one character outside
    ASCII holds no slash to strip; a string that ends with another is longer
    than it exactly when its encoding is; and the byte before an ASCII
    suffix is a slash exactly when the character before it is. *)
Definition len (s : string) : Z := Z.of_nat (String.length s).

End JsString.

(** ** [decodeURIComponent]

    Every [%XX] escape becomes the byte it names; an escape outside ASCII
    must start a well-formed UTF-8 sequence whose other bytes are escapes
    too.  Anything else raises [URIError], modelled as [None].  Characters
    outside ASCII are held as their UTF-8 bytes. *)

Module Uri.

Inductive token :=
| Raw (c : ascii)
| Esc (b : N).

Definition hex_digit (c : ascii) : option N :=
  let n := N_of_ascii c in
  (if (48 <=? n) && (n <=? 57) then Some (n - 48)
   else if (65 <=? n) && (n <=? 70) then Some (n - 55)
   else if (97 <=? n) && (n <=? 102) then Some (n - 87)
   else None)%N.

Fixpoint tokens (l : list ascii) : option (list token) :=
  match l with
  | [] => Some []
  | c :: rest =>
      if Ascii.eqb c "%" then
        match rest with
        | h1 :: h2 :: rest' =>
            match hex_digit h1, hex_digit h2, tokens rest' with
            | Some a, Some b, Some ts => Some (Esc (16 * a + b)%N :: ts)
            | _, _, _ => None
            end
        | _ => None
        end
      else
        match tokens rest with
        | Some ts => Some (Raw c :: ts)
        | None => None
        end
  end.

(** The ranges the bytes after the lead byte [b] must fall in. *)
Definition continuation (b : N) : option (list (N * N)) :=
  (if (194 <=? b) && (b <=? 223) then Some [(128, 191)]
   else if b =? 224 then Some [(160, 191); (128, 191)]
   else if (225 <=? b) && (b <=? 236) then Some [(128, 191); (128, 191)]
   else if b =? 237 then Some [(128, 159); (128, 191)]
   else if (238 <=? b) && (b <=? 239) then Some [(128, 191); (128, 191)]
   else if b =? 240 then Some [(144, 191); (128, 191); (128, 191)]
   else if (241 <=? b) && (b <=? 243)
        then Some [(128, 191); (128, 191); (128, 191)]
   else if b =? 244 then Some [(128, 143); (128, 191); (128, 191)]
   else None)%N.

Fixpoint octets (expect : list (N * N)) (ts : list token)
  : option (list ascii) :=
  match ts with
  | [] => match expect with [] => Some [] | _ :: _ => None end
  | Raw c :: ts' =>
      match expect with
      | [] => cons c <$> octets [] ts'
      | _ :: _ => None
      end
  | Esc b :: ts' =>
      match expect with
      | (lo, hi) :: expect' =>
          if ((lo <=? b) && (b <=? hi))%N
          then cons (ascii_of_N b) <$> octets expect' ts'
          else None
      | [] =>
          if (b <? 128)%N then cons (ascii_of_N b) <$> octets [] ts'
          else match continuation b with
               | Some expect' => cons (ascii_of_N b) <$> octets expect' ts'
               | None => None
               end
      end
  end.

Definition decodeURIComponent (s : string) : option string :=
  ts ← tokens (JsString.chars s);
  JsString.of_chars <$> octets [] ts.

End Uri.

(** ** JavaScript values *)

(** A thrown [Error]: its [name] and its [message]. *)
Record JSError := mkError { err_name : string; err_message : string }.

(** [err?.message || err], spliced into a string: the message, or what
    [Error.prototype.toString] prints when the message is empty. *)
Definition error_text (e : JSError) : string :=
  if JsString.nonempty (err_message e) then err_message e else err_name e.

Definition URIError : JSError := mkError "URIError" "URI malformed".

(** A number: not-a-number, an infinity, or a finite value. *)
Inductive JSNumber :=
| NaN
| Infinity (negative : bool)
| Finite (q : Q).

(** The values a decoded JSON body can hold in one field.  An array or
    object is kept as the string [ToPrimitive] turns it into. *)
Inductive JSValue :=
| VUndefined
| VNull
| VBool (b : bool)
| VNumber (n : JSNumber)
| VString (s : string)
| VObject (primitive : string).

Definition q_is_zero (q : Q) : bool := (Qnum q =? 0)%Z.

(** [ToBoolean]. *)
Definition truthy (v : JSValue) : bool :=
  match v with
  | VUndefined | VNull => false
  | VBool b => b
  | VNumber NaN => false
  | VNumber (Infinity _) => true
  | VNumber (Finite q) => negb (q_is_zero q)
  | VString s => JsString.nonempty s
  | VObject _ => true
  end.

Definition num_of_Z (z : Z) : JSNumber := Finite (inject_Z z).

(** [Number.isInteger]. *)
Definition Number_isInteger (n : JSNumber) : bool :=
  match n with
  | Finite q => (Qnum q mod Zpos (Qden q) =? 0)%Z
  | _ => false
  end.

(** The integer an integral number denotes. *)
Definition integer_value (n : JSNumber) : Z :=
  match n with
  | Finite q => (Qnum q / Zpos (Qden q))%Z
  | _ => 0
  end.

Section ToNumber.

(** [StringToNumber] of the language: the parsing and rounding of a
    numeric string is not part of this repository. *)
Variable StringToNumber : string -> JSNumber.

(** [Number(v)]. *)
Definition Number (v : JSValue) : JSNumber :=
  match v with
  | VUndefined => NaN
  | VNull => num_of_Z 0
  | VBool true => num_of_Z 1
  | VBool false => num_of_Z 0
  | VNumber n => n
  | VString s => StringToNumber s
  | VObject p => StringToNumber p
  end.

End ToNumber.

(** ** JavaScript [Set]

    A [Set] of strings keeps its members in insertion order, each once. *)

Module JsSet.

Definition t := list string.

Definition has (s : t) (x : string) : bool := bool_decide (x ∈ s).

Definition add (s : t) (x : string) : t := if has s x then s else s ++ [x].

(** [new Set(array)]: the members are added from left to right. *)
Definition of_array (l : list string) : t := fold_left add l [].

(** [Array.from(set)]. *)
Definition to_array (s : t) : list string := s.

End JsSet.

(** ** The relational store *)

(** Modelled from the spec: the schema of [in_kind_tracker], which is kept
    in another repository.  The tables carry the columns the data model of
    the spec lists; [user_id], [role_id], [permission_id] and [session_id]
    are the keys of their tables; a timestamp is a number of seconds. *)
Record UserAccountRow := mkAccount {
  ua_username : string;
  ua_name : option string;
  ua_status : option string;
  ua_role_id : option Z;
  ua_last_login_at : option Z
}.

Record RoleRow := mkRole {
  r_role_name : string;
  r_default_route : option string
}.

Record SessionRow := mkSession {
  s_user_id : Z;
  s_last_seen_at : Z
}.

Record Store := mkStore {
  user_account : gmap Z UserAccountRow;
  role : gmap Z RoleRow;
  role_permission : list (Z * Z);
  permission : gmap Z (option string);
  user_session : gmap string SessionRow
}.

Definition with_user_account (f : gmap Z UserAccountRow -> gmap Z UserAccountRow)
    (d : Store) : Store :=
  mkStore (f (user_account d)) (role d) (role_permission d) (permission d)
          (user_session d).

Definition with_user_session (f : gmap string SessionRow -> gmap string SessionRow)
    (d : Store) : Store :=
  mkStore (user_account d) (role d) (role_permission d) (permission d)
          (f (user_session d)).

(** A row of [user_account] left-joined with its [role]. *)
Record UserRoleRow := mkUserRole {
  jr_user_id : Z;
  jr_account : UserAccountRow;
  jr_role_name : option string;
  jr_default_route : option string
}.

Module Sql.

Definition join_role (d : Store) (uid : Z) (ua : UserAccountRow) : UserRoleRow :=
  let r := ua_role_id ua ≫= (role d !!.) in
  mkUserRole uid ua (r_role_name <$> r) (r ≫= r_default_route).

(** [SELECT ua.*, r.role_name, r.default_route FROM user_account ua
     LEFT JOIN role r ON r.role_id = ua.role_id
     WHERE ua.user_id = $1 LIMIT 1] *)
Definition select_user_for_login (d : Store) (uid : Z) : option UserRoleRow :=
  join_role d uid <$> user_account d !! uid.

(** [SELECT s.session_id, ua.*, r.role_name, r.default_route
     FROM user_session s JOIN user_account ua ON ua.user_id = s.user_id
     LEFT JOIN role r ON r.role_id = ua.role_id
     WHERE s.session_id = $1 LIMIT 1] *)
Definition select_user_by_session (d : Store) (sid : string)
  : option UserRoleRow :=
  s ← user_session d !! sid;
  join_role d (s_user_id s) <$> user_account d !! s_user_id s.

Definition promote (now : Z) (ua : UserAccountRow) : UserAccountRow :=
  mkAccount (ua_username ua) (ua_name ua)
    (if bool_decide (ua_status ua = Some "pending") then Some "active"
     else ua_status ua)
    (ua_role_id ua) (Some now).

(** [UPDATE user_account
     SET status = CASE WHEN status = 'pending' THEN 'active' ELSE status END,
         last_login_at = NOW()
     WHERE user_id = $1] *)
Definition update_login (now : Z) (uid : Z) (d : Store) : Store :=
  with_user_account (alter (promote now) uid) d.

(** [INSERT INTO user_session (session_id, user_id) VALUES ($1, $2)];
    [None] when the key is taken.  [last_seen_at] takes the current
    time. *)
Definition insert_session (now : Z) (sid : string) (uid : Z) (d : Store)
  : option Store :=
  match user_session d !! sid with
  | Some _ => None
  | None => Some (with_user_session (insert sid (mkSession uid now)) d)
  end.

(** [DELETE FROM user_session WHERE session_id = $1] *)
Definition delete_session (sid : string) (d : Store) : Store :=
  with_user_session (delete sid) d.

(** [UPDATE user_session SET last_seen_at = NOW() WHERE session_id = $1] *)
Definition touch_session (now : Z) (sid : string) (d : Store) : Store :=
  with_user_session (alter (fun s => mkSession (s_user_id s) now) sid) d.

(** [SELECT DISTINCT] keeps one copy of each value. *)
Definition distinct (l : list string) : list string := JsSet.of_array l.

(** The permission names joined to one [role_permission] row; a missing
    permission row or a [NULL] name gives nothing. *)
Definition joined_permission (d : Store) (rp : Z * Z) : option string :=
  mjoin (permission d !! rp.2).

(** [SELECT DISTINCT p.permission FROM user_account ua
     LEFT JOIN role_permission rp ON rp.role_id = ua.role_id
     LEFT JOIN permission p ON p.permission_id = rp.permission_id
     WHERE ua.user_id = $1 AND p.permission IS NOT NULL]
    The store promises no order for these rows; they are listed in the
    order of [role_permission], and the properties speak of membership. *)
Definition select_user_permissions (d : Store) (uid : Z) : list string :=
  match user_account d !! uid with
  | None => []
  | Some ua =>
      distinct
        (omap (joined_permission d)
           (filter (fun rp => ua_role_id ua = Some rp.1) (role_permission d)))
  end.

End Sql.

(** ** Requests, responses and the trace *)

(** The user object [normalizeUserRow] builds. *)
Record User := mkUser {
  user_id : Z;
  role_id : option Z;
  role_name : option string;
  role_alias : option string;          (* the [role] property *)
  app_role : option string;
  default_route : option string;
  username : string;
  name : option string;
  status : option string;
  last_login_at : option Z
}.

(** [normalizeUserRow] of [routes/userAccount.js], on a row the store
    returned. *)
Definition normalizeUserRow (row : UserRoleRow) : User :=
  let ua := jr_account row in
  mkUser (jr_user_id row) (ua_role_id ua)
         (jr_role_name row) (jr_role_name row) (jr_role_name row)
         (jr_default_route row)
         (ua_username ua) (ua_name ua) (ua_status ua) (ua_last_login_at ua).

Inductive Body :=
| BError (error : string)                          (* [{ error }] *)
| BUser (u : User) (permissions : list string)     (* [{ ...user, permissions }] *)
| BEmpty.                                          (* [send()] *)

Inductive Conn := Pool | Client.

Inductive Stmt :=
| Begin
| Commit
| Rollback
| SelectUserForLogin (uid : Z)
| UpdateLogin (uid : Z)
| InsertSession (sid : string) (uid : Z)
| SelectUserBySession (sid : string)
| DeleteSession (sid : string)
| TouchSession (sid : string)
| SelectUserPermissions (userId : JSValue).

Inductive Outcome :=
| Done
| Raised (e : JSError).

(** What a handler does to the outside, in the order it does it. *)
Inductive Event :=
| EConnect (o : Outcome)                         (* [pool.connect()] *)
| EQuery (c : Conn) (q : Stmt) (o : Outcome)     (* [pool.query], [client.query] *)
| ERelease                                       (* [client.release()] *)
| ESetCookie (name value : string) (maxAge : Z)  (* [res.cookie] *)
| EClearCookie (name : string)                   (* [res.clearCookie] *)
| ENext                                          (* [next()] *)
| ERespond (code : Z) (body : Body)              (* [res.status(code).json(body)] *)
| EConsoleError (label : string) (e : JSError).  (* [console.error] *)

Record Request := mkRequest {
  method : string;
  path : string;
  cookie : option string;               (* [req.headers.cookie] *)
  body_user_id : JSValue;               (* [(req.body || {}).user_id] *)
  user : option User;                   (* [req.user] *)
  sessionId : option string;            (* [req.sessionId] *)
  permissionCache : option JsSet.t      (* [req[USER_PERMISSION_CACHE_KEY]] *)
}.

Definition set_identity (sid : string) (u : User) (r : Request) : Request :=
  mkRequest (method r) (path r) (cookie r) (body_user_id r)
            (Some u) (Some sid) (permissionCache r).

Definition set_permissionCache (s : JsSet.t) (r : Request) : Request :=
  mkRequest (method r) (path r) (cookie r) (body_user_id r)
            (user r) (sessionId r) (Some s).

(** ** The handler state

    [db] is the committed store; [txn] the working copy of the
    transaction open on the dedicated connection; [client] tells whether
    the handler's [client] variable holds a connection.  [faults] is the
    fault plan: the [n]-th store call raises [e] when [faults n = Some e].
    [uuids] is what [randomUUID] draws and [clock] what [NOW()] reads. *)
Record World := mkWorld {
  db : Store;
  txn : option Store;
  client : bool;
  ncalls : nat;
  nuuid : nat;
  trace : list Event;
  faults : nat -> option JSError;
  uuids : nat -> string;
  clock : Z
}.

Definition set_db (d : Store) (w : World) : World :=
  mkWorld d (txn w) (client w) (ncalls w) (nuuid w) (trace w)
          (faults w) (uuids w) (clock w).
Definition set_txn (t : option Store) (w : World) : World :=
  mkWorld (db w) t (client w) (ncalls w) (nuuid w) (trace w)
          (faults w) (uuids w) (clock w).
Definition set_client (b : bool) (w : World) : World :=
  mkWorld (db w) (txn w) b (ncalls w) (nuuid w) (trace w)
          (faults w) (uuids w) (clock w).
Definition count_call (w : World) : World :=
  mkWorld (db w) (txn w) (client w) (S (ncalls w)) (nuuid w) (trace w)
          (faults w) (uuids w) (clock w).
Definition count_uuid (w : World) : World :=
  mkWorld (db w) (txn w) (client w) (ncalls w) (S (nuuid w)) (trace w)
          (faults w) (uuids w) (clock w).
Definition log (e : Event) (w : World) : World :=
  mkWorld (db w) (txn w) (client w) (ncalls w) (nuuid w) (trace w ++ [e])
          (faults w) (uuids w) (clock w).

(** ** The monad: state and exceptions *)

Inductive Res (A : Type) :=
| Ok (a : A)
| Throw (e : JSError).
Arguments Ok {A} a.
Arguments Throw {A} e.

Definition M (A : Type) : Type := World -> Res A * World.

Definition ret {A} (a : A) : M A := fun w => (Ok a, w).

Definition bind {A B} (m : M A) (k : A -> M B) : M B :=
  fun w =>
    match m w with
    | (Ok a, w') => k a w'
    | (Throw e, w') => (Throw e, w')
    end.

Definition throw {A} (e : JSError) : M A := fun w => (Throw e, w).

(** [try { body } catch (err) { handler err }] *)
Definition try_catch {A} (body : M A) (handler : JSError -> M A) : M A :=
  fun w =>
    match body w with
    | (Ok a, w') => (Ok a, w')
    | (Throw e, w') => handler e w'
    end.

(** [try { body } finally { final }] *)
Definition try_finally {A} (body : M A) (final : M unit) : M A :=
  fun w =>
    match body w with
    | (r, w') =>
        match final w' with
        | (Ok _, w'') => (r, w'')
        | (Throw e, w'') => (Throw e, w'')
        end
    end.

Definition get {A} (f : World -> A) : M A := fun w => (Ok (f w), w).
Definition modify (f : World -> World) : M unit := fun w => (Ok tt, f w).
Definition emit (e : Event) : M unit := modify (log e).

(** A pure computation that may throw. *)
Definition lift {A} (r : Res A) : M A := fun w => (r, w).

#[export] Instance M_ret : MRet M := @ret.
#[export] Instance M_bind : MBind M := fun A B k m => bind m k.

(** The state a handler leaves behind. *)
Definition run {A} (m : M A) (w : World) : World := (m w).2.

(** The events a handler added to the trace of [w]. *)
Definition emitted (w w' : World) : list Event := drop (length (trace w)) (trace w').

(** ** Store calls *)

(** The store a connection reads and writes: the open transaction for the
    dedicated connection, the committed store otherwise. *)
Definition view (c : Conn) (w : World) : Store :=
  match c, txn w with
  | Client, Some t => t
  | _, _ => db w
  end.

Definition put (c : Conn) (d : Store) (w : World) : World :=
  match c, txn w with
  | Client, Some _ => set_txn (Some d) w
  | _, _ => set_db d w
  end.

(** One awaited statement: it is counted, it raises when the fault plan
    says so and has no effect then, and it is entered in the trace with
    its outcome. *)
Definition call {A} (c : Conn) (q : Stmt) (exec : World -> Res A * World) : M A :=
  fun w =>
    let w1 := count_call w in
    match faults w (ncalls w) with
    | Some e => (Throw e, log (EQuery c q (Raised e)) w1)
    | None =>
        match exec w1 with
        | (Ok a, w2) => (Ok a, log (EQuery c q Done) w2)
        | (Throw e, w2) => (Throw e, log (EQuery c q (Raised e)) w2)
        end
    end.

(** [client = await pool.connect()] *)
Definition pool_connect : M unit :=
  fun w =>
    let w1 := count_call w in
    match faults w (ncalls w) with
    | Some e => (Throw e, log (EConnect (Raised e)) w1)
    | None => (Ok tt, log (EConnect Done) (set_client true w1))
    end.

Definition exec_begin (w : World) : Res unit * World :=
  (Ok tt, match txn w with Some _ => w | None => set_txn (Some (db w)) w end).

Definition exec_commit (w : World) : Res unit * World :=
  (Ok tt, match txn w with Some t => set_txn None (set_db t w) | None => w end).

Definition exec_rollback (w : World) : Res unit * World :=
  (Ok tt, set_txn None w).

Definition unique_violation : JSError :=
  mkError "error" "duplicate key value violates unique constraint".

Definition invalid_integer : JSError :=
  mkError "error" "invalid input syntax for type integer".

(** The integer a statement parameter binds to.  Every caller in the
    repository passes a [user_id] read from the store, a number; what the
    store makes of other values is not modelled and raises. *)
Definition bind_integer (v : JSValue) : option Z :=
  match v with
  | VNumber n => if Number_isInteger n then Some (integer_value n) else None
  | _ => None
  end.

(** ** The program

    What follows is parametrised by the lowercasing of the language. *)

Section Program.

Context {LC : JsString.Lowercase}.

(** ** [middleware/authorization.js] *)

Definition READ_METHODS : list string := ["GET"; "HEAD"].

Definition is_read_method (m : string) : bool := bool_decide (m ∈ READ_METHODS).

(** [queryUserPermissions]: one read on the pool, each name lowercased. *)
Definition queryUserPermissions (userId : JSValue) : M (list string) :=
  call Pool (SelectUserPermissions userId)
    (fun w =>
       match bind_integer userId with
       | Some uid =>
           (Ok (map JsString.toLowerCase (Sql.select_user_permissions (db w) uid)), w)
       | None => (Throw invalid_integer, w)
       end).

(** [getUserPermissions]: the set cached on the request, filled by a
    query the first time.  The request comes back with its cache. *)
Definition getUserPermissions (req : Request) : M (JsSet.t * Request) :=
  match user req with
  | None => ret (JsSet.of_array [], req)
  | Some u =>
      match permissionCache req with
      | Some s => ret (s, req)
      | None =>
          permissions ← queryUserPermissions (VNumber (num_of_Z (user_id u)));
          let s := JsSet.of_array permissions in
          ret (s, set_permissionCache s req)
      end
  end.

(** The pair a gate is built with; [None] is an absent property. *)
Record PermissionPair := mkPair {
  read : option string;
  manage : option string
}.

(** [name ? name.toLowerCase() : null] *)
Definition required (name : option string) : option string :=
  match name with
  | Some s => if JsString.nonempty s then Some (JsString.toLowerCase s) else None
  | None => None
  end.

(** [(permission) => permission && permissions.has(permission)] *)
Definition hasPermission (permissions : JsSet.t) (permission : option string) : bool :=
  match permission with
  | Some p => JsString.nonempty p && JsSet.has permissions p
  | None => false
  end.

Definition internal_error (e : JSError) : Body :=
  BError ("Internal server error, " +:+ error_text e).

Definition respond (code : Z) (body : Body) : M unit := emit (ERespond code body).

Definition next : M unit := emit ENext.

(** [requirePermissions({ read, manage })]: the middleware it returns. *)
Definition requirePermissions (pair : PermissionPair) (req : Request) : M Request :=
  let requiredRead := required (read pair) in
  let requiredManage := required (manage pair) in
  try_catch
    (if bool_decide (method req = "OPTIONS") then
       next ;; ret req
     else
       match user req with
       | None => respond 401 (BError "Not authenticated") ;; ret req
       | Some _ =>
           '(permissions, req') ← getUserPermissions req;
           if is_read_method (method req) then
             if hasPermission permissions requiredRead
                || hasPermission permissions requiredManage
             then next ;; ret req'
             else respond 403 (BError "Forbidden") ;; ret req'
           else if hasPermission permissions requiredManage
           then next ;; ret req'
           else respond 403 (BError "Forbidden") ;; ret req'
       end)
    (fun err =>
       emit (EConsoleError "Error validating permissions:" err);;
       respond 500 (internal_error err);;
       ret req).

(** [listUserPermissions] *)
Definition listUserPermissions (userId : JSValue) : M (list string) :=
  if negb (truthy userId) then ret []
  else
    permissions ← queryUserPermissions userId;
    ret (JsSet.to_array (JsSet.of_array permissions)).

(** ** [routes/auth.js] *)

Definition USER_STATUSES : list string := ["pending"; "active"; "inactive"].

(** [process.env.SESSION_COOKIE_NAME || 'pp_session'] and
    [Number(process.env.SESSION_MAX_AGE_DAYS || 7)], at their defaults. *)
Definition SESSION_COOKIE_NAME : string := "pp_session".
Definition SESSION_MAX_AGE_DAYS : Z := 7.

Definition setSessionCookie (sessionId : string) : M unit :=
  emit (ESetCookie SESSION_COOKIE_NAME sessionId
          (SESSION_MAX_AGE_DAYS * 24 * 60 * 60 * 1000)).

Definition clearSessionCookie : M unit := emit (EClearCookie SESSION_COOKIE_NAME).

(** [fetchUserForLogin(userId, client)] *)
Definition fetchUserForLogin (userId : Z) (c : Conn) : M (option User) :=
  call c (SelectUserForLogin userId)
    (fun w => (Ok (normalizeUserRow <$> Sql.select_user_for_login (view c w) userId), w)).

(** [fetchUserBySession] *)
Definition fetchUserBySession (sessionId : string) : M (option User) :=
  call Pool (SelectUserBySession sessionId)
    (fun w => (Ok (normalizeUserRow <$> Sql.select_user_by_session (db w) sessionId), w)).

(** The loop of [extractSessionId] over the pieces of the header. *)
Fixpoint find_session_cookie (cookies : list string) : Res (option string) :=
  match cookies with
  | [] => Ok None
  | c :: rest =>
      match JsString.split "=" (JsString.trim c) with
      | key :: value =>
          if bool_decide (key = SESSION_COOKIE_NAME) then
            match Uri.decodeURIComponent (JsString.join "=" value) with
            | Some v => Ok (Some v)
            | None => Throw URIError
            end
          else find_session_cookie rest
      | [] => find_session_cookie rest
      end
  end.

(** [extractSessionId]: the session id of the cookie header, [null] when
    there is none; it throws when the value is not well-formed. *)
Definition extractSessionId (req : Request) : Res (option string) :=
  match cookie req with
  | None => Ok None
  | Some cookieHeader =>
      if negb (JsString.nonempty cookieHeader) then Ok None
      else find_session_cookie (JsString.split ";" cookieHeader)
  end.

(** [!sessionId], for a string or [null]. *)
Definition present (sessionId : option string) : option string :=
  match sessionId with
  | Some s => if JsString.nonempty s then Some s else None
  | None => None
  end.

Definition randomUUID : M string :=
  fun w => (Ok (uuids w (nuuid w)), count_uuid w).

Definition client_query_begin : M unit := call Client Begin exec_begin.
Definition client_query_commit : M unit := call Client Commit exec_commit.
Definition client_query_rollback : M unit := call Client Rollback exec_rollback.

Definition client_update_login (uid : Z) : M unit :=
  call Client (UpdateLogin uid)
    (fun w => (Ok tt, put Client (Sql.update_login (clock w) uid (view Client w)) w)).

Definition client_insert_session (sid : string) (uid : Z) : M unit :=
  call Client (InsertSession sid uid)
    (fun w =>
       match Sql.insert_session (clock w) sid uid (view Client w) with
       | Some d => (Ok tt, put Client d w)
       | None => (Throw unique_violation, w)
       end).

Definition pool_delete_session (sid : string) : M unit :=
  call Pool (DeleteSession sid)
    (fun w => (Ok tt, put Pool (Sql.delete_session sid (db w)) w)).

(** [client.release(); client = null] *)
Definition client_release : M unit :=
  emit ERelease ;; modify (set_client false).

(** [String(user.status ?? '').trim().toLowerCase()] *)
Definition normalizedStatus (u : User) : string :=
  JsString.toLowerCase (JsString.trim (default "" (status u))).

(** The session part of the login handler, once the user is found
    eligible: from [randomUUID()] to the 200 response. *)
Definition login_session (u : User) : M unit :=
  sessionId ← randomUUID;
  client_update_login (user_id u);;
  client_insert_session sessionId (user_id u);;
  loggedInUser ← fetchUserForLogin (user_id u) Client;
  client_query_commit;;
  client_release;;
  setSessionCookie sessionId;;
  permissions ← listUserPermissions (VNumber (num_of_Z (user_id u)));
  respond 200 (BUser (default u loggedInUser) permissions).

(** [await client.query('ROLLBACK'); return res.status(code).json({ error })] *)
Definition login_reject (code : Z) (message : string) : M unit :=
  client_query_rollback;;
  respond code (BError message).

Definition status_message (st : string) : string :=
  if bool_decide (st = "inactive")
  then "User account is inactive"
  else "User status does not permit login".

Section Login.

Variable StringToNumber : string -> JSNumber.

(** The body of the [try] of [POST /auth/login]. *)
Definition login_body (req : Request) : M unit :=
  let user_id_ := body_user_id req in
  if negb (truthy user_id_)
     || negb (Number_isInteger (Number StringToNumber user_id_))
  then respond 400 (BError "user_id is required.")
  else
    pool_connect;;
    client_query_begin;;
    found ← fetchUserForLogin (integer_value (Number StringToNumber user_id_)) Client;
    match found with
    | None => login_reject 404 "User not found"
    | Some u =>
        let st := normalizedStatus u in
        if negb (bool_decide (st ∈ USER_STATUSES)) || bool_decide (st = "inactive")
        then login_reject 403 (status_message st)
        else login_session u
    end.

(** The [catch] of the login handler. *)
Definition login_catch (err : JSError) : M unit :=
  held ← get client;
  (if held : bool then
     try_finally
       (try_catch client_query_rollback
          (fun rollbackErr =>
             emit (EConsoleError "Error rolling back transaction during login:"
                     rollbackErr)))
       client_release
   else ret tt);;
  emit (EConsoleError "Error logging in:" err);;
  respond 500 (internal_error err).

(** [router.post('/login', ...)]: [let client;], then the [try] with
    its [catch] and its [finally]. *)
Definition login (req : Request) : M unit :=
  modify (set_client false);;
  try_finally
    (try_catch (login_body req) login_catch)
    (held ← get client;
     if held : bool then emit ERelease else ret tt).

End Login.

(** [router.post('/logout', ...)] *)
Definition logout (req : Request) : M unit :=
  try_catch
    (sessionId ← lift (extractSessionId req);
     match present sessionId with
     | Some sid => pool_delete_session sid
     | None => ret tt
     end;;
     clearSessionCookie;;
     respond 204 BEmpty)
    (fun err =>
       emit (EConsoleError "Error logging out:" err);;
       respond 500 (internal_error err)).

(** ** [server.js] *)

Definition AUTH_EXEMPT_PATHS : list string :=
  ["/auth/login"; "/auth/logout"; "/auth/users"; "/health"].

Definition isAuthExemptPath (pathname : string) : bool :=
  if negb (JsString.nonempty pathname) then false
  else
    let normalized :=
      if JsString.len pathname >? 1
      then JsString.strip_trailing_slashes pathname
      else pathname in
    bool_decide (normalized ∈ AUTH_EXEMPT_PATHS)
    || existsb
         (fun exempt =>
            (JsString.len normalized >? JsString.len exempt)
            && JsString.endsWith normalized exempt
            && bool_decide
                 (JsString.charAt normalized
                    (JsString.len normalized - JsString.len exempt - 1) = "/"))
         AUTH_EXEMPT_PATHS.

(** [updateSessionActivity]: started and not awaited; a failure is logged
    and goes no further.  Its one statement touches [last_seen_at] only,
    which nothing else in a request reads, so it is run where it is
    started.  In the program its outcome, and the console line of a
    failure, come after [next()]; the trace puts them before, and the
    properties of the middleware, which count and classify its verdicts,
    do not depend on where they stand. *)
Definition updateSessionActivity (sessionId : string) : M unit :=
  try_catch
    (call Pool (TouchSession sessionId)
       (fun w => (Ok tt, put Pool (Sql.touch_session (clock w) sessionId (db w)) w)))
    (fun err => emit (EConsoleError "Failed to update session activity:" err)).

(** The identity middleware: [app.use(async (req, res, next) => ...)]. *)
Definition authenticate (req : Request) : M Request :=
  try_catch
    (if bool_decide (method req = "OPTIONS") || isAuthExemptPath (path req)
     then next;; ret req
     else
       sessionId ← lift (extractSessionId req);
       match present sessionId with
       | None =>
           clearSessionCookie;;
           respond 401 (BError "Not authenticated");;
           ret req
       | Some sid =>
           found ← fetchUserBySession sid;
           match found with
           | None =>
               clearSessionCookie;;
               respond 401 (BError "Not authenticated");;
               ret req
           | Some u =>
               updateSessionActivity sid;;
               next;;
               ret (set_identity sid u req)
           end
       end)
    (fun err =>
       emit (EConsoleError "Error authenticating request:" err);;
       respond 500 (internal_error err);;
       ret req).

(** ** The vocabulary of the properties *)

(** A permission name is granted to a user when the role of the user is
    associated, in [role_permission], with a permission of that name. *)
Definition granted (d : Store) (uid : Z) (name : string) : Prop :=
  exists ua rid pid,
    user_account d !! uid = Some ua /\
    ua_role_id ua = Some rid /\
    (rid, pid) ∈ role_permission d /\
    permission d !! pid = Some (Some name).

(** [l] holds exactly the lowercased names granted to the user, each
    once. *)
Definition resolves (d : Store) (uid : Z) (l : list string) : Prop :=
  NoDup l /\
  forall p, p ∈ l <-> exists name, granted d uid name /\ p = JsString.toLowerCase name.

(** The set holds the permission [name], compared without regard to
    letter case. *)
Definition holds (S : JsSet.t) (name : string) : Prop :=
  JsSet.has S (JsString.toLowerCase name) = true.

Definition Forbidden : Event := ERespond 403 (BError "Forbidden").

(** What the [catch] of the login handler adds for the rollback. *)
Definition rollback_events (o : Outcome) : list Event :=
  EQuery Client Rollback o ::
  match o with
  | Done => []
  | Raised e => [EConsoleError "Error rolling back transaction during login:" e]
  end.

(** Events that neither answer the request nor release the connection. *)
Definition quiet (e : Event) : Prop :=
  match e with
  | EConnect _ | EQuery _ _ _ => True
  | _ => False
  end.

(** The two shapes of a login that fails inside the transaction: a step
    raised, and the [catch] rolls back, releases and answers 500; or the
    user was rejected, and the handler rolls back, answers 404 or 403 and
    releases in its [finally]. *)
Definition failed_login (l : list Event) : Prop :=
  exists pre, Forall quiet pre /\
    ((exists o err,
         l = pre ++ rollback_events o ++
             [ERelease; EConsoleError "Error logging in:" err;
              ERespond 500 (internal_error err)])
     \/
     (exists code msg,
         (code = 404 \/ code = 403) /\
         l = pre ++ [EQuery Client Rollback Done; ERespond code (BError msg);
                     ERelease])).

(** The status of an account as the login handler reads it: trimmed and
    lowercased, [NULL] read as the empty string. *)
Definition account_status (ua : UserAccountRow) : string :=
  JsString.toLowerCase (JsString.trim (default "" (ua_status ua))).

(** The account row after a login at time [now]. *)
Definition logged_in (now : Z) (ua : UserAccountRow) : UserAccountRow :=
  mkAccount (ua_username ua) (ua_name ua) (Some "active") (ua_role_id ua) (Some now).

(** The array [listUserPermissions] answers when the store answers. *)
Definition permissions_of (d : Store) (uid : Z) : list string :=
  if uid =? 0 then []
  else JsSet.of_array (map JsString.toLowerCase (Sql.select_user_permissions d uid)).

(** The store call [listUserPermissions] makes: none for a falsy id. *)
Definition permission_lookup (uid : Z) : list Event :=
  if uid =? 0 then []
  else [EQuery Pool (SelectUserPermissions (VNumber (num_of_Z uid))) Done].

(** A status the login handler lets through. *)
Definition eligible (st : string) : bool :=
  bool_decide (st ∈ USER_STATUSES) && negb (bool_decide (st = "inactive")).

(** The key the login handler looks the user up with: [Number(user_id)]. *)
Definition login_key (stn : string -> JSNumber) (req : Request) : Z :=
  integer_value (Number stn (body_user_id req)).

Definition is_release (e : Event) : bool :=
  match e with ERelease => true | _ => false end.

Definition is_response (e : Event) : bool :=
  match e with ERespond _ _ => true | _ => false end.

Definition is_rollback (e : Event) : bool :=
  match e with EQuery Client Rollback _ => true | _ => false end.

(** Every event of [l] that satisfies [Q] comes after one that satisfies
    [P]. *)
Definition precedes (P Q : Event -> bool) (l : list Event) : Prop :=
  forall i e, l !! i = Some e -> Q e = true ->
    exists j e', (j < i)%nat /\ l !! j = Some e' /\ P e' = true.

(** Every response in [l] comes after a release of the connection. *)
Definition released_before_response (l : list Event) : Prop :=
  precedes is_release is_response l.

(** The store call of a logout: the delete, when the cookie names a
    session. *)
Definition logout_delete (sessionId : option string) : list Event :=
  match present sessionId with
  | Some sid => [EQuery Pool (DeleteSession sid) Done]
  | None => []
  end.

(** The store after a logout with that cookie. *)
Definition logged_out (sessionId : option string) (d : Store) : Store :=
  match present sessionId with
  | Some sid => Sql.delete_session sid d
  | None => d
  end.

(** ** More of [routes/auth.js] and [routes/userAccount.js] *)

(** [router.get('/me', ...)] *)
Definition me (req : Request) : M unit :=
  try_catch
    (sessionId ← lift (extractSessionId req);
     match present sessionId with
     | None =>
         clearSessionCookie;;
         respond 401 (BError "Not authenticated")
     | Some sid =>
         found ← fetchUserBySession sid;
         match found with
         | None =>
             clearSessionCookie;;
             respond 401 (BError "Not authenticated")
         | Some u =>
             permissions ← listUserPermissions (VNumber (num_of_Z (user_id u)));
             respond 200 (BUser u permissions)
         end
     end)
    (fun err =>
       emit (EConsoleError "Error fetching current user:" err);;
       respond 500 (internal_error err)).

(** The [status] entry of [req.query]: absent, an array, or another value;
    an array element or a value is kept as the text [String()] gives. *)
Inductive QueryValue :=
| QAbsent
| QArray (items : list string)
| QScalar (text : string).

(** [requestedStatuses] of [router.get('/users', ...)], as it stands when
    the handler checks it against [USER_STATUSES]. *)
Definition requestedStatuses (status : QueryValue) : list string :=
  let given :=
    match status with
    | QAbsent => ["active"]
    | QArray items => items
    | QScalar text => JsString.split "," text
    end in
  let cleaned :=
    filter (fun value => JsString.nonempty value = true)
           (map (fun value => JsString.toLowerCase (JsString.trim value)) given) in
  match cleaned with
  | [] => ["active"]
  | _ :: _ => cleaned
  end.

(** The first part of [router.get('/users', ...)]: the 400 message for
    unknown statuses ([inl]), or [uniqueStatuses], the array handed to the
    query ([inr]). *)
Definition users_statuses (status : QueryValue) : string + list string :=
  let requested := requestedStatuses status in
  let invalidStatuses :=
    filter (fun value => value ∉ USER_STATUSES) requested in
  match invalidStatuses with
  | _ :: _ => inl ("Invalid status values: " +:+ JsString.join ", " invalidStatuses)
  | [] => inr (JsSet.to_array (JsSet.of_array requested))
  end.

Definition ALLOWED_STATUS : list string := ["pending"; "active"; "inactive"].

Section ToString.

(** [Number::toString] of the language. *)
Variable NumberToString : JSNumber -> string.

(** [String(v)]. *)
Definition ToString (v : JSValue) : string :=
  match v with
  | VUndefined => "undefined"
  | VNull => "null"
  | VBool true => "true"
  | VBool false => "false"
  | VNumber n => NumberToString n
  | VString s => s
  | VObject p => p
  end.

(** [validateStatus] of [routes/userAccount.js]: [null] for a missing
    status, the trimmed and lowercased status when it is allowed, an
    [Error] otherwise. *)
Definition validateStatus (status : JSValue) : Res (option string) :=
  match status with
  | VUndefined | VNull => Ok None
  | _ =>
      let trimmed := JsString.toLowerCase (JsString.trim (ToString status)) in
      if bool_decide (trimmed ∈ ALLOWED_STATUS) then Ok (Some trimmed)
      else Throw (mkError "Error"
                    ("status must be one of: " +:+ JsString.join ", " ALLOWED_STATUS))
  end.

End ToString.

(** [guardedRoutes] of [server.js]: the mount path of each guarded router
    and the pair its gate is built with. *)
Definition guardedRoutes : list (string * PermissionPair) :=
  [("/location", mkPair (Some "view locations") (Some "manage locations"));
   ("/permission", mkPair (Some "manage users") (Some "manage users"));
   ("/role", mkPair (Some "manage users") (Some "manage users"));
   ("/allowed-permissions", mkPair (Some "manage users") (Some "manage users"));
   ("/user", mkPair (Some "view users") (Some "manage users"))].

(** ** More vocabulary *)

(** The same request with another method. *)
Definition with_method (m : string) (r : Request) : Request :=
  mkRequest m (path r) (cookie r) (body_user_id r)
            (user r) (sessionId r) (permissionCache r).

Definition is_next (e : Event) : bool :=
  match e with ENext => true | _ => false end.

Definition is_connect_done (e : Event) : bool :=
  match e with EConnect Done => true | _ => false end.

(** What ends the work of a middleware or a handler on a request:
    [next()] or a response. *)
Definition is_verdict (e : Event) : bool :=
  match e with ENext | ERespond _ _ => true | _ => false end.

(** A store statement, whatever its outcome. *)
Definition is_query (e : Event) : Prop :=
  match e with EQuery _ _ _ => True | _ => False end.

(** A store statement or a line on the console. *)
Definition is_background (e : Event) : Prop :=
  match e with EQuery _ _ _ | EConsoleError _ _ => True | _ => False end.
(** The name of one piece of the cookie header, as [extractSessionId]
    reads it: what precedes the first [=] of the trimmed piece. *)
Definition cookie_key (piece : string) : string :=
  hd "" (JsString.split "=" (JsString.trim piece)).

(** A cookie value that reaches the server as it was written: no [;], no
    escape, no white space at its end. *)
Definition plain_value (v : string) : Prop :=
  (";"%char ∉ JsString.chars v) /\ ("%"%char ∉ JsString.chars v) /\
  JsString.width_at (map (@rev ascii) JsString.WHITE_SPACE) (rev (JsString.chars v))
  = 0%nat.

(** The session cookie as a piece of the header: white space, the name,
    [=] and the value. *)
Definition session_cookie (ws : list (list ascii)) (v : string) : string :=
  JsString.of_chars (concat ws) +:+ SESSION_COOKIE_NAME +:+ "=" +:+ v.

(** [k] slashes. *)
Definition slashes (k : nat) : string := JsString.of_chars (replicate k "/"%char).

(** The paths [isAuthExemptPath] lets through without a session: an exempt
    path, alone or after a prefix that ends with a slash, then any number
    of slashes. *)
Definition exempt_shape (pathname : string) : Prop :=
  exists pre exempt k,
    exempt ∈ AUTH_EXEMPT_PATHS /\
    (pre = "" \/ exists q, pre = q +:+ "/") /\
    pathname = pre +:+ exempt +:+ slashes k.

(** The permission set of the user of a joined row, as the gate resolves
    it from the store. *)
Definition permissions_of_row (d : Store) (row : UserRoleRow) : JsSet.t :=
  JsSet.of_array
    (map JsString.toLowerCase (Sql.select_user_permissions d (jr_user_id row))).

(** How many events of [l] satisfy [P]. *)
Definition tally (P : Event -> bool) (l : list Event) : nat :=
  length (List.filter P l).

Definition is_cookie (e : Event) : bool :=
  match e with ESetCookie _ _ _ => true | _ => false end.

Definition is_commit (e : Event) : bool :=
  match e with EQuery Client Commit Done => true | _ => false end.

End Program.

(** ** A sample store, for running the handlers *)

Module Sample.

Definition account (st : string) (r : option Z) : UserAccountRow :=
  mkAccount "user@example.com" (Some "User") (Some st) r None.

Definition store : Store :=
  mkStore
    (list_to_map [(3, account "active" (Some 2)); (10, account "inactive" (Some 2));
                  (11, account "pending" (Some 2)); (12, account "pending" None);
                  (13, account "archived" (Some 2))])
    (list_to_map [(2, mkRole "Admin" (Some "/Dashboard"))])
    [(2, 1); (2, 2); (2, 3); (5, 4)]
    (list_to_map [(1, Some "Manage Users"); (2, Some "manage users");
                  (3, Some "view locations"); (4, Some "manage locations")])
    (list_to_map [("s1", mkSession 3 0); ("s2", mkSession 77 0)]).

(** The lowercasing the samples run with. *)
#[global] Instance ascii_lowercase : JsString.Lowercase := {|
  JsString.toLowerCase := JsString.ascii_lower;
  JsString.toLowerCase_ascii := fun s _ => eq_refl;
  JsString.toLowerCase_nonempty :=
    fun s => match s with
             | EmptyString => fun H => H
             | String _ _ => fun _ => eq_refl
             end
|}.

Definition no_fault : nat -> option JSError := fun _ => None.

Definition boom : JSError := mkError "error" "connection terminated".

(** The [n]-th store call raises. *)
Definition fault_at (n : nat) : nat -> option JSError :=
  fun k => if (k =? n)%nat then Some boom else None.

Definition world (f : nat -> option JSError) : World :=
  mkWorld store None false 0 0 [] f (fun _ => "7c9e6679-7425-40de-944b-e07fc1f90ae7") 1000.

(** The sample store with one more account, of the given status, and its
    world. *)
Definition world_with (uid : Z) (st : string) : World :=
  mkWorld (with_user_account (insert uid (account st (Some 2))) store)
          None false 0 0 [] no_fault
          (fun _ => "7c9e6679-7425-40de-944b-e07fc1f90ae7") 1000.

(** A numeric-string parser for the samples: unsigned decimal digits
    only, anything else is not a number. *)
Definition digits_value (s : string) : option Z :=
  fold_left
    (fun acc c =>
       acc ≫= fun a =>
         let n := Z.of_nat (nat_of_ascii c) in
         if (48 <=? n) && (n <=? 57) then Some (10 * a + (n - 48)) else None)
    (JsString.chars s)
    (if JsString.nonempty s then Some 0 else None).

Definition StringToNumber (s : string) : JSNumber :=
  match digits_value s with
  | Some z => num_of_Z z
  | None => NaN
  end.

Definition login_request (v : JSValue) : Request :=
  mkRequest "POST" "/auth/login" None v None None None.

Definition logout_request (cookieHeader : option string) : Request :=
  mkRequest "POST" "/auth/logout" cookieHeader VUndefined None None None.

Definition admin : User :=
  mkUser 3 (Some 2) (Some "Admin") (Some "Admin") (Some "Admin")
         (Some "/Dashboard") "user@example.com" (Some "User") (Some "active") None.

(** A request the identity middleware let through for [u]. *)
Definition request_of (m : string) (u : option User) : Request :=
  mkRequest m "/location" (Some "pp_session=s1") VUndefined u (Some "s1") None.

End Sample.

(** * Properties *)

(** ** Strings, escapes and sets at work *)

Example toLowerCase_example :
  JsString.toLowerCase "Manage Users" = "manage users".
Proof. reflexivity. Qed.

Example trim_example : JsString.trim "  Inactive " = "Inactive".
Proof. reflexivity. Qed.

Example split_example :
  JsString.split ";" "a=1; pp_session=x=y" = ["a=1"; " pp_session=x=y"].
Proof. reflexivity. Qed.

Example decode_plain :
  Uri.decodeURIComponent "7c9e6679-7425-40de" = Some "7c9e6679-7425-40de".
Proof. reflexivity. Qed.

Example decode_escape : Uri.decodeURIComponent "a%3Db%20c" = Some "a=b c".
Proof. reflexivity. Qed.

Example decode_lone_percent : Uri.decodeURIComponent "%" = None.
Proof. reflexivity. Qed.

Example decode_bad_utf8 : Uri.decodeURIComponent "%C0%80" = None.
Proof. reflexivity. Qed.

Example set_of_array_example :
  JsSet.of_array ["b"; "a"; "b"; "c"; "a"] = ["b"; "a"; "c"].
Proof. reflexivity. Qed.

(** ** Sets and statement parameters *)

Lemma set_add_spec (acc : JsSet.t) (a : string) :
  NoDup acc ->
  NoDup (JsSet.add acc a) /\ forall x, x ∈ JsSet.add acc a <-> x ∈ acc \/ x = a.
Proof.
  intros Hnd. unfold JsSet.add, JsSet.has. case_bool_decide as Hin.
  - split; [done|]. intros x. split; [tauto|]. intros [?| ->]; done.
  - split.
    + apply NoDup_app. split_and!; [done| |apply NoDup_singleton].
      intros x Hx Hx'. apply list_elem_of_singleton in Hx'. by subst.
    + intros x. rewrite elem_of_app, list_elem_of_singleton. tauto.
Qed.

Lemma fold_add_spec (l : list string) : forall acc,
  NoDup acc ->
  NoDup (fold_left JsSet.add l acc) /\
  forall x, x ∈ fold_left JsSet.add l acc <-> x ∈ acc \/ x ∈ l.
Proof.
  induction l as [|a l IH]; intros acc Hnd; simpl.
  - split; [done|]. intros x. rewrite elem_of_nil. tauto.
  - destruct (set_add_spec acc a Hnd) as [Hnd' Hmem].
    destruct (IH _ Hnd') as [IH1 IH2]. split; [done|].
    intros x. rewrite IH2, Hmem, elem_of_cons. tauto.
Qed.

Lemma of_array_NoDup (l : list string) : NoDup (JsSet.of_array l).
Proof. apply fold_add_spec, NoDup_nil_2. Qed.

Lemma elem_of_of_array (l : list string) (x : string) :
  x ∈ JsSet.of_array l <-> x ∈ l.
Proof.
  unfold JsSet.of_array.
  destruct (fold_add_spec l [] (NoDup_nil_2)) as [_ H].
  rewrite H, elem_of_nil. tauto.
Qed.

Lemma set_has_of_array (l : list string) (x : string) :
  JsSet.has (JsSet.of_array l) x = true <-> x ∈ l.
Proof. unfold JsSet.has. rewrite bool_decide_eq_true. apply elem_of_of_array. Qed.

Lemma bind_integer_of_Z (z : Z) : bind_integer (VNumber (num_of_Z z)) = Some z.
Proof.
  unfold bind_integer, num_of_Z, Number_isInteger, integer_value, inject_Z.
  cbn [Qnum Qden]. rewrite Z.mod_1_r, Z.div_1_r. reflexivity.
Qed.

Lemma truthy_of_Z (z : Z) : truthy (VNumber (num_of_Z z)) = negb (z =? 0).
Proof. reflexivity. Qed.

(** ** The permission query *)

Lemma select_user_permissions_granted (d : Store) (uid : Z) (name : string) :
  name ∈ Sql.select_user_permissions d uid <-> granted d uid name.
Proof.
  unfold Sql.select_user_permissions, granted.
  destruct (user_account d !! uid) as [ua|] eqn:Hua.
  - unfold Sql.distinct. rewrite elem_of_of_array, list_elem_of_omap.
    split.
    + intros [[rid pid] [Hin Hp]]. apply list_elem_of_filter in Hin as [Hr Hin].
      unfold Sql.joined_permission in Hp. cbn in Hr, Hp.
      destruct (permission d !! pid) as [[n|]|] eqn:Hpid; try discriminate.
      cbn in Hp. injection Hp as ->. exists ua, rid, pid. done.
    + intros (ua' & rid & pid & Heq & Hr & Hin & Hp). injection Heq as <-.
      exists (rid, pid). split.
      * apply list_elem_of_filter. done.
      * unfold Sql.joined_permission. cbn. rewrite Hp. reflexivity.
  - split; [by rewrite elem_of_nil|]. intros (ua & ? & ? & ? & _). discriminate.
Qed.

Lemma select_user_permissions_no_role (d : Store) (uid : Z) (ua : UserAccountRow) :
  user_account d !! uid = Some ua -> ua_role_id ua = None ->
  Sql.select_user_permissions d uid = [].
Proof.
  intros Hua Hr. unfold Sql.select_user_permissions. rewrite Hua, Hr.
  replace (filter _ _) with (@nil (Z * Z)); [reflexivity|].
  symmetry. induction (role_permission d) as [|rp l IH]; [reflexivity|].
  rewrite filter_cons_False; [done | discriminate].
Qed.

Lemma queryUserPermissions_ok {LC : JsString.Lowercase} (w : World) (uid : Z) :
  faults w (ncalls w) = None ->
  queryUserPermissions (VNumber (num_of_Z uid)) w =
  (Ok (map JsString.toLowerCase (Sql.select_user_permissions (db w) uid)),
   log (EQuery Pool (SelectUserPermissions (VNumber (num_of_Z uid))) Done)
       (count_call w)).
Proof.
  intros Hf. unfold queryUserPermissions, call.
  rewrite Hf, bind_integer_of_Z. reflexivity.
Qed.

Lemma queryUserPermissions_raises {LC : JsString.Lowercase}
    (w : World) (v : JSValue) (e : JSError) :
  faults w (ncalls w) = Some e ->
  queryUserPermissions v w =
  (Throw e, log (EQuery Pool (SelectUserPermissions v) (Raised e)) (count_call w)).
Proof. intros Hf. unfold queryUserPermissions, call. rewrite Hf. reflexivity. Qed.

(** ** Permission resolution *)

Lemma of_array_resolves {LC : JsString.Lowercase} (d : Store) (uid : Z) :
  resolves d uid
    (JsSet.of_array (map JsString.toLowerCase (Sql.select_user_permissions d uid))).
Proof.
  split; [apply of_array_NoDup|].
  intros p. rewrite elem_of_of_array, list_elem_of_fmap. split.
  - intros (name & -> & Hin). exists name.
    by rewrite <- select_user_permissions_granted.
  - intros (name & Hg & ->). exists name.
    by rewrite select_user_permissions_granted.
Qed.




Example listUserPermissions_sample :
  (listUserPermissions (VNumber (num_of_Z 3)) (Sample.world Sample.no_fault)).1
  = Ok ["manage users"; "view locations"].
Proof. vm_compute. reflexivity. Qed.

(** C10. For a falsy [userId] ([undefined], [null], [0], the empty string
    and every other falsy value) [listUserPermissions] returns the empty
    array and leaves the state as it was: no store call is made. *)
Theorem listUserPermissions_falsy {LC : JsString.Lowercase}
    (userId : JSValue) (w : World) :
  truthy userId = false ->
  listUserPermissions userId w = (Ok [], w).
Proof. intros H. unfold listUserPermissions. rewrite H. reflexivity. Qed.

Lemma listUserPermissions_falsy_witness :
  Forall (fun v => listUserPermissions v (Sample.world Sample.no_fault)
                   = (Ok [], Sample.world Sample.no_fault))
         [VUndefined; VNull; VNumber (num_of_Z 0); VString ""].
Proof.
  apply Forall_cons_2;
    [exact (listUserPermissions_falsy VUndefined _ eq_refl)|].
  apply Forall_cons_2;
    [exact (listUserPermissions_falsy VNull _ eq_refl)|].
  apply Forall_cons_2;
    [exact (listUserPermissions_falsy (VNumber (num_of_Z 0)) _ eq_refl)|].
  apply Forall_cons_2;
    [exact (listUserPermissions_falsy (VString "") _ eq_refl)|].
  apply Forall_nil_2.
Defined.

(** ** The authorization gate *)

Lemma nonempty_true (s : string) : s <> "" -> JsString.nonempty s = true.
Proof. by destruct s. Qed.

Lemma toLowerCase_nonempty {LC : JsString.Lowercase} (s : string) :
  JsString.nonempty s = true -> JsString.nonempty (JsString.toLowerCase s) = true.
Proof. apply JsString.toLowerCase_nonempty. Qed.

(** On an ASCII string the lowercasing is the one of [A]-[Z]. *)
Lemma toLowerCase_word {LC : JsString.Lowercase} (s : string) :
  bool_decide (JsString.is_ascii s) = true ->
  JsString.toLowerCase s = JsString.ascii_lower s.
Proof.
  intros H. apply bool_decide_eq_true in H. by apply JsString.toLowerCase_ascii.
Qed.

Lemma hasPermission_required {LC : JsString.Lowercase}
    (S : JsSet.t) (name : string) :
  name <> "" ->
  hasPermission S (required (Some name)) = JsSet.has S (JsString.toLowerCase name).
Proof.
  intros Hne. unfold required. rewrite (nonempty_true _ Hne).
  unfold hasPermission. by rewrite toLowerCase_nonempty by by apply nonempty_true.
Qed.

Lemma is_read_method_spec (m : string) :
  is_read_method m = true <-> m = "GET" \/ m = "HEAD".
Proof.
  unfold is_read_method, READ_METHODS. rewrite bool_decide_eq_true.
  rewrite !elem_of_cons, elem_of_nil. tauto.
Qed.

(** Resolution returns a set whenever it needs no query or the store
    answers the query. *)
Lemma getUserPermissions_returns {LC : JsString.Lowercase}
    (req : Request) (u : User) (w : World) :
  user req = Some u ->
  (permissionCache req = None -> faults w (ncalls w) = None) ->
  exists S req' w', getUserPermissions req w = (Ok (S, req'), w').
Proof.
  intros Hu Hf. unfold getUserPermissions. rewrite Hu.
  destruct (permissionCache req) as [s|].
  - by eexists _, _, _.
  - unfold mbind, M_bind, bind. rewrite queryUserPermissions_ok by auto.
    by eexists _, _, _.
Qed.

(** C1. A gate built with the non-empty permission names [r] (read) and
    [m] (manage): an [OPTIONS] request passes at once; another request without
    identity is answered 401; for an authenticated request whose
    permissions resolve to [S], the gate either passes or answers 403
    Forbidden, and it passes exactly when [S] holds [r] or [m] for [GET] and
    [HEAD], and exactly when [S] holds [m] for every other method. *)
Theorem requirePermissions_decision {LC : JsString.Lowercase}
    (r m : string) (req : Request) (w : World) :
  r <> "" -> m <> "" ->
  (method req = "OPTIONS" ->
   requirePermissions (mkPair (Some r) (Some m)) req w = (Ok req, log ENext w))
  /\
  (method req <> "OPTIONS" -> user req = None ->
   requirePermissions (mkPair (Some r) (Some m)) req w
   = (Ok req, log (ERespond 401 (BError "Not authenticated")) w))
  /\
  (forall u,
      method req <> "OPTIONS" -> user req = Some u ->
      (permissionCache req = None -> faults w (ncalls w) = None) ->
      exists S req' w' verdict,
        getUserPermissions req w = (Ok (S, req'), w') /\
        requirePermissions (mkPair (Some r) (Some m)) req w
        = (Ok req', log verdict w') /\
        (verdict = ENext \/ verdict = Forbidden) /\
        (method req = "GET" \/ method req = "HEAD" ->
         (verdict = ENext <-> holds S r \/ holds S m)) /\
        (method req <> "GET" -> method req <> "HEAD" ->
         (verdict = ENext <-> holds S m))).
Proof.
  intros Hr Hm. unfold requirePermissions, try_catch.
  split_and!.
  - intros ->. reflexivity.
  - intros Hopt Hu. rewrite bool_decide_eq_false_2 by done. rewrite Hu. reflexivity.
  - intros u Hopt Hu Hf.
    destruct (getUserPermissions_returns req u w Hu Hf) as (S & req' & w' & Hget).
    exists S, req', w'.
    rewrite bool_decide_eq_false_2 by done. rewrite Hu.
    unfold mbind, M_bind, bind. rewrite Hget. cbn [read manage].
    rewrite !hasPermission_required by done.
    destruct (is_read_method (method req)) eqn:Hread.
    + apply is_read_method_spec in Hread.
      destruct (JsSet.has S (JsString.toLowerCase r)
                || JsSet.has S (JsString.toLowerCase m)) eqn:Hh.
      * exists ENext. split_and!; [done | reflexivity | by left | | ].
        -- intros _. split; [|done]. intros _. by apply orb_true_iff in Hh.
        -- intros ? ?. destruct Hread; done.
      * exists Forbidden. split_and!; [done | reflexivity | by right | | ].
        -- intros _. split; [done|]. intros Hh'.
           apply orb_true_iff in Hh'. congruence.
        -- intros ? ?. destruct Hread; done.
    + assert (Hnr : ~ (method req = "GET" \/ method req = "HEAD")).
      { rewrite <- is_read_method_spec. congruence. }
      destruct (JsSet.has S (JsString.toLowerCase m)) eqn:Hh.
      * exists ENext. split_and!; [done | reflexivity | by left | done | done].
      * exists Forbidden. split_and!; [done | reflexivity | by right | done | ].
        intros _ _. split; [done|]. unfold holds. congruence.
Qed.

Lemma requirePermissions_decision_witness :
  "View Locations" <> "" /\ "manage locations" <> "" /\
  exists S req' w' verdict,
    getUserPermissions (Sample.request_of "GET" (Some Sample.admin))
                       (Sample.world Sample.no_fault) = (Ok (S, req'), w') /\
    requirePermissions (mkPair (Some "View Locations") (Some "manage locations"))
                       (Sample.request_of "GET" (Some Sample.admin))
                       (Sample.world Sample.no_fault)
    = (Ok req', log verdict w') /\
    (verdict = ENext <-> holds S "View Locations" \/ holds S "manage locations").
Proof.
  split; [discriminate|]. split; [discriminate|].
  destruct (requirePermissions_decision "View Locations" "manage locations"
              (Sample.request_of "GET" (Some Sample.admin))
              (Sample.world Sample.no_fault))
    as (_ & _ & H); [discriminate | discriminate |].
  destruct (H Sample.admin) as (S & req' & w' & verdict & H1 & H2 & _ & H3 & _);
    [discriminate | reflexivity | reflexivity |].
  exists S, req', w', verdict. split; [exact H1|]. split; [exact H2|].
  apply H3. left. reflexivity.
Defined.

Example gate_read_only_get :
  trace (run (requirePermissions (mkPair (Some "View Locations") (Some "manage locations"))
                (Sample.request_of "GET" (Some Sample.admin)))
             (Sample.world Sample.no_fault))
  = [EQuery Pool (SelectUserPermissions (VNumber (num_of_Z 3))) Done; ENext].
Proof. vm_compute. reflexivity. Qed.

Example gate_read_only_post :
  trace (run (requirePermissions (mkPair (Some "View Locations") (Some "manage locations"))
                (Sample.request_of "POST" (Some Sample.admin)))
             (Sample.world Sample.no_fault))
  = [EQuery Pool (SelectUserPermissions (VNumber (num_of_Z 3))) Done; Forbidden].
Proof. vm_compute. reflexivity. Qed.

Example gate_manage_post :
  trace (run (requirePermissions (mkPair (Some "view users") (Some "Manage Users"))
                (Sample.request_of "POST" (Some Sample.admin)))
             (Sample.world Sample.no_fault))
  = [EQuery Pool (SelectUserPermissions (VNumber (num_of_Z 3))) Done; ENext].
Proof. vm_compute. reflexivity. Qed.

Lemma emitted_app (w w' : World) (l : list Event) :
  trace w' = trace w ++ l -> emitted w w' = l.
Proof. intros H. unfold emitted. rewrite H. apply drop_app_length. Qed.

(** C9. When the gate has to query the store for the permissions of an
    authenticated caller and the query raises [e], resolution throws [e]
    (it yields no set, empty or not) and the gate logs the error and
    answers 500; it answers nothing else, in particular no 403, and does
    not pass the request on. *)
Theorem requirePermissions_lookup_failure {LC : JsString.Lowercase}
    (pair : PermissionPair) (req : Request) (u : User) (w : World) (e : JSError) :
  method req <> "OPTIONS" ->
  user req = Some u ->
  permissionCache req = None ->
  faults w (ncalls w) = Some e ->
  (getUserPermissions req w).1 = Throw e /\
  (requirePermissions pair req w).1 = Ok req /\
  emitted w (run (requirePermissions pair req) w)
  = [EQuery Pool (SelectUserPermissions (VNumber (num_of_Z (user_id u)))) (Raised e);
     EConsoleError "Error validating permissions:" e;
     ERespond 500 (internal_error e)].
Proof.
  intros Hopt Hu Hc Hf.
  assert (Hget : getUserPermissions req w
                 = (Throw e, log (EQuery Pool (SelectUserPermissions
                                      (VNumber (num_of_Z (user_id u)))) (Raised e))
                                 (count_call w))).
  { unfold getUserPermissions. rewrite Hu, Hc.
    unfold mbind, M_bind, bind. by rewrite (queryUserPermissions_raises _ _ e). }
  split; [by rewrite Hget|].
  unfold run, requirePermissions, try_catch.
  rewrite bool_decide_eq_false_2 by done. rewrite Hu.
  unfold mbind, M_bind, bind. rewrite Hget.
  split; [reflexivity|].
  apply emitted_app. cbn. by rewrite <- !app_assoc.
Qed.

Lemma requirePermissions_lookup_failure_witness :
  emitted (Sample.world (Sample.fault_at 0))
    (run (requirePermissions (mkPair (Some "view users") (Some "manage users"))
            (Sample.request_of "GET" (Some Sample.admin)))
         (Sample.world (Sample.fault_at 0)))
  = [EQuery Pool (SelectUserPermissions (VNumber (num_of_Z 3))) (Raised Sample.boom);
     EConsoleError "Error validating permissions:" Sample.boom;
     ERespond 500 (BError "Internal server error, connection terminated")].
Proof.
  apply (requirePermissions_lookup_failure
           (mkPair (Some "view users") (Some "manage users"))
           (Sample.request_of "GET" (Some Sample.admin)) Sample.admin
           (Sample.world (Sample.fault_at 0)) Sample.boom);
    [discriminate | reflexivity | reflexivity | reflexivity].
Defined.

(** ** Running a handler symbolically *)

Tactic Notation "wsimpl" :=
  cbn [db txn client ncalls nuuid trace faults uuids clock
       set_db set_txn set_client count_call count_uuid log view put fst snd
       exec_begin exec_commit exec_rollback].
Tactic Notation "wsimpl" "in" hyp(H) :=
  cbn [db txn client ncalls nuuid trace faults uuids clock
       set_db set_txn set_client count_call count_uuid log view put fst snd
       exec_begin exec_commit exec_rollback] in H.

Ltac munfold :=
  unfold login_reject, client_release, setSessionCookie, clearSessionCookie,
    respond, next, emit, randomUUID,
    client_query_begin, client_query_commit, client_query_rollback,
    client_update_login, client_insert_session, fetchUserForLogin,
    pool_delete_session, fetchUserBySession, updateSessionActivity,
    pool_connect, call, try_catch, try_finally,
    mbind, M_bind, bind, ret, modify, get, lift.

Tactic Notation "tidy_trace" := rewrite <- ?app_assoc; cbn [app].
Tactic Notation "tidy_trace" "in" hyp(H) :=
  rewrite <- ?app_assoc in H; cbn [app] in H.

(** Case analysis on the next entry of the fault plan met in the goal. *)
Ltac fault_cases :=
  match goal with
  | |- context [match faults ?w ?n with _ => _ end] =>
      let e := fresh "e" in
      let H := fresh "Hfault" in
      destruct (faults w n) as [e|] eqn:H; wsimpl
  end.

(** ** The login handler *)

Lemma login_catch_held (err : JSError) (w : World) :
  client w = true ->
  exists o w',
    login_catch err w = (Ok tt, w') /\
    trace w' = trace w ++ rollback_events o ++
                 [ERelease; EConsoleError "Error logging in:" err;
                  ERespond 500 (internal_error err)] /\
    db w' = db w /\ client w' = false /\
    (faults w (ncalls w) = None -> o = Done /\ txn w' = None).
Proof.
  intros Hc. unfold login_catch. munfold. wsimpl. rewrite Hc.
  fault_cases.
  - exists (Raised e). eexists. split; [reflexivity|]. wsimpl. tidy_trace. done.
  - exists Done. eexists. split; [reflexivity|]. wsimpl. tidy_trace. done.
Qed.

Lemma login_catch_free (err : JSError) (w : World) :
  client w = false ->
  login_catch err w =
  (Ok tt, log (ERespond 500 (internal_error err))
              (log (EConsoleError "Error logging in:" err) w)).
Proof.
  intros Hc. unfold login_catch. munfold. wsimpl. by rewrite Hc.
Qed.

Lemma login_catch_extends (err : JSError) (w : World) :
  exists w' l, login_catch err w = (Ok tt, w') /\ trace w' = trace w ++ l.
Proof.
  destruct (client w) eqn:Hc.
  - destruct (login_catch_held err w Hc) as (o & w' & H & Ht & _).
    by eexists _, _.
  - rewrite login_catch_free by done.
    eexists _, _. split; [reflexivity|]. wsimpl. tidy_trace. reflexivity.
Qed.

Lemma listUserPermissions_extends {LC : JsString.Lowercase}
    (v : JSValue) (w : World) :
  exists r w' l, listUserPermissions v w = (r, w') /\ trace w' = trace w ++ l.
Proof.
  unfold listUserPermissions, queryUserPermissions. munfold.
  destruct (negb (truthy v)).
  - exists (Ok []), w, []. by rewrite app_nil_r.
  - fault_cases; [by eexists _, _, _|].
    destruct (bind_integer v); by eexists _, _, _.
Qed.

(** The session part either commits or throws inside the transaction,
    with the committed store untouched and the connection still held. *)
Lemma login_session_cases {LC : JsString.Lowercase}
    (u : User) (w : World) (t0 : Store) :
  txn w = Some t0 -> client w = true ->
  exists r w' l,
    login_session u w = (r, w') /\ trace w' = trace w ++ l /\
    (EQuery Client Commit Done ∈ l \/
     (exists e, r = Throw e) /\ db w' = db w /\ client w' = true /\ Forall quiet l).
Proof.
  intros Htx Hc. unfold login_session. munfold. wsimpl. rewrite Htx. wsimpl.
  fault_cases.
  { eexists _, _, _. split; [reflexivity|]. wsimpl. split; [reflexivity|].
    right. split; [by eexists|]. repeat split; try done. repeat constructor. }
  fault_cases.
  { eexists _, _, _. split; [reflexivity|]. wsimpl. tidy_trace. split; [reflexivity|].
    right. split; [by eexists|]. repeat split; try done. repeat constructor. }
  destruct (Sql.insert_session _ _ _ _) as [d|]; wsimpl.
  2:{ eexists _, _, _. split; [reflexivity|]. wsimpl. tidy_trace. split; [reflexivity|].
      right. split; [by eexists|]. repeat split; try done. repeat constructor. }
  fault_cases.
  { eexists _, _, _. split; [reflexivity|]. wsimpl. tidy_trace. split; [reflexivity|].
    right. split; [by eexists|]. repeat split; try done. repeat constructor. }
  fault_cases.
  { eexists _, _, _. split; [reflexivity|]. wsimpl. tidy_trace. split; [reflexivity|].
    right. split; [by eexists|]. repeat split; try done. repeat constructor. }
  match goal with
  | |- context [listUserPermissions ?v ?w0] =>
      destruct (listUserPermissions_extends v w0) as (r & w' & l & Hl & Ht);
      rewrite Hl
  end.
  wsimpl in Ht. tidy_trace in Ht.
  destruct r as [perms|e]; eexists _, _, _; (split; [reflexivity|]); wsimpl;
    rewrite Ht; tidy_trace; (split; [reflexivity|]); left;
    rewrite !elem_of_cons; tauto.
Qed.

Lemma not_in_recovery (o o' : Outcome) (q : Stmt) (tail : list Event) :
  q <> Rollback -> EQuery Client q o' ∉ tail ->
  EQuery Client q o' ∉ rollback_events o ++ tail.
Proof.
  intros Hq Ht Hin. apply elem_of_app in Hin as [Hin|Hin]; [|done].
  unfold rollback_events in Hin.
  destruct o; repeat (apply elem_of_cons in Hin as [Hin|Hin]; [congruence|]);
    by apply elem_of_nil in Hin.
Qed.

Ltac not_in_list :=
  repeat (lazymatch goal with
          | |- _ ∉ _ :: _ => apply not_elem_of_cons; split; [discriminate|]
          end);
  lazymatch goal with
  | |- _ ∉ [] => apply not_elem_of_nil
  | |- _ ∉ rollback_events _ ++ _ =>
      apply not_in_recovery; [discriminate | not_in_list]
  end.

Ltac use_catch :=
  match goal with
  | |- context [login_catch ?e ?w0] =>
      let o := fresh "o" in
      let w' := fresh "w'" in
      let Hc := fresh "Hc" in
      let Ht := fresh "Ht" in
      let Hd := fresh "Hd" in
      let Hcl := fresh "Hcl" in
      destruct (login_catch_held e w0) as (o & w' & Hc & Ht & Hd & Hcl & _);
      [done|]; rewrite Hc; wsimpl; rewrite Hcl; wsimpl in Ht; wsimpl in Hd;
      tidy_trace in Ht
  end.

(** Every run of the login handler, whatever the fault plan: the
    transaction was not opened, or it committed, or the committed store is
    as before and the trace has one of the two failure shapes. *)
Lemma login_cases {LC : JsString.Lowercase}
    (stn : string -> JSNumber) (req : Request) (w : World) :
  txn w = None ->
  exists l,
    trace (run (login stn req) w) = trace w ++ l /\
    (EQuery Client Begin Done ∉ l \/
     EQuery Client Commit Done ∈ l \/
     (db (run (login stn req) w) = db w /\ failed_login l)).
Proof.
  intros Htx. unfold run, login, login_body.
  destruct (negb (truthy (body_user_id req))
            || negb (Number_isInteger (Number stn (body_user_id req)))).
  { munfold. wsimpl. eexists. split; [reflexivity|]. left. not_in_list. }
  set (uid := integer_value (Number stn (body_user_id req))).
  munfold. wsimpl.
  fault_cases.
  { rewrite login_catch_free by done. wsimpl. tidy_trace.
    eexists. split; [reflexivity|]. left. not_in_list. }
  rewrite Htx. wsimpl.
  fault_cases.
  { use_catch.
    eexists. split; [exact Ht|]. left. not_in_list. }
  fault_cases.
  { use_catch.
    eexists. split; [exact Ht|]. right. right. split; [done|].
    exists [EConnect Done; EQuery Client Begin Done;
            EQuery Client (SelectUserForLogin uid) (Raised e)].
    split; [repeat constructor|]. left. by exists o, e. }
  destruct (normalizeUserRow <$> Sql.select_user_for_login (db w) uid) as [u|].
  - destruct (negb (bool_decide (normalizedStatus u ∈ USER_STATUSES))
              || bool_decide (normalizedStatus u = "inactive")).
    + wsimpl. fault_cases.
      * use_catch.
        eexists. split; [exact Ht|]. right. right. split; [done|].
        exists [EConnect Done; EQuery Client Begin Done;
                EQuery Client (SelectUserForLogin uid) Done;
                EQuery Client Rollback (Raised e)].
        split; [repeat constructor|]. left. by exists o, e.
      * tidy_trace. eexists. split; [reflexivity|]. right. right.
        split; [done|].
        exists [EConnect Done; EQuery Client Begin Done;
                EQuery Client (SelectUserForLogin uid) Done].
        split; [repeat constructor|]. right.
        exists 403, (status_message (normalizedStatus u)). split; [by right|done].
    + match goal with
      | |- context [login_session u ?w1] =>
          destruct (login_session_cases u w1 (db w)) as (r & w2 & l & Hs & Ht & Hcase);
          [reflexivity | reflexivity | rewrite Hs]
      end.
      wsimpl in Ht. tidy_trace in Ht.
      destruct Hcase as [Hcommit | ([e ->] & Hd & Hcl & Hq)].
      * assert (Hrest : exists w3 l3,
                   (match r with Ok a => (Ok a, w2) | Throw e => login_catch e w2 end).2 = w3
                   /\ trace w3 = trace w2 ++ l3).
        { destruct r as [[]|e].
          - exists w2, []. by rewrite app_nil_r.
          - destruct (login_catch_extends e w2) as (w3 & l3 & Hc & Ht3).
            rewrite Hc. by exists w3, l3. }
        destruct Hrest as (w3 & l3 & Hw3 & Ht3).
        destruct (match r with Ok a => (Ok a, w2) | Throw e => login_catch e w2 end)
          as [r3 w3'] eqn:Hm. cbn [snd] in Hw3. subst w3'.
        destruct (client w3); wsimpl.
        -- rewrite Ht3, Ht. tidy_trace. eexists. split; [reflexivity|].
           right. left. rewrite !elem_of_cons, !elem_of_app. tauto.
        -- rewrite Ht3, Ht. tidy_trace. eexists. split; [reflexivity|].
           right. left. rewrite !elem_of_cons, !elem_of_app. tauto.
      * use_catch. rewrite Ht in Ht0. tidy_trace in Ht0.
        eexists. split; [exact Ht0|]. right. right.
        wsimpl in Hd. split; [cbn [snd]; congruence|].
        exists ([EConnect Done; EQuery Client Begin Done;
                 EQuery Client (SelectUserForLogin uid) Done] ++ l).
        split; [by repeat constructor|]. left. by exists o, e.
  - wsimpl. fault_cases.
    + use_catch.
      eexists. split; [exact Ht|]. right. right. split; [done|].
      exists [EConnect Done; EQuery Client Begin Done;
              EQuery Client (SelectUserForLogin uid) Done;
              EQuery Client Rollback (Raised e)].
      split; [repeat constructor|]. left. by exists o, e.
    + tidy_trace. eexists. split; [reflexivity|]. right. right.
      split; [done|].
      exists [EConnect Done; EQuery Client Begin Done;
              EQuery Client (SelectUserForLogin uid) Done].
      split; [repeat constructor|]. right.
      exists 404, "User not found". split; [by left|done].
Qed.

(** Running on while the fault plan [Hf] raises nothing. *)
Ltac run_ok Hf := repeat first [rewrite Hf | progress wsimpl].

Lemma normalizedStatus_account {LC : JsString.Lowercase}
    (d : Store) (uid : Z) (ua : UserAccountRow) :
  normalizedStatus (normalizeUserRow (Sql.join_role d uid ua)) = account_status ua.
Proof. reflexivity. Qed.

(** The two rejections of the login handler, when the store answers. *)
Lemma login_reject_run {LC : JsString.Lowercase}
    (stn : string -> JSNumber) (req : Request) (w : World)
    (found : option User) (code : Z) (msg : string) :
  truthy (body_user_id req) = true ->
  Number_isInteger (Number stn (body_user_id req)) = true ->
  (forall n, faults w n = None) ->
  txn w = None ->
  normalizeUserRow <$> Sql.select_user_for_login (db w)
     (integer_value (Number stn (body_user_id req))) = found ->
  match found with
  | None => code = 404 /\ msg = "User not found"
  | Some u =>
      negb (bool_decide (normalizedStatus u ∈ USER_STATUSES))
      || bool_decide (normalizedStatus u = "inactive") = true /\
      code = 403 /\ msg = status_message (normalizedStatus u)
  end ->
  (login stn req w).1 = Ok tt /\
  emitted w (run (login stn req) w)
  = [EConnect Done; EQuery Client Begin Done;
     EQuery Client (SelectUserForLogin (integer_value (Number stn (body_user_id req)))) Done;
     EQuery Client Rollback Done; ERespond code (BError msg); ERelease] /\
  db (run (login stn req) w) = db w /\
  txn (run (login stn req) w) = None.
Proof.
  intros Hv Hi Hf Htx Hfound Hcase.
  unfold run, login, login_body. rewrite Hv, Hi. change (negb true || negb true) with false. cbv iota.
  munfold. repeat first [rewrite Hf | rewrite Htx | progress wsimpl].
  rewrite Hfound.
  destruct found as [u|].
  - destruct Hcase as (-> & -> & ->). repeat first [rewrite Hf | progress wsimpl].
    split; [done|]. split; [|done]. apply emitted_app. wsimpl. by tidy_trace.
  - destruct Hcase as (-> & ->). repeat first [rewrite Hf | progress wsimpl].
    split; [done|]. split; [|done]. apply emitted_app. wsimpl. by tidy_trace.
Qed.

Lemma listUserPermissions_ok {LC : JsString.Lowercase} (w : World) (uid : Z) :
  faults w (ncalls w) = None ->
  exists w',
    listUserPermissions (VNumber (num_of_Z uid)) w = (Ok (permissions_of (db w) uid), w') /\
    trace w' = trace w ++ permission_lookup uid /\
    db w' = db w /\ txn w' = txn w /\ client w' = client w.
Proof.
  intros Hf. unfold listUserPermissions, permissions_of, permission_lookup.
  rewrite truthy_of_Z. destruct (uid =? 0); cbn [negb].
  - exists w. by rewrite app_nil_r.
  - unfold mbind, M_bind, bind. rewrite queryUserPermissions_ok by done.
    eexists. split; [reflexivity|]. done.
Qed.

Lemma login_session_ok {LC : JsString.Lowercase}
    (u : User) (w : World) (t0 : Store) :
  (forall n, faults w n = None) ->
  txn w = Some t0 ->
  user_session t0 !! uuids w (nuuid w) = None ->
  exists w',
    login_session u w = (Ok tt, w') /\
    db w' = with_user_session
              (insert (uuids w (nuuid w)) (mkSession (user_id u) (clock w)))
              (Sql.update_login (clock w) (user_id u) t0) /\
    txn w' = None /\ client w' = false /\
    trace w' =
      trace w ++
      [EQuery Client (UpdateLogin (user_id u)) Done;
       EQuery Client (InsertSession (uuids w (nuuid w)) (user_id u)) Done;
       EQuery Client (SelectUserForLogin (user_id u)) Done;
       EQuery Client Commit Done; ERelease;
       ESetCookie SESSION_COOKIE_NAME (uuids w (nuuid w)) 604800000] ++
      permission_lookup (user_id u) ++
      [ERespond 200
         (BUser (default u (normalizeUserRow <$>
                   Sql.select_user_for_login (db w') (user_id u)))
                (permissions_of (db w') (user_id u)))].
Proof.
  intros Hf Htx Hfresh. unfold login_session. munfold.
  run_ok Hf. rewrite Htx. run_ok Hf.
  unfold Sql.insert_session.
  change (user_session (Sql.update_login (clock w) (user_id u) t0))
    with (user_session t0).
  rewrite Hfresh. run_ok Hf.
  match goal with
  | |- context [listUserPermissions ?v ?w0] =>
      destruct (listUserPermissions_ok w0 (user_id u)) as (w' & Hl & Ht & Hd & Hx & Hc);
        [apply Hf | rewrite Hl]
  end.
  wsimpl in Ht. wsimpl in Hd. wsimpl in Hx. wsimpl in Hc. tidy_trace in Ht.
  eexists. split; [reflexivity|]. wsimpl.
  rewrite Hd, Hx, Hc, Ht. tidy_trace. done.
Qed.

Lemma alter_present {K : Type} `{Countable K} {A : Type} (f : A -> A) (m : gmap K A) (k : K) (x : A) :
  m !! k = Some x -> alter f k m = <[k := f x]> m.
Proof.
  intros Hk. apply map_eq. intros j.
  destruct (decide (k = j)) as [<-|Hne].
  - by rewrite lookup_alter_eq, lookup_insert_eq, Hk.
  - by rewrite lookup_alter_ne, lookup_insert_ne.
Qed.

(** A login that the store lets through, for an eligible user. *)
Lemma login_accept {LC : JsString.Lowercase}
    (stn : string -> JSNumber) (req : Request) (w : World)
    (ua : UserAccountRow) :
  truthy (body_user_id req) = true ->
  Number_isInteger (Number stn (body_user_id req)) = true ->
  user_account (db w) !! integer_value (Number stn (body_user_id req)) = Some ua ->
  eligible (account_status ua) = true ->
  (forall n, faults w n = None) ->
  txn w = None ->
  user_session (db w) !! uuids w (nuuid w) = None ->
  exists w',
    login stn req w = (Ok tt, w') /\
    db w' = with_user_session
              (insert (uuids w (nuuid w))
                 (mkSession (integer_value (Number stn (body_user_id req))) (clock w)))
              (with_user_account
                 (insert (integer_value (Number stn (body_user_id req)))
                    (Sql.promote (clock w) ua))
                 (db w)) /\
    txn w' = None /\
    emitted w w' =
      [EConnect Done; EQuery Client Begin Done;
       EQuery Client (SelectUserForLogin (integer_value (Number stn (body_user_id req)))) Done;
       EQuery Client (UpdateLogin (integer_value (Number stn (body_user_id req)))) Done;
       EQuery Client (InsertSession (uuids w (nuuid w))
                        (integer_value (Number stn (body_user_id req)))) Done;
       EQuery Client (SelectUserForLogin (integer_value (Number stn (body_user_id req)))) Done;
       EQuery Client Commit Done; ERelease;
       ESetCookie SESSION_COOKIE_NAME (uuids w (nuuid w)) 604800000] ++
      permission_lookup (integer_value (Number stn (body_user_id req))) ++
      [ERespond 200
         (BUser (normalizeUserRow
                   (Sql.join_role (db w) (integer_value (Number stn (body_user_id req)))
                      (Sql.promote (clock w) ua)))
                (permissions_of (db w') (integer_value (Number stn (body_user_id req)))))].
Proof.
  intros Hv Hi Hua Hel Hf Htx Hfresh.
  set (uid := integer_value (Number stn (body_user_id req))) in *.
  unfold login, login_body. rewrite Hv, Hi.
  change (negb true || negb true) with false. cbv iota. fold uid.
  munfold. run_ok Hf. rewrite Htx. run_ok Hf.
  unfold Sql.select_user_for_login at 1. rewrite Hua.
  cbn [fmap option_fmap option_map].
  rewrite normalizedStatus_account.
  assert (Hst : negb (bool_decide (account_status ua ∈ USER_STATUSES))
                || bool_decide (account_status ua = "inactive") = false).
  { unfold eligible in Hel. apply andb_true_iff in Hel as [-> Hn].
    apply negb_true_iff in Hn. by rewrite Hn. }
  rewrite Hst.
  match goal with
  | |- context [login_session ?u ?w0] =>
      destruct (login_session_ok u w0 (db w)) as (w' & Hs & Hd & Hx & Hc & Ht);
        [intros n; apply Hf | reflexivity | exact Hfresh | rewrite Hs]
  end.
  wsimpl in Hd. wsimpl in Ht. tidy_trace in Ht.
  cbn [user_id normalizeUserRow Sql.join_role jr_user_id] in Hd, Ht.
  wsimpl. rewrite Hc. exists w'. split; [reflexivity|].
  assert (Hdb : db w' = with_user_session
            (insert (uuids w (nuuid w)) (mkSession uid (clock w)))
            (with_user_account (insert uid (Sql.promote (clock w) ua)) (db w))).
  { rewrite Hd. unfold Sql.update_login, with_user_account.
    by rewrite (alter_present _ _ _ _ Hua). }
  split; [exact Hdb|]. split; [exact Hx|].
  apply emitted_app. rewrite Ht. do 10 f_equal.
  unfold Sql.select_user_for_login. rewrite Hdb.
  cbn [user_account with_user_session with_user_account].
  rewrite lookup_insert_eq. reflexivity.
Qed.

(** ** Validation of [user_id] *)

(** C4 (amended). When the [user_id] of the body is falsy (missing, [null],
    [0], the empty string, ...) or [Number(user_id)] is not an integer, the
    login handler answers 400 with [{ error: 'user_id is required.' }] and
    makes no store call: nothing else is emitted, no call is counted and the
    store is as before. *)
Theorem login_rejects_invalid_user_id {LC : JsString.Lowercase}
    (stn : string -> JSNumber) (req : Request) (w : World) :
  truthy (body_user_id req) = false
  \/ Number_isInteger (Number stn (body_user_id req)) = false ->
  (login stn req w).1 = Ok tt /\
  emitted w (run (login stn req) w) = [ERespond 400 (BError "user_id is required.")] /\
  ncalls (run (login stn req) w) = ncalls w /\
  db (run (login stn req) w) = db w /\
  txn (run (login stn req) w) = txn w.
Proof.
  intros Hbad. unfold run, login, login_body.
  assert (Hcond : negb (truthy (body_user_id req))
                  || negb (Number_isInteger (Number stn (body_user_id req))) = true).
  { destruct Hbad as [-> | ->]; [reflexivity | apply orb_true_r]. }
  rewrite Hcond. munfold. wsimpl. split; [reflexivity|].
  split; [|done]. by apply emitted_app.
Qed.

Lemma login_rejects_invalid_user_id_witness :
  emitted (Sample.world Sample.no_fault)
    (run (login Sample.StringToNumber
            (Sample.login_request (VString "1; DROP TABLE users;")))
         (Sample.world Sample.no_fault))
  = [ERespond 400 (BError "user_id is required.")].
Proof.
  apply (login_rejects_invalid_user_id Sample.StringToNumber
           (Sample.login_request (VString "1; DROP TABLE users;"))
           (Sample.world Sample.no_fault)).
  right. reflexivity.
Defined.

(** C4, as stated, fails: [-5] is not a positive integer, yet it passes the
    validation; the handler opens a transaction, looks user [-5] up and
    answers 404. *)
Lemma login_negative_user_id_reaches_store :
  truthy (VNumber (num_of_Z (-5))) = true /\
  Number_isInteger (Number Sample.StringToNumber (VNumber (num_of_Z (-5)))) = true /\
  ~ 0 < integer_value (Number Sample.StringToNumber (VNumber (num_of_Z (-5)))) /\
  emitted (Sample.world Sample.no_fault)
    (run (login Sample.StringToNumber (Sample.login_request (VNumber (num_of_Z (-5)))))
         (Sample.world Sample.no_fault))
  = [EConnect Done; EQuery Client Begin Done;
     EQuery Client (SelectUserForLogin (-5)) Done;
     EQuery Client Rollback Done;
     ERespond 404 (BError "User not found"); ERelease] /\
  emitted (Sample.world Sample.no_fault)
    (run (login Sample.StringToNumber (Sample.login_request (VNumber (num_of_Z (-5)))))
         (Sample.world Sample.no_fault))
  <> [ERespond 400 (BError "user_id is required.")].
Proof.
  assert (He : emitted (Sample.world Sample.no_fault)
    (run (login Sample.StringToNumber (Sample.login_request (VNumber (num_of_Z (-5)))))
         (Sample.world Sample.no_fault))
  = [EConnect Done; EQuery Client Begin Done;
     EQuery Client (SelectUserForLogin (-5)) Done;
     EQuery Client Rollback Done;
     ERespond 404 (BError "User not found"); ERelease])
    by (vm_compute; reflexivity).
  split; [reflexivity|]. split; [reflexivity|]. split; [vm_compute; discriminate|].
  split; [exact He|]. rewrite He. discriminate.
Qed.

(** ** Rejected logins *)

(** C5, as stated, fails: the stored status [ACTIVE] is outside [pending],
    [active], [inactive], and so is [ active ] with its blanks, yet the
    handler, which compares the trimmed and lowercased status, lets both
    users in: it commits, sets the cookie and answers 200. *)
Lemma login_unnormalized_status_is_admitted :
  ("ACTIVE" ∉ ["pending"; "active"; "inactive"]) /\
  (" active " ∉ ["pending"; "active"; "inactive"]) /\
  emitted (Sample.world_with 14 "ACTIVE")
    (run (login Sample.StringToNumber (Sample.login_request (VNumber (num_of_Z 14))))
         (Sample.world_with 14 "ACTIVE"))
  = [EConnect Done; EQuery Client Begin Done;
     EQuery Client (SelectUserForLogin 14) Done;
     EQuery Client (UpdateLogin 14) Done;
     EQuery Client (InsertSession "7c9e6679-7425-40de-944b-e07fc1f90ae7" 14) Done;
     EQuery Client (SelectUserForLogin 14) Done;
     EQuery Client Commit Done; ERelease;
     ESetCookie "pp_session" "7c9e6679-7425-40de-944b-e07fc1f90ae7" 604800000;
     EQuery Pool (SelectUserPermissions (VNumber (num_of_Z 14))) Done;
     ERespond 200
       (BUser (mkUser 14 (Some 2) (Some "Admin") (Some "Admin") (Some "Admin")
                 (Some "/Dashboard") "user@example.com" (Some "User")
                 (Some "ACTIVE") (Some 1000))
              ["manage users"; "view locations"])] /\
  last (emitted (Sample.world_with 14 " active ")
          (run (login Sample.StringToNumber
                  (Sample.login_request (VNumber (num_of_Z 14))))
               (Sample.world_with 14 " active ")))
  = Some (ERespond 200
            (BUser (mkUser 14 (Some 2) (Some "Admin") (Some "Admin") (Some "Admin")
                      (Some "/Dashboard") "user@example.com" (Some "User")
                      (Some " active ") (Some 1000))
                   ["manage users"; "view locations"])).
Proof.
  split; [apply (bool_decide_unpack _); by vm_compute|].
  split; [apply (bool_decide_unpack _); by vm_compute|].
  split; vm_compute; reflexivity.
Qed.

(** C5 (amended). When the store answers, a login for an existing user
    whose status reads [inactive], once trimmed and lowercased as the
    handler does, is answered 403 with
    [{ error: 'User account is inactive' }]; a status that, so read, is
    outside [pending], [active], [inactive] is answered 403 too.  In both
    cases the handler issues [ROLLBACK] before it answers, the transaction
    is closed, the store is as before, and no permission lookup is made. *)
Theorem login_rejects_ineligible_status {LC : JsString.Lowercase}
    (stn : string -> JSNumber) (req : Request) (w : World) (ua : UserAccountRow) :
  truthy (body_user_id req) = true ->
  Number_isInteger (Number stn (body_user_id req)) = true ->
  user_account (db w) !! integer_value (Number stn (body_user_id req)) = Some ua ->
  account_status ua = "inactive" \/ account_status ua ∉ USER_STATUSES ->
  (forall n, faults w n = None) ->
  txn w = None ->
  (login stn req w).1 = Ok tt /\
  emitted w (run (login stn req) w)
  = [EConnect Done; EQuery Client Begin Done;
     EQuery Client (SelectUserForLogin (integer_value (Number stn (body_user_id req)))) Done;
     EQuery Client Rollback Done;
     ERespond 403 (BError (status_message (account_status ua)));
     ERelease] /\
  (account_status ua = "inactive" ->
   status_message (account_status ua) = "User account is inactive") /\
  (forall v o,
      EQuery Pool (SelectUserPermissions v) o ∉ emitted w (run (login stn req) w)) /\
  db (run (login stn req) w) = db w /\
  txn (run (login stn req) w) = None.
Proof.
  intros Hv Hi Hua Hst Hf Htx.
  destruct (login_reject_run stn req w
              (Some (normalizeUserRow
                       (Sql.join_role (db w)
                          (integer_value (Number stn (body_user_id req))) ua)))
              403 (status_message (account_status ua)) Hv Hi Hf Htx)
    as (H1 & H2 & H3 & H4).
  - unfold Sql.select_user_for_login. by rewrite Hua.
  - rewrite normalizedStatus_account. split; [|done].
    destruct Hst as [-> | Hn]; [reflexivity|].
    by rewrite bool_decide_eq_false_2.
  - split_and!; try done; [by intros -> |].
    intros v o. rewrite H2.
    repeat (apply not_elem_of_cons; split; [discriminate|]). apply not_elem_of_nil.
Qed.

Lemma login_rejects_ineligible_status_witness :
  emitted (Sample.world Sample.no_fault)
    (run (login Sample.StringToNumber (Sample.login_request (VNumber (num_of_Z 10))))
         (Sample.world Sample.no_fault))
  = [EConnect Done; EQuery Client Begin Done;
     EQuery Client (SelectUserForLogin 10) Done;
     EQuery Client Rollback Done;
     ERespond 403 (BError "User account is inactive");
     ERelease].
Proof.
  destruct (login_rejects_ineligible_status Sample.StringToNumber
              (Sample.login_request (VNumber (num_of_Z 10)))
              (Sample.world Sample.no_fault)
              (Sample.account "inactive" (Some 2)))
    as (_ & Htrace & _);
    [reflexivity | reflexivity | reflexivity | by left | reflexivity | reflexivity |].
  exact Htrace.
Defined.

Example login_unrecognized_status_sample :
  emitted (Sample.world Sample.no_fault)
    (run (login Sample.StringToNumber (Sample.login_request (VNumber (num_of_Z 13))))
         (Sample.world Sample.no_fault))
  = [EConnect Done; EQuery Client Begin Done;
     EQuery Client (SelectUserForLogin 13) Done;
     EQuery Client Rollback Done;
     ERespond 403 (BError "User status does not permit login");
     ERelease].
Proof. vm_compute. reflexivity. Qed.

Lemma promote_pending (now : Z) (ua : UserAccountRow) :
  ua_status ua = Some "pending" -> Sql.promote now ua = logged_in now ua.
Proof. intros H. unfold Sql.promote, logged_in. by rewrite H. Qed.

Lemma permissions_of_resolves {LC : JsString.Lowercase} (d : Store) (uid : Z) :
  uid <> 0 -> resolves d uid (permissions_of d uid).
Proof.
  intros H. unfold permissions_of.
  replace (uid =? 0) with false by (symmetry; by apply Z.eqb_neq).
  apply of_array_resolves.
Qed.

(** ** Successful login *)

(** C3. When the store answers and [randomUUID] draws an id that is not yet
    a session key, a login for an existing user whose status is [pending]
    succeeds: the account becomes [active] with [last_login_at] set to the
    current time, exactly one session row is added, keyed by the drawn id,
    the session cookie is set to that id, and the answer is 200 with the
    fields of the updated user and the array of permissions. *)
Theorem login_pending_succeeds {LC : JsString.Lowercase}
    (stn : string -> JSNumber) (req : Request) (w : World) (ua : UserAccountRow) :
  truthy (body_user_id req) = true ->
  Number_isInteger (Number stn (body_user_id req)) = true ->
  user_account (db w) !! login_key stn req = Some ua ->
  ua_status ua = Some "pending" ->
  (forall n, faults w n = None) ->
  txn w = None ->
  user_session (db w) !! uuids w (nuuid w) = None ->
  (login stn req w).1 = Ok tt /\
  user_account (db (run (login stn req) w))
  = <[login_key stn req := logged_in (clock w) ua]> (user_account (db w)) /\
  user_session (db (run (login stn req) w))
  = <[uuids w (nuuid w) := mkSession (login_key stn req) (clock w)]>
      (user_session (db w)) /\
  size (user_session (db (run (login stn req) w)))
  = S (size (user_session (db w))) /\
  role (db (run (login stn req) w)) = role (db w) /\
  role_permission (db (run (login stn req) w)) = role_permission (db w) /\
  permission (db (run (login stn req) w)) = permission (db w) /\
  txn (run (login stn req) w) = None /\
  emitted w (run (login stn req) w)
  = [EConnect Done; EQuery Client Begin Done;
     EQuery Client (SelectUserForLogin (login_key stn req)) Done;
     EQuery Client (UpdateLogin (login_key stn req)) Done;
     EQuery Client (InsertSession (uuids w (nuuid w)) (login_key stn req)) Done;
     EQuery Client (SelectUserForLogin (login_key stn req)) Done;
     EQuery Client Commit Done; ERelease;
     ESetCookie SESSION_COOKIE_NAME (uuids w (nuuid w)) 604800000] ++
    permission_lookup (login_key stn req) ++
    [ERespond 200
       (BUser (normalizeUserRow
                 (Sql.join_role (db w) (login_key stn req) (logged_in (clock w) ua)))
              (permissions_of (db (run (login stn req) w)) (login_key stn req)))] /\
  (login_key stn req <> 0 ->
   resolves (db (run (login stn req) w)) (login_key stn req)
            (permissions_of (db (run (login stn req) w)) (login_key stn req))).
Proof.
  intros Hv Hi Hua Hst Hf Htx Hfresh.
  destruct (login_accept stn req w ua Hv Hi Hua) as (w' & Hl & Hd & Hx & He);
    [ unfold account_status; rewrite Hst; cbn [default];
      change (JsString.trim "pending") with "pending";
      by rewrite toLowerCase_word
    | done | done | done | ].
  unfold run. rewrite Hl. cbn [fst snd].
  rewrite (promote_pending _ _ Hst) in Hd, He.
  fold (login_key stn req) in Hd, He.
  split_and!; try done; try (by rewrite Hd).
  - rewrite Hd. cbn [user_session with_user_session with_user_account].
    by rewrite map_size_insert_None.
  - intros Hnz. by apply permissions_of_resolves.
Qed.

Lemma login_pending_succeeds_witness :
  (login Sample.StringToNumber (Sample.login_request (VString "11"))
         (Sample.world Sample.no_fault)).1 = Ok tt /\
  user_account (db (run (login Sample.StringToNumber (Sample.login_request (VString "11")))
                        (Sample.world Sample.no_fault)))
  = <[11 := logged_in 1000 (Sample.account "pending" (Some 2))]>
      (user_account Sample.store).
Proof.
  destruct (login_pending_succeeds Sample.StringToNumber
              (Sample.login_request (VString "11"))
              (Sample.world Sample.no_fault)
              (Sample.account "pending" (Some 2)))
    as (H1 & H2 & _);
    [reflexivity | reflexivity | reflexivity | reflexivity | reflexivity
    | reflexivity | reflexivity | ].
  split; [exact H1 | exact H2].
Defined.

Example login_pending_sample :
  emitted (Sample.world Sample.no_fault)
    (run (login Sample.StringToNumber (Sample.login_request (VNumber (num_of_Z 11))))
         (Sample.world Sample.no_fault))
  = [EConnect Done; EQuery Client Begin Done;
     EQuery Client (SelectUserForLogin 11) Done;
     EQuery Client (UpdateLogin 11) Done;
     EQuery Client (InsertSession "7c9e6679-7425-40de-944b-e07fc1f90ae7" 11) Done;
     EQuery Client (SelectUserForLogin 11) Done;
     EQuery Client Commit Done; ERelease;
     ESetCookie "pp_session" "7c9e6679-7425-40de-944b-e07fc1f90ae7" 604800000;
     EQuery Pool (SelectUserPermissions (VNumber (num_of_Z 11))) Done;
     ERespond 200
       (BUser (mkUser 11 (Some 2) (Some "Admin") (Some "Admin") (Some "Admin")
                 (Some "/Dashboard") "user@example.com" (Some "User")
                 (Some "active") (Some 1000))
              ["manage users"; "view locations"])].
Proof. vm_compute. reflexivity. Qed.

(** ** Atomicity of the login transaction *)

(** C2, as stated, fails: for an unknown user the handler answers 404
    first and releases the connection afterwards, in its [finally]. *)
Lemma login_unknown_user_responds_before_release :
  user_account Sample.store !! (99 : Z) = None /\
  emitted (Sample.world Sample.no_fault)
    (run (login Sample.StringToNumber (Sample.login_request (VNumber (num_of_Z 99))))
         (Sample.world Sample.no_fault))
  = [EConnect Done; EQuery Client Begin Done;
     EQuery Client (SelectUserForLogin 99) Done;
     EQuery Client Rollback Done;
     ERespond 404 (BError "User not found"); ERelease] /\
  ~ released_before_response
      (emitted (Sample.world Sample.no_fault)
         (run (login Sample.StringToNumber (Sample.login_request (VNumber (num_of_Z 99))))
              (Sample.world Sample.no_fault))).
Proof.
  assert (He : emitted (Sample.world Sample.no_fault)
    (run (login Sample.StringToNumber (Sample.login_request (VNumber (num_of_Z 99))))
         (Sample.world Sample.no_fault))
  = [EConnect Done; EQuery Client Begin Done;
     EQuery Client (SelectUserForLogin 99) Done;
     EQuery Client Rollback Done;
     ERespond 404 (BError "User not found"); ERelease])
    by (vm_compute; reflexivity).
  split; [reflexivity|]. split; [exact He|].
  rewrite He. intros H.
  destruct (H 4%nat (ERespond 404 (BError "User not found")) eq_refl eq_refl)
    as (j & e' & Hj & Hl & Hrel).
  do 4 (destruct j as [|j]; [injection Hl as <-; discriminate|]). lia.
Qed.

Lemma quiet_silent (pre : list Event) :
  Forall quiet pre ->
  filter (fun e => is_release e = true) pre = [] /\
  filter (fun e => is_response e = true) pre = [] /\
  forall i e, pre !! i = Some e -> is_response e = false.
Proof.
  induction 1 as [|e pre He Hpre IH].
  - split_and!; [done | done | intros i e Hi; by rewrite lookup_nil in Hi].
  - destruct IH as (IH1 & IH2 & IH3).
    destruct e; try done; cbn in He.
    + rewrite !filter_cons_False by (cbn; discriminate). split_and!; [done|done|].
      intros [|i] e' Hi; cbn in Hi; [by injection Hi as <- | eauto].
    + rewrite !filter_cons_False by (cbn; discriminate). split_and!; [done|done|].
      intros [|i] e' Hi; cbn in Hi; [by injection Hi as <- | eauto].
Qed.

(** In a failed login the rollback comes before the response, and there
    is one release and one response. *)
Lemma failed_login_order (l : list Event) :
  failed_login l ->
  precedes is_rollback is_response l /\
  length (filter (fun e => is_release e = true) l) = 1%nat /\
  length (filter (fun e => is_response e = true) l) = 1%nat.
Proof.
  intros (pre & Hq & Hshape).
  destruct (quiet_silent pre Hq) as (Hrel & Hresp & Hidx).
  assert (Hprec : forall tail o,
             precedes is_rollback is_response (pre ++ EQuery Client Rollback o :: tail)).
  { intros tail o i e Hi He.
    destruct (decide (i < length pre)%nat) as [Hlt|Hge].
    - rewrite lookup_app_l in Hi by done. rewrite (Hidx _ _ Hi) in He. discriminate.
    - destruct (decide (i = length pre)) as [->|Hne].
      + rewrite list_lookup_middle in Hi by done. injection Hi as <-. discriminate.
      + exists (length pre), (EQuery Client Rollback o). split; [lia|].
        split; [by apply list_lookup_middle | done]. }
  destruct Hshape as [(o & err & ->) | (code & msg & _ & ->)].
  - split; [apply Hprec|].
    rewrite !filter_app, Hrel, Hresp. destruct o; done.
  - split; [apply Hprec|].
    rewrite !filter_app, Hrel, Hresp. done.
Qed.

(** C2 (amended). A login whose transaction was opened and did not
    commit leaves the committed store as it was, and its trace has one of
    the shapes of [failed_login]: [ROLLBACK] is issued before the response
    and the connection is released once, before the 500 response when a
    step raised, after the 404 or 403 response when the user is rejected.
    In particular, when the store answers, an unknown [user_id] is answered
    404 with [{ error: 'User not found' }] and the store, the session table
    included, is as before. *)
Theorem login_failure_rolls_back {LC : JsString.Lowercase}
    (stn : string -> JSNumber) (req : Request) (w : World) :
  txn w = None ->
  (EQuery Client Begin Done ∈ emitted w (run (login stn req) w) ->
   EQuery Client Commit Done ∉ emitted w (run (login stn req) w) ->
   db (run (login stn req) w) = db w /\
   failed_login (emitted w (run (login stn req) w)) /\
   precedes is_rollback is_response (emitted w (run (login stn req) w)) /\
   length (filter (fun e => is_release e = true)
             (emitted w (run (login stn req) w))) = 1%nat /\
   length (filter (fun e => is_response e = true)
             (emitted w (run (login stn req) w))) = 1%nat)
  /\
  (truthy (body_user_id req) = true ->
   Number_isInteger (Number stn (body_user_id req)) = true ->
   user_account (db w) !! login_key stn req = None ->
   (forall n, faults w n = None) ->
   (login stn req w).1 = Ok tt /\
   emitted w (run (login stn req) w)
   = [EConnect Done; EQuery Client Begin Done;
      EQuery Client (SelectUserForLogin (login_key stn req)) Done;
      EQuery Client Rollback Done;
      ERespond 404 (BError "User not found"); ERelease] /\
   db (run (login stn req) w) = db w /\
   txn (run (login stn req) w) = None).
Proof.
  intros Htx. split.
  - destruct (login_cases stn req w Htx) as (l & Ht & Hcase).
    rewrite (emitted_app _ _ _ Ht). intros Hb Hc.
    destruct Hcase as [? | [? | [Hd Hfail]]]; [done | done |].
    split; [exact Hd|]. split; [exact Hfail|]. by apply failed_login_order.
  - intros Hv Hi Hua Hf.
    apply (login_reject_run stn req w None); try done.
    unfold Sql.select_user_for_login. fold (login_key stn req). by rewrite Hua.
Qed.

Lemma login_failure_rolls_back_witness :
  db (run (login Sample.StringToNumber (Sample.login_request (VNumber (num_of_Z 11))))
          (Sample.world (Sample.fault_at 4)))
  = Sample.store /\
  failed_login
    (emitted (Sample.world (Sample.fault_at 4))
       (run (login Sample.StringToNumber (Sample.login_request (VNumber (num_of_Z 11))))
            (Sample.world (Sample.fault_at 4)))).
Proof.
  cut (db (run (login Sample.StringToNumber
                  (Sample.login_request (VNumber (num_of_Z 11))))
               (Sample.world (Sample.fault_at 4)))
       = db (Sample.world (Sample.fault_at 4)) /\
       failed_login
         (emitted (Sample.world (Sample.fault_at 4))
            (run (login Sample.StringToNumber
                    (Sample.login_request (VNumber (num_of_Z 11))))
                 (Sample.world (Sample.fault_at 4)))) /\
       precedes is_rollback is_response
         (emitted (Sample.world (Sample.fault_at 4))
            (run (login Sample.StringToNumber
                    (Sample.login_request (VNumber (num_of_Z 11))))
                 (Sample.world (Sample.fault_at 4)))) /\
       length (filter (fun e => is_release e = true)
                 (emitted (Sample.world (Sample.fault_at 4))
                    (run (login Sample.StringToNumber
                            (Sample.login_request (VNumber (num_of_Z 11))))
                         (Sample.world (Sample.fault_at 4))))) = 1%nat /\
       length (filter (fun e => is_response e = true)
                 (emitted (Sample.world (Sample.fault_at 4))
                    (run (login Sample.StringToNumber
                            (Sample.login_request (VNumber (num_of_Z 11))))
                         (Sample.world (Sample.fault_at 4))))) = 1%nat);
    [intros (H1 & H2 & _); split; [exact H1 | exact H2] |].
  assert (He : emitted (Sample.world (Sample.fault_at 4))
       (run (login Sample.StringToNumber (Sample.login_request (VNumber (num_of_Z 11))))
            (Sample.world (Sample.fault_at 4)))
    = [EConnect Done; EQuery Client Begin Done;
       EQuery Client (SelectUserForLogin 11) Done;
       EQuery Client (UpdateLogin 11) Done;
       EQuery Client (InsertSession "7c9e6679-7425-40de-944b-e07fc1f90ae7" 11)
         (Raised Sample.boom);
       EQuery Client Rollback Done; ERelease;
       EConsoleError "Error logging in:" Sample.boom;
       ERespond 500 (BError "Internal server error, connection terminated")])
    by (vm_compute; reflexivity).
  destruct (login_failure_rolls_back Sample.StringToNumber
              (Sample.login_request (VNumber (num_of_Z 11)))
              (Sample.world (Sample.fault_at 4))) as [H _]; [reflexivity|].
  apply H; rewrite He.
  - apply list_elem_of_further, list_elem_of_here.
  - repeat (apply not_elem_of_cons; split; [discriminate|]). apply not_elem_of_nil.
Defined.

(** ** Session resolution and the identity middleware *)

Lemma present_nonempty (sid : string) : sid <> "" -> present (Some sid) = Some sid.
Proof. intros H. unfold present. by rewrite nonempty_true. Qed.

Lemma select_user_by_session_none (d : Store) (sid : string) :
  Sql.select_user_by_session d sid = None <->
  user_session d !! sid = None \/
  exists s, user_session d !! sid = Some s /\ user_account d !! s_user_id s = None.
Proof.
  unfold Sql.select_user_by_session.
  destruct (user_session d !! sid) as [s|]; cbn.
  - destruct (user_account d !! s_user_id s) eqn:Hu; cbn.
    + split; [discriminate|]. intros [?|(s' & Hs & Hn)]; [discriminate|].
      injection Hs as <-. congruence.
    + split; [|done]. intros _. right. by exists s.
  - split; [by left|done].
Qed.

Lemma fetchUserBySession_ok (sid : string) (w : World) :
  faults w (ncalls w) = None ->
  fetchUserBySession sid w =
  (Ok (normalizeUserRow <$> Sql.select_user_by_session (db w) sid),
   log (EQuery Pool (SelectUserBySession sid) Done) (count_call w)).
Proof. intros Hf. unfold fetchUserBySession, call. by rewrite Hf. Qed.

(** C7. When the store answers, resolving a session id yields [null]
    exactly when the session row is missing or the user it names is
    missing; and then, on a path that is not exempt and for a method other
    than [OPTIONS], the identity middleware clears the session cookie and
    answers 401; it does not call [next()] and the request comes back as it
    was, with no user attached. *)
Theorem session_resolution_fails_closed (w : World) (sid : string) :
  faults w (ncalls w) = None ->
  ((fetchUserBySession sid w).1 = Ok None <->
   user_session (db w) !! sid = None \/
   exists s, user_session (db w) !! sid = Some s /\
             user_account (db w) !! s_user_id s = None)
  /\
  (forall req,
      method req <> "OPTIONS" ->
      isAuthExemptPath (path req) = false ->
      extractSessionId req = Ok (Some sid) ->
      sid <> "" ->
      (fetchUserBySession sid w).1 = Ok None ->
      (authenticate req w).1 = Ok req /\
      emitted w (run (authenticate req) w)
      = [EQuery Pool (SelectUserBySession sid) Done;
         EClearCookie SESSION_COOKIE_NAME;
         ERespond 401 (BError "Not authenticated")] /\
      db (run (authenticate req) w) = db w).
Proof.
  intros Hf. rewrite fetchUserBySession_ok by done. cbn [fst]. split.
  - rewrite <- select_user_by_session_none.
    destruct (Sql.select_user_by_session (db w) sid); cbn; split; congruence.
  - intros req Hm Hp Hx Hs Hnone.
    unfold run, authenticate, try_catch.
    rewrite bool_decide_eq_false_2 by done. rewrite Hp. cbn [orb].
    unfold mbind, M_bind, bind, lift. rewrite Hx, (present_nonempty _ Hs).
    rewrite fetchUserBySession_ok by done.
    destruct (normalizeUserRow <$> Sql.select_user_by_session (db w) sid);
      [discriminate|].
    munfold. wsimpl. split; [reflexivity|]. split; [|reflexivity].
    apply emitted_app. wsimpl. by tidy_trace.
Qed.

Lemma session_resolution_fails_closed_witness :
  (fetchUserBySession "s2" (Sample.world Sample.no_fault)).1 = Ok None /\
  emitted (Sample.world Sample.no_fault)
    (run (authenticate (mkRequest "GET" "/location" (Some "theme=dark; pp_session=s2")
                          VUndefined None None None))
         (Sample.world Sample.no_fault))
  = [EQuery Pool (SelectUserBySession "s2") Done;
     EClearCookie SESSION_COOKIE_NAME;
     ERespond 401 (BError "Not authenticated")].
Proof.
  destruct (session_resolution_fails_closed (Sample.world Sample.no_fault) "s2")
    as [H1 H2]; [reflexivity|].
  assert (Hnone : (fetchUserBySession "s2" (Sample.world Sample.no_fault)).1 = Ok None).
  { apply H1. right. exists (mkSession 77 0). split; reflexivity. }
  split; [exact Hnone|].
  apply (H2 (mkRequest "GET" "/location" (Some "theme=dark; pp_session=s2")
               VUndefined None None None));
    [discriminate | reflexivity | reflexivity | discriminate | exact Hnone].
Defined.

(** ** Logout *)

(** C8, as stated, fails: a session cookie whose value is not well-formed
    percent-encoding makes [extractSessionId] throw; logout answers 500 and
    does not clear the cookie. *)
Lemma logout_malformed_cookie_answers_500 :
  emitted (Sample.world Sample.no_fault)
    (run (logout (Sample.logout_request (Some "pp_session=%")))
         (Sample.world Sample.no_fault))
  = [EConsoleError "Error logging out:" URIError;
     ERespond 500 (BError "Internal server error, URI malformed")] /\
  ERespond 204 BEmpty
  ∉ emitted (Sample.world Sample.no_fault)
      (run (logout (Sample.logout_request (Some "pp_session=%")))
           (Sample.world Sample.no_fault)) /\
  EClearCookie SESSION_COOKIE_NAME
  ∉ emitted (Sample.world Sample.no_fault)
      (run (logout (Sample.logout_request (Some "pp_session=%")))
           (Sample.world Sample.no_fault)).
Proof.
  assert (He : emitted (Sample.world Sample.no_fault)
    (run (logout (Sample.logout_request (Some "pp_session=%")))
         (Sample.world Sample.no_fault))
  = [EConsoleError "Error logging out:" URIError;
     ERespond 500 (BError "Internal server error, URI malformed")])
    by (vm_compute; reflexivity).
  rewrite He. split; [reflexivity|].
  split; repeat (apply not_elem_of_cons; split; [discriminate|]);
    apply not_elem_of_nil.
Qed.

Lemma logout_ok (req : Request) (w : World) (sessionId : option string) :
  extractSessionId req = Ok sessionId ->
  faults w (ncalls w) = None ->
  exists w',
    logout req w = (Ok tt, w') /\
    trace w' = trace w ++ logout_delete sessionId
                 ++ [EClearCookie SESSION_COOKIE_NAME; ERespond 204 BEmpty] /\
    db w' = logged_out sessionId (db w) /\
    faults w' = faults w /\
    ncalls w' = (ncalls w + length (logout_delete sessionId))%nat.
Proof.
  intros Hx Hf. unfold logout, logout_delete, logged_out. munfold. rewrite Hx.
  destruct (present sessionId) as [sid|].
  - rewrite Hf. wsimpl. eexists. split; [reflexivity|]. wsimpl. tidy_trace.
    split_and!; try done; cbn; lia.
  - eexists. split; [reflexivity|]. wsimpl. tidy_trace.
    split_and!; try done; cbn; lia.
Qed.

Lemma logged_out_idempotent (sessionId : option string) (d : Store) :
  logged_out sessionId (logged_out sessionId d) = logged_out sessionId d.
Proof.
  unfold logged_out. destruct (present sessionId) as [sid|]; [|done].
  unfold Sql.delete_session, with_user_session. cbn [user_account role role_permission permission user_session].
  by rewrite delete_delete_eq.
Qed.

(** C8 (amended). When the session id can be read from the cookie header
    and the store answers, logout answers 204 and clears the session cookie,
    whether or not the cookie names a stored session; the session it names
    is gone afterwards; and a second logout with the same cookie answers
    204 and clears the cookie again and leaves the store as the first left
    it. *)
Theorem logout_clears_and_is_idempotent
    (req : Request) (w : World) (sessionId : option string) :
  extractSessionId req = Ok sessionId ->
  (forall n, faults w n = None) ->
  (logout req w).1 = Ok tt /\
  emitted w (run (logout req) w)
  = logout_delete sessionId ++ [EClearCookie SESSION_COOKIE_NAME; ERespond 204 BEmpty] /\
  (forall sid, present sessionId = Some sid ->
               user_session (db (run (logout req) w)) !! sid = None) /\
  (logout req (run (logout req) w)).1 = Ok tt /\
  emitted (run (logout req) w) (run (logout req) (run (logout req) w))
  = logout_delete sessionId ++ [EClearCookie SESSION_COOKIE_NAME; ERespond 204 BEmpty] /\
  db (run (logout req) (run (logout req) w)) = db (run (logout req) w).
Proof.
  intros Hx Hf.
  destruct (logout_ok req w sessionId Hx (Hf _)) as (w1 & H1 & Ht1 & Hd1 & Hf1 & _).
  unfold run. rewrite H1. cbn [fst snd].
  destruct (logout_ok req w1 sessionId Hx) as (w2 & H2 & Ht2 & Hd2 & _).
  { rewrite Hf1. apply Hf. }
  rewrite H2. cbn [fst snd].
  split_and!; try done.
  - by apply emitted_app.
  - intros sid Hs. rewrite Hd1. unfold logged_out. rewrite Hs.
    apply lookup_delete_eq.
  - by apply emitted_app.
  - by rewrite Hd2, Hd1, logged_out_idempotent.
Qed.

Lemma logout_clears_and_is_idempotent_witness :
  emitted (Sample.world Sample.no_fault)
    (run (logout (Sample.logout_request (Some "pp_session=s1")))
         (Sample.world Sample.no_fault))
  = [EQuery Pool (DeleteSession "s1") Done;
     EClearCookie SESSION_COOKIE_NAME; ERespond 204 BEmpty] /\
  db (run (logout (Sample.logout_request (Some "pp_session=s1")))
       (run (logout (Sample.logout_request (Some "pp_session=s1")))
            (Sample.world Sample.no_fault)))
  = db (run (logout (Sample.logout_request (Some "pp_session=s1")))
            (Sample.world Sample.no_fault)).
Proof.
  destruct (logout_clears_and_is_idempotent
              (Sample.logout_request (Some "pp_session=s1"))
              (Sample.world Sample.no_fault) (Some "s1"))
    as (_ & H1 & _ & _ & _ & H2); [reflexivity | reflexivity |].
  split; [exact H1 | exact H2].
Defined.

Example logout_without_cookie_sample :
  emitted (Sample.world Sample.no_fault)
    (run (logout (Sample.logout_request None)) (Sample.world Sample.no_fault))
  = [EClearCookie SESSION_COOKIE_NAME; ERespond 204 BEmpty].
Proof. vm_compute. reflexivity. Qed.

Example logout_store_failure_sample :
  emitted (Sample.world (Sample.fault_at 0))
    (run (logout (Sample.logout_request (Some "pp_session=s1")))
         (Sample.world (Sample.fault_at 0)))
  = [EQuery Pool (DeleteSession "s1") (Raised Sample.boom);
     EConsoleError "Error logging out:" Sample.boom;
     ERespond 500 (BError "Internal server error, connection terminated")].
Proof. vm_compute. reflexivity. Qed.

(** * Further properties *)

(** ** The permission cache of a request *)

(** X1. Once [getUserPermissions] has returned a set for a request, every
    later resolution on the request it handed back returns the same set and
    leaves the state as it is: no second store call is made, whatever the
    store has become. *)
Theorem getUserPermissions_memoized {LC : JsString.Lowercase}
    (req req' : Request) (w w' : World) (S : JsSet.t) :
  getUserPermissions req w = (Ok (S, req'), w') ->
  forall w2, getUserPermissions req' w2 = (Ok (S, req'), w2).
Proof.
  unfold getUserPermissions. intros H w2.
  destruct (user req) as [u|] eqn:Hu.
  - destruct (permissionCache req) as [s|] eqn:Hc.
    + injection H as <- <- <-. by rewrite Hu, Hc.
    + unfold mbind, M_bind, bind in H.
      destruct (queryUserPermissions _ w) as [[perms|e] w1]; [|discriminate].
      injection H as <- <- <-.
      cbn [user permissionCache set_permissionCache]. by rewrite Hu.
  - injection H as <- <- <-. by rewrite Hu.
Qed.

Lemma getUserPermissions_memoized_witness :
  getUserPermissions
    (set_permissionCache ["manage users"; "view locations"]
       (Sample.request_of "GET" (Some Sample.admin)))
    (Sample.world (Sample.fault_at 0))
  = (Ok (["manage users"; "view locations"],
         set_permissionCache ["manage users"; "view locations"]
           (Sample.request_of "GET" (Some Sample.admin))),
     Sample.world (Sample.fault_at 0)).
Proof.
  exact (getUserPermissions_memoized
           (Sample.request_of "GET" (Some Sample.admin)) _
           (Sample.world Sample.no_fault) _ _ eq_refl
           (Sample.world (Sample.fault_at 0))).
Defined.

(** ** What the gate does and never does *)

Lemma getUserPermissions_cases {LC : JsString.Lowercase}
    (req : Request) (w : World) :
  (exists S req', getUserPermissions req w = (Ok (S, req'), w)) \/
  (exists S req' v,
      getUserPermissions req w
      = (Ok (S, req'), log (EQuery Pool (SelectUserPermissions v) Done) (count_call w))) \/
  (exists e v,
      getUserPermissions req w
      = (Throw e, log (EQuery Pool (SelectUserPermissions v) (Raised e)) (count_call w))).
Proof.
  unfold getUserPermissions.
  destruct (user req) as [u|]; [|left; by eexists _, _].
  destruct (permissionCache req) as [s|]; [left; by eexists _, _|].
  unfold mbind, M_bind, bind.
  destruct (faults w (ncalls w)) as [e|] eqn:Hf.
  - rewrite (queryUserPermissions_raises _ _ e Hf). right. right. by eexists _, _.
  - rewrite queryUserPermissions_ok by done. right. left. by eexists _, _, _.
Qed.

(** X2. Whatever the request, the pair and the fault plan, the gate ends
    with exactly one verdict, [next()] or one response with code 401, 403 or
    500; before it there is at most the permission query and a console
    line; the store, the open transaction and the connection are left as
    they were. *)
Theorem requirePermissions_single_verdict {LC : JsString.Lowercase}
    (pair : PermissionPair) (req : Request) (w : World) :
  exists pre verdict,
    emitted w (run (requirePermissions pair req) w) = pre ++ [verdict] /\
    Forall is_background pre /\
    (verdict = ENext \/
     exists code body,
       verdict = ERespond code body /\ (code = 401 \/ code = 403 \/ code = 500)) /\
    db (run (requirePermissions pair req) w) = db w /\
    txn (run (requirePermissions pair req) w) = txn w /\
    client (run (requirePermissions pair req) w) = client w /\
    (ncalls (run (requirePermissions pair req) w) <= S (ncalls w))%nat.
Proof.
  unfold run, requirePermissions, try_catch.
  destruct (bool_decide (method req = "OPTIONS")).
  { exists [], ENext. munfold. wsimpl.
    split; [by apply emitted_app|]. split_and!; auto. }
  destruct (user req) as [u|] eqn:Hu.
  2:{ exists [], (ERespond 401 (BError "Not authenticated")). munfold. wsimpl.
      split; [by apply emitted_app|]. split_and!; eauto 10. }
  unfold mbind, M_bind, bind.
  destruct (getUserPermissions_cases req w)
    as [(S & req' & ->) | [(S & req' & v & ->) | (e & v & ->)]].
  - destruct (is_read_method (method req));
      [destruct (hasPermission S _ || hasPermission S _)
      | destruct (hasPermission S _)];
      munfold; wsimpl;
      (eexists [], _; split; [by apply emitted_app|]; split_and!; eauto 10).
  - destruct (is_read_method (method req));
      [destruct (hasPermission S _ || hasPermission S _)
      | destruct (hasPermission S _)];
      munfold; wsimpl;
      (eexists [_], _; split; [apply emitted_app; wsimpl; by tidy_trace|];
       split_and!; eauto 10; repeat constructor).
  - munfold. wsimpl.
    eexists [_; _], _. split; [apply emitted_app; wsimpl; by tidy_trace|].
    split_and!; eauto 10; repeat constructor.
Qed.

Lemma getUserPermissions_with_method {LC : JsString.Lowercase}
    (m : string) (req : Request) (w : World) :
  getUserPermissions (with_method m req) w =
  match getUserPermissions req w with
  | (Ok (s, req'), w') => (Ok (s, with_method m req'), w')
  | (Throw e, w') => (Throw e, w')
  end.
Proof.
  unfold getUserPermissions. cbn [user permissionCache with_method].
  destruct (user req) as [u|]; [|reflexivity].
  destruct (permissionCache req) as [s|]; [reflexivity|].
  unfold mbind, M_bind, bind.
  by destruct (queryUserPermissions _ w) as [[perms|e] w1].
Qed.

Ltac in_emitted :=
  wsimpl;
  match goal with
  | |- context [emitted ?w ?w'] =>
      let H := fresh "Htrace" in
      eassert (H : trace w' = trace w ++ _)
        by (wsimpl; tidy_trace; first [reflexivity | symmetry; apply app_nil_r]);
      rewrite (emitted_app _ _ _ H); clear H
  end.

Ltac elem_cases H :=
  repeat (apply elem_of_cons in H as [H|H]; [try discriminate|]);
  try (by apply elem_of_nil in H).

(** What a gate run emits, by the outcome of the resolution. *)
Lemma requirePermissions_passes {LC : JsString.Lowercase}
    (pair : PermissionPair) (req : Request) (w : World) :
  method req <> "OPTIONS" ->
  (ENext ∈ emitted w (run (requirePermissions pair req) w) <->
   exists u S req' w',
     user req = Some u /\
     getUserPermissions req w = (Ok (S, req'), w') /\
     (if is_read_method (method req)
      then hasPermission S (required (read pair))
           || hasPermission S (required (manage pair))
      else hasPermission S (required (manage pair))) = true).
Proof.
  intros Hm. unfold run, requirePermissions, try_catch.
  rewrite bool_decide_eq_false_2 by done.
  destruct (user req) as [u|] eqn:Hu.
  2:{ munfold. in_emitted. split; [intros H; elem_cases H|].
      intros (? & ? & ? & ? & ? & _). discriminate. }
  unfold mbind, M_bind, bind.
  destruct (getUserPermissions_cases req w)
    as [(S & req' & Hg) | [(S & req' & v & Hg) | (e & v & Hg)]]; rewrite Hg.
  - destruct (is_read_method (method req));
      [destruct (hasPermission S _ || hasPermission S _) eqn:Hh
      | destruct (hasPermission S _) eqn:Hh];
      munfold; in_emitted;
      (split;
       [ intros H; first [ by eexists u, S, req', w | elem_cases H ]
       | intros (? & ? & ? & ? & _ & Heq & Hb); injection Heq as <- <- <-;
         first [ apply list_elem_of_here | congruence ] ]).
  - destruct (is_read_method (method req));
      [destruct (hasPermission S _ || hasPermission S _) eqn:Hh
      | destruct (hasPermission S _) eqn:Hh];
      munfold; in_emitted;
      (split;
       [ intros H; first [ by eexists u, S, req', _ | elem_cases H ]
       | intros (? & ? & ? & ? & _ & Heq & Hb); injection Heq as <- <- <-;
         first [ apply list_elem_of_further, list_elem_of_here | congruence ] ]).
  - munfold. in_emitted. split; [intros H; elem_cases H|].
    intros (? & ? & ? & ? & _ & Heq & _). discriminate.
Qed.

(** X3. Manage implies read: when a gate passes a request with a mutating
    method, it passes the same request with any other method, in the same
    state. *)
Theorem requirePermissions_write_implies_any {LC : JsString.Lowercase}
    (pair : PermissionPair) (req : Request) (w : World) (m1 m2 : string) :
  m1 <> "OPTIONS" ->
  is_read_method m1 = false ->
  ENext ∈ emitted w (run (requirePermissions pair (with_method m1 req)) w) ->
  ENext ∈ emitted w (run (requirePermissions pair (with_method m2 req)) w).
Proof.
  intros Hopt Hread Hpass.
  apply requirePermissions_passes in Hpass as (u & S & req' & w' & Hu & Hg & Hb);
    [|done].
  cbn [method with_method] in Hb. rewrite Hread in Hb.
  rewrite getUserPermissions_with_method in Hg.
  destruct (getUserPermissions req w) as [[[S0 r0]|e] w0] eqn:Hg0; [|discriminate].
  injection Hg as -> <- ->.
  destruct (decide (m2 = "OPTIONS")) as [->|Hm2].
  - unfold run, requirePermissions, try_catch. cbn [method with_method].
    rewrite bool_decide_eq_true_2 by done. munfold. in_emitted.
    apply list_elem_of_here.
  - apply requirePermissions_passes; [done|].
    exists u, S, (with_method m2 r0), w'. split; [done|].
    split; [by rewrite getUserPermissions_with_method, Hg0|].
    cbn [method with_method]. rewrite Hb.
    destruct (is_read_method m2); [apply orb_true_r | reflexivity].
Qed.

Lemma requirePermissions_write_implies_any_witness :
  ENext ∈ emitted (Sample.world Sample.no_fault)
    (run (requirePermissions (mkPair (Some "view users") (Some "manage users"))
            (with_method "GET" (Sample.request_of "POST" (Some Sample.admin))))
         (Sample.world Sample.no_fault)).
Proof.
  apply (requirePermissions_write_implies_any _ _ _ "DELETE" "GET");
    [discriminate | reflexivity |].
  apply list_elem_of_further, list_elem_of_here.
Defined.

(** X4. A gate built without a manage name (absent or empty) never passes a
    request whose method is not [OPTIONS], [GET] or [HEAD], whatever the
    caller's permissions and whatever the store does. *)
Theorem requirePermissions_without_manage {LC : JsString.Lowercase}
    (pair : PermissionPair) (req : Request) (w : World) :
  required (manage pair) = None ->
  method req <> "OPTIONS" ->
  is_read_method (method req) = false ->
  ENext ∉ emitted w (run (requirePermissions pair req) w).
Proof.
  intros Hman Hopt Hread Hpass.
  apply requirePermissions_passes in Hpass as (u & S & req' & w' & _ & _ & Hb);
    [|done].
  rewrite Hread, Hman in Hb. discriminate.
Qed.

Lemma requirePermissions_without_manage_witness :
  required (manage (mkPair (Some "view locations") (Some ""))) = None /\
  ENext ∉ emitted (Sample.world Sample.no_fault)
    (run (requirePermissions (mkPair (Some "view locations") (Some ""))
            (Sample.request_of "POST" (Some Sample.admin)))
         (Sample.world Sample.no_fault)).
Proof.
  split; [reflexivity|].
  apply (requirePermissions_without_manage
           (mkPair (Some "view locations") (Some ""))
           (Sample.request_of "POST" (Some Sample.admin))
           (Sample.world Sample.no_fault));
    [reflexivity | discriminate | reflexivity].
Defined.

(** X5. What the login and [/me] responses list is what the gate enforces:
    for a caller with a truthy id, a mutating request passes a gate exactly
    when the gate's manage name, lowercased, is in the array
    [listUserPermissions] returns on the same store. *)
Theorem listed_permissions_are_enforced {LC : JsString.Lowercase}
    (r : option string) (m : string) (req : Request) (u : User) (w w2 : World) :
  m <> "" ->
  method req <> "OPTIONS" ->
  is_read_method (method req) = false ->
  user req = Some u ->
  user_id u <> 0 ->
  permissionCache req = None ->
  faults w (ncalls w) = None ->
  faults w2 (ncalls w2) = None ->
  db w2 = db w ->
  exists l w2',
    listUserPermissions (VNumber (num_of_Z (user_id u))) w2 = (Ok l, w2') /\
    (ENext ∈ emitted w (run (requirePermissions (mkPair r (Some m)) req) w) <->
     JsString.toLowerCase m ∈ l).
Proof.
  intros Hm Hopt Hread Hu Hnz Hc Hf Hf2 Hdb.
  destruct (listUserPermissions_ok w2 (user_id u) Hf2) as (w2' & Hl & _).
  eexists _, _. split; [exact Hl|].
  rewrite requirePermissions_passes by done. rewrite Hread. cbn [manage].
  assert (Hg : getUserPermissions req w
               = (Ok (permissions_of (db w2) (user_id u),
                      set_permissionCache (permissions_of (db w2) (user_id u)) req),
                  log (EQuery Pool (SelectUserPermissions
                                      (VNumber (num_of_Z (user_id u)))) Done)
                      (count_call w))).
  { unfold getUserPermissions. rewrite Hu, Hc. unfold mbind, M_bind, bind.
    rewrite queryUserPermissions_ok by done. unfold permissions_of.
    replace (user_id u =? 0) with false by (symmetry; by apply Z.eqb_neq).
    by rewrite Hdb. }
  split.
  - intros (u' & S & req' & w' & _ & Hg' & Hb). rewrite Hg in Hg'.
    injection Hg' as <- <- <-. rewrite hasPermission_required in Hb by done.
    unfold JsSet.has in Hb. by apply bool_decide_eq_true in Hb.
  - intros Hin. eexists u, _, _, _. split; [done|]. split; [exact Hg|].
    rewrite hasPermission_required by done. unfold JsSet.has.
    by apply bool_decide_eq_true.
Qed.

Lemma listed_permissions_are_enforced_witness :
  exists l w2',
    listUserPermissions (VNumber (num_of_Z 3)) (Sample.world Sample.no_fault)
    = (Ok l, w2') /\
    (ENext ∈ emitted (Sample.world Sample.no_fault)
       (run (requirePermissions (mkPair (Some "view users") (Some "Manage Users"))
               (Sample.request_of "POST" (Some Sample.admin)))
            (Sample.world Sample.no_fault)) <->
     JsString.toLowerCase "Manage Users" ∈ l).
Proof.
  apply (listed_permissions_are_enforced (Some "view users") "Manage Users"
           (Sample.request_of "POST" (Some Sample.admin)) Sample.admin
           (Sample.world Sample.no_fault) (Sample.world Sample.no_fault));
    first [discriminate | reflexivity].
Defined.

(** ** Strings as character lists *)

Lemma chars_of_chars (l : list ascii) : JsString.chars (JsString.of_chars l) = l.
Proof. apply list_ascii_of_string_of_list_ascii. Qed.

Lemma of_chars_chars (s : string) : JsString.of_chars (JsString.chars s) = s.
Proof. apply string_of_list_ascii_of_string. Qed.

Lemma chars_app (a b : string) :
  JsString.chars (a +:+ b) = JsString.chars a ++ JsString.chars b.
Proof.
  unfold JsString.chars. induction a as [|c a IH]; [reflexivity|].
  change (String c a +:+ b) with (String c (a +:+ b)). cbn. by f_equal.
Qed.

Lemma of_chars_app (a b : list ascii) :
  JsString.of_chars (a ++ b) = JsString.of_chars a +:+ JsString.of_chars b.
Proof.
  unfold JsString.of_chars. induction a as [|c a IH]; [reflexivity|].
  cbn [app string_of_list_ascii].
  change (String c (string_of_list_ascii a) +:+ string_of_list_ascii b)
    with (String c (string_of_list_ascii a +:+ string_of_list_ascii b)).
  by f_equal.
Qed.

Lemma chars_inj (a b : string) : JsString.chars a = JsString.chars b -> a = b.
Proof.
  intros H. rewrite <- (of_chars_chars a), <- (of_chars_chars b). by rewrite H.
Qed.

Lemma nonempty_chars (s : string) :
  JsString.nonempty s = true <-> JsString.chars s <> [].
Proof. destruct s; cbn; split; congruence. Qed.

Lemma len_chars (s : string) : JsString.len s = Z.of_nat (length (JsString.chars s)).
Proof.
  unfold JsString.len. f_equal. induction s as [|c s IH]; [reflexivity|].
  cbn. by rewrite IH.
Qed.

(** ** [split] and [join] *)

Lemma split_chars_nonempty (sep : ascii) (l cur : list ascii) :
  JsString.split_chars sep cur l <> [].
Proof.
  revert cur. induction l as [|c l IH]; intros cur; cbn; [done|].
  destruct (Ascii.eqb c sep); [done | apply IH].
Qed.

Lemma split_chars_app (sep : ascii) (a b cur : list ascii) :
  JsString.split_chars sep cur (a ++ sep :: b)
  = JsString.split_chars sep cur a ++ JsString.split_chars sep [] b.
Proof.
  revert cur. induction a as [|c a IH]; intros cur; cbn.
  - by rewrite Ascii.eqb_refl.
  - destruct (Ascii.eqb c sep); [by rewrite IH | apply IH].
Qed.

Lemma split_chars_none (sep : ascii) (l cur : list ascii) :
  sep ∉ l ->
  JsString.split_chars sep cur l = [JsString.of_chars (rev cur ++ l)].
Proof.
  revert cur. induction l as [|c l IH]; intros cur Hn; cbn.
  - by rewrite app_nil_r.
  - apply not_elem_of_cons in Hn as [Hc Hl].
    destruct (Ascii.eqb c sep) eqn:He.
    + apply Ascii.eqb_eq in He. congruence.
    + rewrite IH by done. cbn. by rewrite <- app_assoc.
Qed.

Lemma join_cons (sep p : string) (rest : list string) :
  rest <> [] -> JsString.join sep (p :: rest) = p +:+ sep +:+ JsString.join sep rest.
Proof. by destruct rest. Qed.

Lemma join_split_chars (sep : ascii) (l cur : list ascii) :
  JsString.join (String sep EmptyString) (JsString.split_chars sep cur l)
  = JsString.of_chars (rev cur ++ l).
Proof.
  revert cur. induction l as [|c l IH]; intros cur.
  - cbn. by rewrite app_nil_r.
  - cbn [JsString.split_chars]. destruct (Ascii.eqb c sep) eqn:He.
    + apply Ascii.eqb_eq in He. subst c.
      rewrite join_cons by apply split_chars_nonempty.
      rewrite IH. cbn [rev app]. by rewrite of_chars_app.
    + rewrite IH. cbn [rev]. by rewrite <- app_assoc.
Qed.

(** Splitting at a character and joining with it gives the string back. *)
Lemma join_split (sep : ascii) (s : string) :
  JsString.join (String sep EmptyString) (JsString.split sep s) = s.
Proof.
  unfold JsString.split. rewrite join_split_chars. apply of_chars_chars.
Qed.

Lemma split_app (sep : ascii) (a b : string) :
  JsString.split sep (a +:+ String sep b)
  = JsString.split sep a ++ JsString.split sep b.
Proof.
  unfold JsString.split. rewrite chars_app. cbn [JsString.chars list_ascii_of_string].
  apply split_chars_app.
Qed.

Lemma split_none (sep : ascii) (s : string) :
  sep ∉ JsString.chars s -> JsString.split sep s = [s].
Proof.
  intros H. unfold JsString.split. rewrite split_chars_none by done.
  cbn. by rewrite of_chars_chars.
Qed.

(** ** [trim] *)

Lemma starts_with_app (p l : list ascii) : JsString.starts_with p (p ++ l) = Some l.
Proof. induction p as [|c p IH]; [done|]. cbn. by rewrite Ascii.eqb_refl. Qed.

(** A byte that is in no character of the table stops every match. *)
Lemma starts_with_stop (p a b : list ascii) (c : ascii) :
  JsString.starts_with p a = None -> c ∉ p ->
  JsString.starts_with p (a ++ c :: b) = None.
Proof.
  revert a. induction p as [|x p IH]; intros a Ha Hc; [done|].
  apply not_elem_of_cons in Hc as [Hx Hc].
  destruct a as [|y a]; cbn in *.
  - destruct (Ascii.eqb_spec x c); [congruence | done].
  - destruct (Ascii.eqb x y); [by apply IH | done].
Qed.

Lemma width_at_stop (table : list (list ascii)) (a b : list ascii) (c : ascii) :
  Forall (fun p => c ∉ p) table ->
  JsString.width_at table a = 0%nat ->
  JsString.width_at table (a ++ c :: b) = 0%nat.
Proof.
  induction 1 as [|p table Hp _ IH]; [done|]. cbn.
  destruct (JsString.starts_with p a) eqn:Hs.
  - intros Hlen. by destruct p.
  - intros Hw. rewrite (starts_with_stop _ _ _ _ Hs Hp). by apply IH.
Qed.

Lemma drop_spaces_id (table : list (list ascii)) (l : list ascii) :
  JsString.width_at table l = 0%nat -> JsString.drop_spaces table 0 l = l.
Proof. destruct l as [|c l]; [done|]. intros H. cbn [JsString.drop_spaces]. by rewrite H. Qed.

(** Each white-space character is dropped whole. *)
Lemma drop_spaces_one (ws l : list ascii) :
  ws ∈ JsString.WHITE_SPACE ->
  JsString.drop_spaces JsString.WHITE_SPACE 0 (ws ++ l)
  = JsString.drop_spaces JsString.WHITE_SPACE 0 l.
Proof.
  intros Hin. unfold JsString.WHITE_SPACE in Hin.
  repeat (apply elem_of_cons in Hin as [->|Hin]; [reflexivity|]).
  by apply elem_of_nil in Hin.
Qed.

Lemma drop_spaces_app (ws : list (list ascii)) (l : list ascii) :
  Forall (fun c => c ∈ JsString.WHITE_SPACE) ws ->
  JsString.drop_spaces JsString.WHITE_SPACE 0 (concat ws ++ l)
  = JsString.drop_spaces JsString.WHITE_SPACE 0 l.
Proof.
  induction 1 as [|c ws Hc _ IH]; [done|]. cbn [concat].
  by rewrite <- app_assoc, drop_spaces_one.
Qed.

Lemma head_rev {A} (l : list A) : head (rev l) = last l.
Proof.
  rewrite <- (rev_involutive l) at 2. generalize (rev l). clear l.
  intros l. destruct l as [|a l]; [done|]. cbn [rev]. by rewrite last_snoc.
Qed.

(** [trim] removes the white space before a string that neither begins
    nor ends with white space, and nothing else. *)
Lemma trim_spec (ws : list (list ascii)) (s : string) :
  Forall (fun c => c ∈ JsString.WHITE_SPACE) ws ->
  JsString.width_at JsString.WHITE_SPACE (JsString.chars s) = 0%nat ->
  JsString.width_at (map (@rev ascii) JsString.WHITE_SPACE) (rev (JsString.chars s))
  = 0%nat ->
  JsString.trim (JsString.of_chars (concat ws) +:+ s) = s.
Proof.
  intros Hws Hh Hl. unfold JsString.trim, JsString.trimStart, JsString.trimEnd.
  rewrite chars_app, chars_of_chars, drop_spaces_app by done.
  rewrite (drop_spaces_id _ (JsString.chars s)) by done.
  rewrite drop_spaces_id by done.
  rewrite rev_involutive. apply of_chars_chars.
Qed.

(** ** [decodeURIComponent] without escapes *)

Lemma tokens_plain (l : list ascii) :
  "%"%char ∉ l -> Uri.tokens l = Some (map Uri.Raw l).
Proof.
  induction l as [|c l IH]; intros Hn; [reflexivity|].
  apply not_elem_of_cons in Hn as [Hc Hl]. cbn.
  destruct (Ascii.eqb c "%") eqn:He.
  - apply Ascii.eqb_eq in He. congruence.
  - by rewrite IH.
Qed.

Lemma octets_raw (l : list ascii) : Uri.octets [] (map Uri.Raw l) = Some l.
Proof. induction l as [|c l IH]; [reflexivity|]. cbn. by rewrite IH. Qed.

(** A value without [%] decodes to itself. *)
Lemma decodeURIComponent_plain (s : string) :
  "%"%char ∉ JsString.chars s -> Uri.decodeURIComponent s = Some s.
Proof.
  intros H. unfold Uri.decodeURIComponent. rewrite tokens_plain by done.
  cbn. rewrite octets_raw. cbn. by rewrite of_chars_chars.
Qed.

(** ** [extractSessionId] *)

Ltac decide_now := apply (bool_decide_unpack _); vm_compute; exact I.


Lemma split_join (sep : ascii) (parts : list string) :
  parts <> [] -> Forall (fun p => sep ∉ JsString.chars p) parts ->
  JsString.split sep (JsString.join (String sep EmptyString) parts) = parts.
Proof.
  induction parts as [|p rest IH]; [done|]. intros _ Hall.
  apply Forall_cons in Hall as [Hp Hrest].
  destruct rest as [|q rest].
  - cbn. by apply split_none.
  - rewrite join_cons by done.
    change (p +:+ String sep "" +:+ ?x) with (p +:+ String sep x).
    rewrite split_app, split_none by done. cbn [app]. f_equal. by apply IH.
Qed.

Lemma find_session_cookie_skips (before rest : list string) :
  Forall (fun c => cookie_key c <> SESSION_COOKIE_NAME) before ->
  find_session_cookie (before ++ rest) = find_session_cookie rest.
Proof.
  induction 1 as [|c before Hc _ IH]; [done|].
  cbn [app find_session_cookie]. unfold cookie_key in Hc.
  destruct (JsString.split "=" (JsString.trim c)) as [|key value]; [done|].
  cbn [hd] in Hc. by rewrite bool_decide_false.
Qed.

Lemma white_space_bytes (c : ascii) :
  c ∈ [";"%char; "="%char] ->
  Forall (fun p => c ∉ p) JsString.WHITE_SPACE /\
  Forall (fun p => c ∉ p) (map (@rev ascii) JsString.WHITE_SPACE).
Proof.
  intros Hc. repeat (apply elem_of_cons in Hc as [->|Hc]; [split; decide_now|]).
  by apply elem_of_nil in Hc.
Qed.

Lemma find_session_cookie_here
    (ws : list (list ascii)) (v : string) (after : list string) :
  Forall (fun c => c ∈ JsString.WHITE_SPACE) ws ->
  "%"%char ∉ JsString.chars v ->
  JsString.width_at (map (@rev ascii) JsString.WHITE_SPACE) (rev (JsString.chars v))
  = 0%nat ->
  find_session_cookie (session_cookie ws v :: after) = Ok (Some v).
Proof.
  intros Hws Hpct Hlast. cbn [find_session_cookie]. unfold session_cookie.
  rewrite trim_spec; [|done|reflexivity|].
  - change (SESSION_COOKIE_NAME +:+ "=" +:+ v)
      with (SESSION_COOKIE_NAME +:+ String "=" v).
    rewrite split_app. cbn [JsString.split JsString.split_chars app].
    change (JsString.split "=" SESSION_COOKIE_NAME) with [SESSION_COOKIE_NAME].
    cbn [app]. rewrite bool_decide_true by done.
    rewrite join_split, decodeURIComponent_plain by done. reflexivity.
  - change (SESSION_COOKIE_NAME +:+ "=" +:+ v) with ("pp_session=" +:+ v).
    rewrite chars_app, rev_app_distr.
    change (rev (JsString.chars "pp_session="))
      with ("="%char :: rev (JsString.chars "pp_session")).
    apply width_at_stop; [|done].
    apply white_space_bytes. apply list_elem_of_further, list_elem_of_here.
Qed.

(** X6. [extractSessionId] returns the value of the first cookie named
    [pp_session], whatever cookies stand before and after it in the header,
    whatever white space of the language stands before the name, and
    whatever [=] signs the value holds; the value has no [;], no escape and
    no white space at its end. *)
Theorem extractSessionId_finds_session_cookie
    (req : Request) (before after : list string) (ws : list (list ascii))
    (v : string) :
  cookie req = Some (JsString.join ";" (before ++ session_cookie ws v :: after)) ->
  Forall (fun c => (";"%char ∉ JsString.chars c) /\ cookie_key c <> SESSION_COOKIE_NAME) before ->
  Forall (fun c => ";"%char ∉ JsString.chars c) after ->
  Forall (fun c => c ∈ JsString.WHITE_SPACE) ws ->
  plain_value v ->
  extractSessionId req = Ok (Some v).
Proof.
  intros Hc Hbefore Hafter Hws (Hsemi & Hpct & Hlast).
  assert (Hparts : Forall (fun p => ";"%char ∉ JsString.chars p)
                     (before ++ session_cookie ws v :: after)).
  { apply Forall_app. split; [by eapply Forall_impl; [exact Hbefore|intros ? []]|].
    apply Forall_cons. split; [|done].
    unfold session_cookie. rewrite !chars_app, chars_of_chars.
    rewrite !not_elem_of_app. split_and!; [|by decide_now|by decide_now|done].
    intros Hin. apply list_elem_of_In, in_concat in Hin as (p & Hp & Hin).
    apply list_elem_of_In in Hp, Hin.
    destruct (white_space_bytes ";") as [Hno _]; [apply list_elem_of_here|].
    eapply Forall_forall in Hws; [|exact Hp].
    eapply Forall_forall in Hno; [|exact Hws]. done. }
  assert (Hne : before ++ session_cookie ws v :: after <> []) by by destruct before.
  assert (Hsplit := split_join ";" _ Hne Hparts).
  unfold extractSessionId. rewrite Hc.
  destruct (JsString.join ";" (before ++ session_cookie ws v :: after)) as [|c0 s0] eqn:Hj.
  { exfalso. cbn in Hsplit. destruct before as [|b [|]]; try discriminate.
    injection Hsplit as Hs. unfold session_cookie in Hs.
    apply (f_equal JsString.chars) in Hs. rewrite !chars_app in Hs.
    symmetry in Hs. apply app_eq_nil in Hs as [_ Hs]. discriminate. }
  cbn [JsString.nonempty negb]. rewrite Hsplit.
  rewrite find_session_cookie_skips
    by (eapply Forall_impl; [exact Hbefore|by intros ? []]).
  by apply find_session_cookie_here.
Qed.

Lemma extractSessionId_finds_session_cookie_witness :
  extractSessionId
    (mkRequest "GET" "/location"
       (Some (JsString.join ";"
                (["theme=dark"] ++
                 session_cookie [[" "%char]; ["194"%char; "160"%char]] "a=b"
                 :: [" lang=en"])))
       VUndefined None None None) = Ok (Some "a=b").
Proof.
  apply (extractSessionId_finds_session_cookie _ ["theme=dark"] [" lang=en"]
           [[" "%char]; ["194"%char; "160"%char]] "a=b").
  - reflexivity.
  - repeat constructor; [decide_now | compute; discriminate].
  - repeat constructor. decide_now.
  - repeat constructor; decide_now.
  - split_and!; [decide_now | decide_now | reflexivity].
Defined.

Example account_status_strips_no_break_space :
  account_status
    (Sample.account
       (JsString.of_chars ["A"; "c"; "t"; "i"; "v"; "e"; "194"; "160"]%char) None)
  = "active".
Proof. reflexivity. Qed.

Example trim_strips_unicode_space :
  JsString.trim (JsString.of_chars
                   (["194"; "160"; "a"; "c"; "t"; "i"; "v"; "e";
                     "226"; "128"; "168"; "239"; "187"; "191"; " "]%char))
  = "active".
Proof. reflexivity. Qed.

(** ** [isAuthExemptPath] *)

Lemma drop_slashes_spec (l : list ascii) :
  exists k, l = replicate k "/"%char ++ JsString.drop_slashes l /\
            head (JsString.drop_slashes l) <> Some "/"%char.
Proof.
  induction l as [|c l (k & IH & Hh)]; [by exists 0%nat|]. cbn.
  destruct (Ascii.eqb c "/") eqn:He.
  - apply Ascii.eqb_eq in He. subst c. exists (S k). cbn. by rewrite <- IH.
  - exists 0%nat. split; [done|]. cbn. intros [= ->]. by rewrite Ascii.eqb_refl in He.
Qed.

Lemma drop_slashes_replicate (k : nat) (l : list ascii) :
  head l <> Some "/"%char ->
  JsString.drop_slashes (replicate k "/"%char ++ l) = l.
Proof.
  intros Hh. induction k as [|k IH]; cbn; [|done].
  destruct l as [|c l]; [done|]. cbn.
  destruct (Ascii.eqb c "/") eqn:He; [|done].
  apply Ascii.eqb_eq in He. by subst c.
Qed.

Lemma rev_replicate {A} (k : nat) (x : A) : rev (replicate k x) = replicate k x.
Proof.
  induction k as [|k IH]; [done|]. cbn. rewrite IH.
  clear IH. induction k as [|k IH]; [done|]. cbn. by rewrite IH.
Qed.

(** What [replace(/\/+$/, '')] removes is a run of slashes, and what it
    leaves does not end with one. *)
Lemma strip_trailing_slashes_spec (s : string) :
  exists k, s = JsString.strip_trailing_slashes s +:+ slashes k /\
            last (JsString.chars (JsString.strip_trailing_slashes s)) <> Some "/"%char.
Proof.
  unfold JsString.strip_trailing_slashes, slashes.
  destruct (drop_slashes_spec (rev (JsString.chars s))) as (k & Hk & Hh).
  exists k. split.
  - apply chars_inj. rewrite chars_app, !chars_of_chars.
    rewrite <- (rev_involutive (JsString.chars s)) at 1.
    rewrite Hk at 1. by rewrite rev_app_distr, rev_replicate.
  - by rewrite chars_of_chars, <- head_rev, rev_involutive.
Qed.

Lemma strip_trailing_slashes_app (s : string) (k : nat) :
  last (JsString.chars s) <> Some "/"%char ->
  JsString.strip_trailing_slashes (s +:+ slashes k) = s.
Proof.
  intros Hl. unfold JsString.strip_trailing_slashes, slashes.
  rewrite chars_app, chars_of_chars, rev_app_distr, rev_replicate.
  rewrite drop_slashes_replicate by by rewrite head_rev.
  rewrite rev_involutive. apply of_chars_chars.
Qed.

Lemma endsWith_spec (s suffix : string) :
  JsString.endsWith s suffix = true <->
  exists pre, s = pre +:+ suffix.
Proof.
  unfold JsString.endsWith. rewrite andb_true_iff, Nat.leb_le, bool_decide_eq_true.
  split.
  - intros [Hle Hd]. exists (JsString.of_chars
      (take (length (JsString.chars s) - length (JsString.chars suffix)) (JsString.chars s))).
    apply chars_inj. rewrite chars_app, chars_of_chars.
    pose proof (take_drop (length (JsString.chars s) - length (JsString.chars suffix))
                  (JsString.chars s)) as Htd.
    by rewrite Hd in Htd.
  - intros [pre ->]. rewrite chars_app, length_app.
    split; [lia|].
    replace (length (JsString.chars pre) + length (JsString.chars suffix)
             - length (JsString.chars suffix))%nat
      with (length (JsString.chars pre)) by lia.
    by rewrite drop_app_length.
Qed.

Lemma charAt_slash (s : string) (i : Z) :
  JsString.charAt s i = "/" <-> 0 <= i /\ JsString.chars s !! Z.to_nat i = Some "/"%char.
Proof.
  unfold JsString.charAt. destruct (Z.ltb_spec i 0).
  - split; [done | lia].
  - destruct (JsString.chars s !! Z.to_nat i) as [c|]; split.
    + intros [= ->]. done.
    + by intros [_ [= ->]].
    + done.
    + by intros [_ ?].
Qed.

(** The second test of [isAuthExemptPath]: the exempt path ends the
    normalized path and a slash stands right before it. *)
Lemma exempt_suffix_spec (normalized exempt : string) :
  (JsString.len normalized >? JsString.len exempt)
  && JsString.endsWith normalized exempt
  && bool_decide (JsString.charAt normalized
        (JsString.len normalized - JsString.len exempt - 1) = "/") = true
  <-> exists q, normalized = (q +:+ "/") +:+ exempt.
Proof.
  rewrite !andb_true_iff, bool_decide_eq_true, endsWith_spec, charAt_slash.
  rewrite !len_chars. split.
  - intros [[Hlen [pre ->]] [_ Hc]]. revert Hlen Hc.
    rewrite chars_app, length_app. intros Hlen Hc.
    apply Z.gtb_lt in Hlen.
    replace (Z.to_nat _) with (length (JsString.chars pre) - 1)%nat in Hc by lia.
    rewrite lookup_app_l in Hc by lia.
    exists (JsString.of_chars (take (length (JsString.chars pre) - 1) (JsString.chars pre))).
    f_equal. apply chars_inj. rewrite chars_app, chars_of_chars.
    change (JsString.chars "/") with ["/"%char].
    rewrite <- (take_S_r _ _ _ Hc).
    replace (S (length (JsString.chars pre) - 1)) with (length (JsString.chars pre)) by lia.
    by rewrite firstn_all.
  - intros [q ->]. rewrite !chars_app, !length_app.
    change (JsString.chars "/") with ["/"%char]. cbn [length].
    split_and!.
    + apply Z.gtb_lt. lia.
    + by eexists.
    + lia.
    + replace (Z.to_nat _) with (length (JsString.chars q)) by lia.
      rewrite <- app_assoc. cbn [app]. by apply list_lookup_middle.
Qed.

Lemma exempt_paths_end (exempt : string) :
  exempt ∈ AUTH_EXEMPT_PATHS ->
  last (JsString.chars exempt) <> Some "/"%char /\
  (1 < length (JsString.chars exempt))%nat.
Proof.
  intros H. unfold AUTH_EXEMPT_PATHS in H.
  repeat (apply elem_of_cons in H as [->|H]; [by cbn; split; [|lia]|]).
  by apply elem_of_nil in H.
Qed.

Lemma last_app_r {A} (l1 l2 : list A) : l2 <> [] -> last (l1 ++ l2) = last l2.
Proof.
  intros H. rewrite last_app. destruct (last l2) eqn:E; [done|].
  by apply last_None in E.
Qed.

Lemma accepted_exempt_shape (pathname : string) :
  isAuthExemptPath pathname = true -> exempt_shape pathname.
Proof.
  unfold isAuthExemptPath, exempt_shape.
  destruct (JsString.nonempty pathname) eqn:Hne; [|done]. cbn [negb].
  set (normalized := if JsString.len pathname >? 1
                     then JsString.strip_trailing_slashes pathname else pathname).
  assert (Hk : exists k, pathname = normalized +:+ slashes k).
  { subst normalized. destruct (JsString.len pathname >? 1).
    - destruct (strip_trailing_slashes_spec pathname) as (k & Hk & _). by exists k.
    - exists 0%nat. apply chars_inj. rewrite chars_app. cbn. by rewrite app_nil_r. }
  destruct Hk as [k Hk]. clearbody normalized.
  rewrite orb_true_iff, bool_decide_eq_true, existsb_exists.
  intros [Hin | (exempt & Hin & Hsuf)].
  - exists "", normalized, k. split_and!; [done | by left | done].
  - apply list_elem_of_In in Hin. apply exempt_suffix_spec in Hsuf as [q ->].
    exists (q +:+ "/"), exempt, k. split_and!; [done | right; by exists q |].
    rewrite Hk. apply chars_inj. by rewrite !chars_app, !app_assoc.
Qed.

Lemma exempt_shape_accepted (pathname : string) :
  exempt_shape pathname -> isAuthExemptPath pathname = true.
Proof.
  unfold isAuthExemptPath, exempt_shape.
  intros (pre & exempt & k & Hin & Hpre & ->).
  destruct (exempt_paths_end _ Hin) as [Hlast Hlen].
  assert (Hne : JsString.chars exempt <> []) by (intros E; rewrite E in Hlen; cbn in Hlen; lia).
  replace (JsString.nonempty _) with true; cycle 1.
  { symmetry. apply nonempty_chars. rewrite !chars_app.
    intros E. apply app_eq_nil in E as [_ E]. by apply app_eq_nil in E as [E _]. }
  cbn [negb].
  replace (JsString.len _ >? 1) with true; cycle 1.
  { symmetry. apply Z.gtb_lt. rewrite len_chars, !chars_app, !length_app. lia. }
  assert (Hassoc : pre +:+ exempt +:+ slashes k = (pre +:+ exempt) +:+ slashes k).
  { apply chars_inj. by rewrite !chars_app, app_assoc. }
  rewrite Hassoc, strip_trailing_slashes_app
    by (by rewrite chars_app, last_app_r).
  apply orb_true_iff. destruct Hpre as [-> | [q ->]].
  - left. by apply bool_decide_eq_true.
  - right. apply existsb_exists. exists exempt. split; [by apply list_elem_of_In|].
    apply exempt_suffix_spec. by exists q.
Qed.

(** X7. [isAuthExemptPath] accepts exactly the paths made of an exempt
    path, alone or after a prefix ending with a slash, followed by any
    number of slashes.  A prefix that does not end with a slash, as in
    [/api/auth/login], is not accepted: the exempt paths begin with a slash
    themselves and the test asks for one more before them. *)
Theorem isAuthExemptPath_spec (pathname : string) :
  isAuthExemptPath pathname = true <-> exempt_shape pathname.
Proof. split; [apply accepted_exempt_shape | apply exempt_shape_accepted]. Qed.

(** ** The identity middleware, whatever the store does *)

Lemma touch_session_resolution (now : Z) (sid : string) (d : Store) (k : string) :
  Sql.select_user_by_session (Sql.touch_session now sid d) k
  = Sql.select_user_by_session d k.
Proof.
  unfold Sql.select_user_by_session, Sql.touch_session.
  cbn [user_session with_user_session user_account].
  destruct (decide (sid = k)) as [->|Hne].
  - rewrite lookup_alter_eq. by destruct (user_session d !! k).
  - by rewrite lookup_alter_ne.
Qed.

(** X8. [updateSessionActivity] never throws, whatever the store does; it
    leaves the store as it was or with [last_seen_at] of that session
    stamped, so that no session changes hands and no permission changes;
    it emits nothing but its statement and a console line. *)
Theorem updateSessionActivity_contained (sid : string) (w : World) :
  exists w',
    updateSessionActivity sid w = (Ok tt, w') /\
    (db w' = db w \/ db w' = Sql.touch_session (clock w) sid (db w)) /\
    (forall k, Sql.select_user_by_session (db w') k
               = Sql.select_user_by_session (db w) k) /\
    (forall uid, Sql.select_user_permissions (db w') uid
                 = Sql.select_user_permissions (db w) uid) /\
    txn w' = txn w /\ client w' = client w /\
    Forall is_background (emitted w w').
Proof.
  unfold updateSessionActivity. munfold. wsimpl.
  fault_cases; (eexists; split; [reflexivity|]); in_emitted; wsimpl.
  - split_and!; auto. repeat constructor.
  - split_and!; auto using touch_session_resolution. repeat constructor.
Qed.

Ltac in_emitted_at H :=
  wsimpl in H;
  match type of H with
  | context [emitted ?w ?w'] =>
      let Ht := fresh "Htrace" in
      eassert (Ht : trace w' = trace w ++ _)
        by (wsimpl; tidy_trace; first [reflexivity | symmetry; apply app_nil_r]);
      rewrite (emitted_app _ _ _ Ht) in H; clear Ht
  end.

Lemma updateSessionActivity_runs (sid : string) (w : World) :
  exists w' l,
    updateSessionActivity sid w = (Ok tt, w') /\
    trace w' = trace w ++ l /\ Forall is_background l /\
    (db w' = db w \/ db w' = Sql.touch_session (clock w) sid (db w)) /\
    (faults w (ncalls w) = None -> db w' = Sql.touch_session (clock w) sid (db w)) /\
    txn w' = txn w /\ client w' = client w /\ ncalls w' = S (ncalls w) /\
    faults w' = faults w /\ clock w' = clock w.
Proof.
  unfold updateSessionActivity. munfold. wsimpl.
  fault_cases; (eexists _, _; split; [reflexivity|]); wsimpl; tidy_trace.
  - split_and!; auto; [repeat constructor | done].
  - split_and!; auto. repeat constructor.
Qed.

(** The middleware lets a request through only for a session the store
    resolved. *)
Lemma authenticate_next_inv (req : Request) (w : World) :
  method req <> "OPTIONS" ->
  isAuthExemptPath (path req) = false ->
  ENext ∈ emitted w (run (authenticate req) w) ->
  exists sid row,
    extractSessionId req = Ok (Some sid) /\ sid <> "" /\
    faults w (ncalls w) = None /\
    Sql.select_user_by_session (db w) sid = Some row.
Proof.
  intros Hm Hp. unfold run, authenticate, try_catch.
  rewrite bool_decide_eq_false_2 by done. rewrite Hp. cbn [orb].
  unfold mbind, M_bind, bind, lift.
  destruct (extractSessionId req) as [[sid|]|e] eqn:Hx; cbn [present].
  2:{ munfold. intros H; in_emitted_at H; elem_cases H. }
  2:{ munfold. intros H; in_emitted_at H; elem_cases H. }
  destruct (JsString.nonempty sid) eqn:Hne.
  2:{ munfold. intros H; in_emitted_at H; elem_cases H. }
  assert (Hsid : sid <> "") by (by destruct sid).
  unfold fetchUserBySession, call.
  destruct (faults w (ncalls w)) as [e|] eqn:Hf.
  { munfold. intros H; in_emitted_at H; elem_cases H. }
  wsimpl.
  destruct (Sql.select_user_by_session (db w) sid) as [row|] eqn:Hrow;
    cbn [fmap option_fmap option_map].
  2:{ munfold. intros H; in_emitted_at H; elem_cases H. }
  intros _. by exists sid, row.
Qed.

(** A session the store resolves: the identity is attached, the activity
    update is started and [next()] is called, whatever becomes of the
    update. *)
Lemma authenticate_accepts (req : Request) (w : World) (sid : string) (row : UserRoleRow) :
  method req <> "OPTIONS" ->
  isAuthExemptPath (path req) = false ->
  extractSessionId req = Ok (Some sid) -> sid <> "" ->
  faults w (ncalls w) = None ->
  Sql.select_user_by_session (db w) sid = Some row ->
  exists w' l,
    authenticate req w = (Ok (set_identity sid (normalizeUserRow row) req), w') /\
    trace w' = trace w ++ EQuery Pool (SelectUserBySession sid) Done :: l ++ [ENext] /\
    Forall is_background l /\
    (db w' = db w \/ db w' = Sql.touch_session (clock w) sid (db w)) /\
    txn w' = txn w /\ client w' = client w /\
    ncalls w' = S (S (ncalls w)) /\ faults w' = faults w.
Proof.
  intros Hm Hp Hx Hsid Hf Hrow. unfold authenticate, try_catch.
  rewrite bool_decide_eq_false_2 by done. rewrite Hp. cbn [orb].
  unfold mbind, M_bind, bind, lift. rewrite Hx, (present_nonempty _ Hsid).
  rewrite fetchUserBySession_ok by done. rewrite Hrow.
  cbn [fmap option_fmap option_map].
  destruct (updateSessionActivity_runs sid
              (log (EQuery Pool (SelectUserBySession sid) Done) (count_call w)))
    as (w1 & l & Hu & Ht & Hl & Hd & _ & Htx & Hc & Hn & Hfs & _).
  rewrite Hu. munfold. wsimpl.
  wsimpl in Ht. wsimpl in Hd. wsimpl in Htx. wsimpl in Hc. wsimpl in Hn. wsimpl in Hfs.
  eexists _, l. split; [reflexivity|]. wsimpl.
  rewrite Ht. tidy_trace. by split_and!.
Qed.

(** An unknown session: the cookie is cleared and the answer is 401. *)
Lemma authenticate_rejects (req : Request) (w : World) (sid : string) :
  method req <> "OPTIONS" ->
  isAuthExemptPath (path req) = false ->
  extractSessionId req = Ok (Some sid) -> sid <> "" ->
  faults w (ncalls w) = None ->
  Sql.select_user_by_session (db w) sid = None ->
  authenticate req w =
  (Ok req,
   log (ERespond 401 (BError "Not authenticated"))
     (log (EClearCookie SESSION_COOKIE_NAME)
        (log (EQuery Pool (SelectUserBySession sid) Done) (count_call w)))).
Proof.
  intros Hm Hp Hx Hsid Hf Hrow. unfold authenticate, try_catch.
  rewrite bool_decide_eq_false_2 by done. rewrite Hp. cbn [orb].
  unfold mbind, M_bind, bind, lift. rewrite Hx, (present_nonempty _ Hsid).
  rewrite fetchUserBySession_ok by done. rewrite Hrow. reflexivity.
Qed.

(** X9. On a path that is not exempt and for a method other than
    [OPTIONS], the identity middleware calls [next()] exactly when the
    cookie names a session, the store answers the lookup and the session
    and its user exist; the request then carries that session id and that
    user.  A failure of the activity update changes nothing to it. *)
Theorem authenticate_passes_iff (req : Request) (w : World) :
  method req <> "OPTIONS" ->
  isAuthExemptPath (path req) = false ->
  (ENext ∈ emitted w (run (authenticate req) w) <->
   exists sid row,
     extractSessionId req = Ok (Some sid) /\ sid <> "" /\
     faults w (ncalls w) = None /\
     Sql.select_user_by_session (db w) sid = Some row /\
     (authenticate req w).1 = Ok (set_identity sid (normalizeUserRow row) req)).
Proof.
  intros Hm Hp. split.
  - intros Hnext.
    destruct (authenticate_next_inv req w Hm Hp Hnext) as (sid & row & Hx & Hs & Hf & Hrow).
    exists sid, row. split_and!; try done.
    destruct (authenticate_accepts req w sid row) as (w' & l & -> & _); done.
  - intros (sid & row & Hx & Hs & Hf & Hrow & _).
    destruct (authenticate_accepts req w sid row) as (w' & l & Ha & Ht & _); try done.
    unfold run. rewrite Ha. cbn [snd]. rewrite (emitted_app _ _ _ Ht).
    rewrite elem_of_cons, elem_of_app, !elem_of_cons. tauto.
Qed.

Lemma authenticate_passes_iff_witness :
  ENext ∈ emitted (Sample.world (Sample.fault_at 1))
            (run (authenticate (Sample.request_of "GET" None))
                 (Sample.world (Sample.fault_at 1))) <->
  exists sid row,
    extractSessionId (Sample.request_of "GET" None) = Ok (Some sid) /\ sid <> "" /\
    faults (Sample.world (Sample.fault_at 1))
           (ncalls (Sample.world (Sample.fault_at 1))) = None /\
    Sql.select_user_by_session (db (Sample.world (Sample.fault_at 1))) sid = Some row /\
    (authenticate (Sample.request_of "GET" None) (Sample.world (Sample.fault_at 1))).1
    = Ok (set_identity sid (normalizeUserRow row) (Sample.request_of "GET" None)).
Proof.
  apply (authenticate_passes_iff (Sample.request_of "GET" None)
           (Sample.world (Sample.fault_at 1))); [discriminate | reflexivity].
Defined.

(** X10. Whatever the request and the fault plan, the identity middleware
    does not throw and ends with exactly one verdict: [next()], 401 or 500.
    Unless it calls [next()] the request and the store are as before; in
    every case no account changes, no session changes hands, and the open
    transaction and the connection are left alone. *)
Theorem authenticate_single_verdict (req : Request) (w : World) :
  exists req' w' pre verdict,
    authenticate req w = (Ok req', w') /\
    emitted w w' = pre ++ [verdict] /\
    Forall (fun e => is_verdict e = false) pre /\
    (verdict = ENext \/
     exists body, verdict = ERespond 401 body \/ verdict = ERespond 500 body) /\
    (verdict <> ENext -> req' = req /\ db w' = db w) /\
    (forall k, Sql.select_user_by_session (db w') k
               = Sql.select_user_by_session (db w) k) /\
    user_account (db w') = user_account (db w) /\
    txn w' = txn w /\ client w' = client w.
Proof.
  unfold authenticate, try_catch.
  destruct (bool_decide (method req = "OPTIONS") || isAuthExemptPath (path req)).
  { munfold. eexists _, _, [], _. split; [reflexivity|].
    split; [by apply emitted_app|]. split_and!; auto. }
  unfold mbind, M_bind, bind, lift.
  destruct (extractSessionId req) as [[sid|]|e]; cbn [present].
  2:{ munfold. eexists _, _, [_], _. split; [reflexivity|].
      split; [apply emitted_app; wsimpl; by tidy_trace|].
      split_and!; eauto; repeat constructor. }
  2:{ munfold. eexists _, _, [_], _. split; [reflexivity|].
      split; [apply emitted_app; wsimpl; by tidy_trace|].
      split_and!; eauto; repeat constructor. }
  destruct (JsString.nonempty sid).
  2:{ munfold. eexists _, _, [_], _. split; [reflexivity|].
      split; [apply emitted_app; wsimpl; by tidy_trace|].
      split_and!; eauto; repeat constructor. }
  unfold fetchUserBySession, call.
  destruct (faults w (ncalls w)) as [e|].
  { munfold. eexists _, _, [_; _], _. split; [reflexivity|].
    split; [apply emitted_app; wsimpl; by tidy_trace|].
    split_and!; eauto; repeat constructor. }
  wsimpl.
  destruct (Sql.select_user_by_session (db w) sid) as [row|];
    cbn [fmap option_fmap option_map].
  2:{ munfold. eexists _, _, [_; _], _. split; [reflexivity|].
      split; [apply emitted_app; wsimpl; by tidy_trace|].
      split_and!; eauto; repeat constructor. }
  destruct (updateSessionActivity_runs sid
              (log (EQuery Pool (SelectUserBySession sid) Done) (count_call w)))
    as (w1 & l & Hu & Ht & Hl & Hd & _ & Hx & Hc & _).
  rewrite Hu. munfold. wsimpl.
  eexists _, _, (EQuery Pool (SelectUserBySession sid) Done :: l), ENext.
  split; [reflexivity|]. wsimpl in Hd. wsimpl in Hx. wsimpl in Hc. wsimpl.
  split; [apply emitted_app; wsimpl; rewrite Ht; wsimpl; by tidy_trace|].
  split_and!; auto.
  - constructor; [done|]. eapply Forall_impl; [exact Hl|]. by intros [].
  - done.
  - intros k. destruct Hd as [-> | ->]; [done | apply touch_session_resolution].
  - by destruct Hd as [-> | ->].
Qed.

(** X11. A request on an exempt path, with any prefix that ends with a
    slash before it and any number of slashes after it, goes through the
    identity middleware with [next()] alone: the cookie is not read, not
    even a malformed one, and the store is not called. *)
Theorem authenticate_exempt_path (req : Request) (w : World) :
  exempt_shape (path req) ->
  authenticate req w = (Ok req, log ENext w).
Proof.
  intros Hp. unfold authenticate, try_catch.
  rewrite (exempt_shape_accepted _ Hp), orb_true_r. reflexivity.
Qed.

Lemma authenticate_exempt_path_witness :
  authenticate (mkRequest "POST" "/api//auth/login//" (Some "pp_session=%")
                          VUndefined None None None)
               (Sample.world (Sample.fault_at 0))
  = (Ok (mkRequest "POST" "/api//auth/login//" (Some "pp_session=%")
                   VUndefined None None None),
     log ENext (Sample.world (Sample.fault_at 0))).
Proof.
  apply authenticate_exempt_path.
  exists "/api/", "/auth/login", 2%nat.
  split; [apply list_elem_of_here|]. split; [right; by exists "/api"|reflexivity].
Defined.

Example exempt_needs_double_slash :
  isAuthExemptPath "/api/auth/login" = false /\
  isAuthExemptPath "/api//auth/login/" = true /\
  isAuthExemptPath "/health///" = true /\
  isAuthExemptPath "//" = false.
Proof. by vm_compute. Qed.

(** ** [GET /auth/me] *)

Lemma listUserPermissions_runs {LC : JsString.Lowercase} (uid : Z) (w : World) :
  exists r w' l,
    listUserPermissions (VNumber (num_of_Z uid)) w = (r, w') /\
    trace w' = trace w ++ l /\ Forall is_background l /\
    db w' = db w /\ txn w' = txn w /\ client w' = client w /\
    (forall perms, r = Ok perms -> perms = permissions_of (db w) uid).
Proof.
  unfold listUserPermissions, permissions_of. rewrite truthy_of_Z.
  destruct (uid =? 0); cbn [negb].
  - exists (Ok []), w, []. rewrite app_nil_r. split_and!; auto. by intros ? [= <-].
  - unfold mbind, M_bind, bind.
    destruct (faults w (ncalls w)) as [e|] eqn:Hf.
    + rewrite (queryUserPermissions_raises _ _ e Hf).
      eexists _, _, [_]. split; [reflexivity|]. wsimpl.
      split_and!; auto; [repeat constructor | discriminate].
    + rewrite queryUserPermissions_ok by done.
      eexists _, _, [_]. split; [reflexivity|]. wsimpl.
      split_and!; auto; [repeat constructor | by intros ? [= <-]].
Qed.

(** X12. Whatever the request and the fault plan, [/me] does not throw and
    answers exactly once, with 200, 401 or 500; it writes nothing: the
    store, the open transaction and the connection are as before. *)
Theorem me_single_response {LC : JsString.Lowercase}
    (req : Request) (w : World) :
  exists w' pre code body,
    me req w = (Ok tt, w') /\
    emitted w w' = pre ++ [ERespond code body] /\
    Forall (fun e => is_verdict e = false) pre /\
    (code = 200 \/ code = 401 \/ code = 500) /\
    db w' = db w /\ txn w' = txn w /\ client w' = client w.
Proof.
  unfold me, try_catch. unfold mbind, M_bind, bind, lift.
  destruct (extractSessionId req) as [[sid|]|e]; cbn [present].
  2:{ munfold. eexists _, [_], _, _. split; [reflexivity|].
      split; [apply emitted_app; wsimpl; by tidy_trace|].
      split_and!; auto; repeat constructor. }
  2:{ munfold. eexists _, [_], _, _. split; [reflexivity|].
      split; [apply emitted_app; wsimpl; by tidy_trace|].
      split_and!; auto; repeat constructor. }
  destruct (JsString.nonempty sid).
  2:{ munfold. eexists _, [_], _, _. split; [reflexivity|].
      split; [apply emitted_app; wsimpl; by tidy_trace|].
      split_and!; auto; repeat constructor. }
  unfold fetchUserBySession, call.
  destruct (faults w (ncalls w)) as [e|].
  { munfold. eexists _, [_; _], _, _. split; [reflexivity|].
    split; [apply emitted_app; wsimpl; by tidy_trace|].
    split_and!; auto; repeat constructor. }
  wsimpl.
  destruct (Sql.select_user_by_session (db w) sid) as [row|];
    cbn [fmap option_fmap option_map].
  2:{ munfold. eexists _, [_; _], _, _. split; [reflexivity|].
      split; [apply emitted_app; wsimpl; by tidy_trace|].
      split_and!; auto; repeat constructor. }
  match goal with
  | |- context [listUserPermissions (VNumber (num_of_Z ?uid)) ?w0] =>
      destruct (listUserPermissions_runs uid w0)
        as (r & w1 & l & Hl & Ht & Hbg & Hd & Hx & Hc & _);
      rewrite Hl
  end.
  wsimpl in Ht. wsimpl in Hd. wsimpl in Hx. wsimpl in Hc.
  assert (Hquiet : Forall (fun e => is_verdict e = false)
                     (EQuery Pool (SelectUserBySession sid) Done :: l)).
  { constructor; [done|]. eapply Forall_impl; [exact Hbg|]. by intros []. }
  destruct r as [perms|e]; munfold; wsimpl.
  - eexists _, (EQuery Pool (SelectUserBySession sid) Done :: l), 200, _.
    split; [reflexivity|]. wsimpl.
    split; [apply emitted_app; wsimpl; rewrite Ht; by tidy_trace|].
    split_and!; auto.
  - eexists _, (EQuery Pool (SelectUserBySession sid) Done :: l ++ [_]), 500, _.
    split; [reflexivity|]. wsimpl.
    split; [apply emitted_app; wsimpl; rewrite Ht; tidy_trace; by tidy_trace|].
    split_and!; auto.
    apply Forall_cons in Hquiet as [? ?]. constructor; [done|].
    apply Forall_app. split; [done|]. repeat constructor.
Qed.

(** X13. A 200 from [/me] carries the user the session cookie resolves to
    in the store and exactly the permissions of that user; no other user
    and no other list can be answered, whatever the fault plan. *)
Theorem me_answers_session_user {LC : JsString.Lowercase}
    (req : Request) (w : World) (body : Body) :
  ERespond 200 body ∈ emitted w (run (me req) w) ->
  exists sid row,
    extractSessionId req = Ok (Some sid) /\ sid <> "" /\
    Sql.select_user_by_session (db w) sid = Some row /\
    body = BUser (normalizeUserRow row) (permissions_of (db w) (jr_user_id row)).
Proof.
  unfold run, me, try_catch. unfold mbind, M_bind, bind, lift.
  destruct (extractSessionId req) as [[sid|]|e]; cbn [present].
  2:{ munfold. intros H. in_emitted_at H. elem_cases H. }
  2:{ munfold. intros H. in_emitted_at H. elem_cases H. }
  destruct (JsString.nonempty sid) eqn:Hne.
  2:{ munfold. intros H. in_emitted_at H. elem_cases H. }
  unfold fetchUserBySession, call.
  destruct (faults w (ncalls w)) as [e|].
  { munfold. intros H. in_emitted_at H. elem_cases H. }
  wsimpl.
  destruct (Sql.select_user_by_session (db w) sid) as [row|] eqn:Hrow;
    cbn [fmap option_fmap option_map].
  2:{ munfold. intros H. in_emitted_at H. elem_cases H. }
  match goal with
  | |- context [listUserPermissions (VNumber (num_of_Z ?uid)) ?w0] =>
      destruct (listUserPermissions_runs uid w0)
        as (r & w1 & l & Hl & Ht & Hbg & Hd & _ & _ & Hperms);
      rewrite Hl
  end.
  wsimpl in Ht. wsimpl in Hd. wsimpl in Hperms.
  assert (Hnot : forall e, e ∈ l -> forall c b, e <> ERespond c b).
  { intros e0 Hin c b ->. eapply Forall_forall in Hbg; [|exact Hin]. done. }
  destruct r as [perms|e]; munfold; wsimpl; intros H.
  - rewrite (emitted_app _ _
       (EQuery Pool (SelectUserBySession sid) Done :: l ++
        [ERespond 200 (BUser (normalizeUserRow row) perms)])) in H
      by (wsimpl; rewrite Ht; by tidy_trace).
    apply elem_of_cons in H as [H|H]; [discriminate|].
    apply elem_of_app in H as [H|H]; [by eapply Hnot in H|].
    apply elem_of_cons in H as [[= ->]|H]; [|by apply elem_of_nil in H].
    exists sid, row. split_and!; [done | by destruct sid | done |].
    f_equal. by apply Hperms.
  - rewrite (emitted_app _ _
       (EQuery Pool (SelectUserBySession sid) Done :: l ++
        [EConsoleError "Error fetching current user:" e;
         ERespond 500 (internal_error e)])) in H
      by (wsimpl; rewrite Ht; by tidy_trace).
    apply elem_of_cons in H as [H|H]; [discriminate|].
    apply elem_of_app in H as [H|H]; [by eapply Hnot in H|].
    elem_cases H.
Qed.

Lemma me_answers_session_user_witness :
  exists sid row,
    extractSessionId (Sample.request_of "GET" None) = Ok (Some sid) /\ sid <> "" /\
    Sql.select_user_by_session (db (Sample.world Sample.no_fault)) sid = Some row /\
    BUser Sample.admin ["manage users"; "view locations"]
    = BUser (normalizeUserRow row)
        (permissions_of (db (Sample.world Sample.no_fault)) (jr_user_id row)).
Proof.
  apply (me_answers_session_user (Sample.request_of "GET" None)
           (Sample.world Sample.no_fault)).
  vm_compute. apply list_elem_of_further, list_elem_of_further, list_elem_of_here.
Defined.

(** ** The life of a session: login, requests, logout *)

(** The row a session of a fresh login resolves to. *)
Lemma session_after_login (d : Store) (sid : string) (uid now : Z) (ua : UserAccountRow) :
  Sql.select_user_by_session
    (with_user_session (insert sid (mkSession uid now))
       (with_user_account (insert uid ua) d)) sid
  = Some (Sql.join_role d uid ua).
Proof.
  unfold Sql.select_user_by_session.
  cbn [user_session user_account with_user_session with_user_account].
  rewrite lookup_insert_eq. cbn. by rewrite lookup_insert_eq.
Qed.

(** X14. The cookie a successful login sets opens the identity middleware
    on any later request that carries it, whatever the store does to the
    activity update: the request goes on with the session id and with the
    user the login answered. *)
Theorem login_cookie_authenticates {LC : JsString.Lowercase}
    (stn : string -> JSNumber) (req req2 : Request) (w w2 : World)
    (ua : UserAccountRow) :
  truthy (body_user_id req) = true ->
  Number_isInteger (Number stn (body_user_id req)) = true ->
  user_account (db w) !! login_key stn req = Some ua ->
  eligible (account_status ua) = true ->
  (forall n, faults w n = None) ->
  txn w = None ->
  user_session (db w) !! uuids w (nuuid w) = None ->
  extractSessionId req2 = Ok (Some (uuids w (nuuid w))) ->
  uuids w (nuuid w) <> "" ->
  method req2 <> "OPTIONS" ->
  isAuthExemptPath (path req2) = false ->
  db w2 = db (run (login stn req) w) ->
  faults w2 (ncalls w2) = None ->
  exists u permissions,
    ESetCookie SESSION_COOKIE_NAME (uuids w (nuuid w)) 604800000
      ∈ emitted w (run (login stn req) w) /\
    ERespond 200 (BUser u permissions) ∈ emitted w (run (login stn req) w) /\
    user_id u = login_key stn req /\
    (authenticate req2 w2).1 = Ok (set_identity (uuids w (nuuid w)) u req2) /\
    ENext ∈ emitted w2 (run (authenticate req2) w2).
Proof.
  intros Hv Hi Hua Hel Hf Htx Hfresh Hx Hsid Hm Hp Hdb Hf2.
  destruct (login_accept stn req w ua Hv Hi Hua Hel Hf Htx Hfresh)
    as (w1 & Hl & Hd & _ & He).
  unfold run in *. rewrite Hl in *. cbn [snd] in *. rewrite He.
  eexists _, _. split.
  { rewrite elem_of_app. left. do 8 apply list_elem_of_further. apply list_elem_of_here. }
  split.
  { rewrite !elem_of_app. right. right. apply list_elem_of_here. }
  split; [reflexivity|].
  destruct (authenticate_accepts req2 w2 (uuids w (nuuid w))
              (Sql.join_role (db w) (login_key stn req) (Sql.promote (clock w) ua)))
    as (w' & l & Ha & Ht & _); try done.
  { rewrite Hdb, Hd. apply session_after_login. }
  rewrite Ha. cbn [fst snd]. split; [reflexivity|].
  rewrite (emitted_app _ _ _ Ht).
  rewrite elem_of_cons, elem_of_app, !elem_of_cons. tauto.
Qed.

Lemma login_cookie_authenticates_witness :
  exists u permissions,
    ESetCookie SESSION_COOKIE_NAME "7c9e6679-7425-40de-944b-e07fc1f90ae7" 604800000
      ∈ emitted (Sample.world Sample.no_fault)
          (run (login Sample.StringToNumber (Sample.login_request (VString "11")))
               (Sample.world Sample.no_fault)) /\
    ERespond 200 (BUser u permissions)
      ∈ emitted (Sample.world Sample.no_fault)
          (run (login Sample.StringToNumber (Sample.login_request (VString "11")))
               (Sample.world Sample.no_fault)) /\
    user_id u = 11 /\
    (authenticate
       (mkRequest "PATCH" "/user/3"
          (Some "pp_session=7c9e6679-7425-40de-944b-e07fc1f90ae7")
          VUndefined None None None)
       (run (login Sample.StringToNumber (Sample.login_request (VString "11")))
            (Sample.world Sample.no_fault))).1
    = Ok (set_identity "7c9e6679-7425-40de-944b-e07fc1f90ae7" u
            (mkRequest "PATCH" "/user/3"
               (Some "pp_session=7c9e6679-7425-40de-944b-e07fc1f90ae7")
               VUndefined None None None)) /\
    ENext ∈ emitted
      (run (login Sample.StringToNumber (Sample.login_request (VString "11")))
           (Sample.world Sample.no_fault))
      (run (authenticate
              (mkRequest "PATCH" "/user/3"
                 (Some "pp_session=7c9e6679-7425-40de-944b-e07fc1f90ae7")
                 VUndefined None None None))
           (run (login Sample.StringToNumber (Sample.login_request (VString "11")))
                (Sample.world Sample.no_fault))).
Proof.
  apply (login_cookie_authenticates Sample.StringToNumber
           (Sample.login_request (VString "11"))
           (mkRequest "PATCH" "/user/3"
              (Some "pp_session=7c9e6679-7425-40de-944b-e07fc1f90ae7")
              VUndefined None None None)
           (Sample.world Sample.no_fault)
           (run (login Sample.StringToNumber (Sample.login_request (VString "11")))
                (Sample.world Sample.no_fault))
           (Sample.account "pending" (Some 2)));
    first [discriminate | reflexivity].
Defined.

(** [/me] for a session the store resolves, when the store answers. *)
Lemma me_ok {LC : JsString.Lowercase}
    (req : Request) (w : World) (sid : string) (row : UserRoleRow) :
  extractSessionId req = Ok (Some sid) -> sid <> "" ->
  faults w (ncalls w) = None ->
  faults w (S (ncalls w)) = None ->
  Sql.select_user_by_session (db w) sid = Some row ->
  exists w',
    me req w = (Ok tt, w') /\
    trace w' = trace w ++ EQuery Pool (SelectUserBySession sid) Done ::
                 permission_lookup (jr_user_id row) ++
                 [ERespond 200 (BUser (normalizeUserRow row)
                                  (permissions_of (db w) (jr_user_id row)))].
Proof.
  intros Hx Hsid Hf Hf' Hrow. unfold me, try_catch.
  unfold mbind, M_bind, bind, lift. rewrite Hx, (present_nonempty _ Hsid).
  rewrite fetchUserBySession_ok by done. rewrite Hrow.
  cbn [fmap option_fmap option_map].
  destruct (listUserPermissions_ok
              (log (EQuery Pool (SelectUserBySession sid) Done) (count_call w))
              (jr_user_id row) Hf') as (w1 & Hl & Ht & _).
  cbn [user_id normalizeUserRow]. rewrite Hl. munfold. wsimpl in Ht.
  eexists. split; [reflexivity|]. wsimpl. rewrite Ht. by tidy_trace.
Qed.

(** X15. After a successful login, [/me] with the cookie of that login
    answers 200 with the body the login answered: the same user and the
    same permissions. *)
Theorem me_after_login {LC : JsString.Lowercase}
    (stn : string -> JSNumber) (req req2 : Request) (w w2 : World)
    (ua : UserAccountRow) :
  truthy (body_user_id req) = true ->
  Number_isInteger (Number stn (body_user_id req)) = true ->
  user_account (db w) !! login_key stn req = Some ua ->
  eligible (account_status ua) = true ->
  (forall n, faults w n = None) ->
  txn w = None ->
  user_session (db w) !! uuids w (nuuid w) = None ->
  extractSessionId req2 = Ok (Some (uuids w (nuuid w))) ->
  uuids w (nuuid w) <> "" ->
  db w2 = db (run (login stn req) w) ->
  faults w2 (ncalls w2) = None ->
  faults w2 (S (ncalls w2)) = None ->
  exists body,
    last (emitted w (run (login stn req) w)) = Some (ERespond 200 body) /\
    last (emitted w2 (run (me req2) w2)) = Some (ERespond 200 body).
Proof.
  intros Hv Hi Hua Hel Hf Htx Hfresh Hx Hsid Hdb Hf2 Hf2'.
  destruct (login_accept stn req w ua Hv Hi Hua Hel Hf Htx Hfresh)
    as (w1 & Hl & Hd & _ & He).
  unfold run in *. rewrite Hl in *. cbn [snd] in *. rewrite He.
  eexists. split.
  { rewrite !app_assoc. apply last_snoc. }
  destruct (me_ok req2 w2 (uuids w (nuuid w))
              (Sql.join_role (db w) (login_key stn req) (Sql.promote (clock w) ua)))
    as (w' & Hme & Ht); try done.
  { rewrite Hdb, Hd. apply session_after_login. }
  rewrite Hme. cbn [snd]. rewrite (emitted_app _ _ _ Ht).
  rewrite app_comm_cons, last_snoc. by rewrite Hdb.
Qed.

Lemma me_after_login_witness :
  exists body,
    last (emitted (Sample.world Sample.no_fault)
            (run (login Sample.StringToNumber (Sample.login_request (VString "11")))
                 (Sample.world Sample.no_fault))) = Some (ERespond 200 body) /\
    last (emitted
            (run (login Sample.StringToNumber (Sample.login_request (VString "11")))
                 (Sample.world Sample.no_fault))
            (run (me (mkRequest "GET" "/auth/me"
                        (Some "pp_session=7c9e6679-7425-40de-944b-e07fc1f90ae7")
                        VUndefined None None None))
                 (run (login Sample.StringToNumber (Sample.login_request (VString "11")))
                      (Sample.world Sample.no_fault))))
    = Some (ERespond 200 body).
Proof.
  apply (me_after_login Sample.StringToNumber
           (Sample.login_request (VString "11"))
           (mkRequest "GET" "/auth/me"
              (Some "pp_session=7c9e6679-7425-40de-944b-e07fc1f90ae7")
              VUndefined None None None)
           (Sample.world Sample.no_fault)
           (run (login Sample.StringToNumber (Sample.login_request (VString "11")))
                (Sample.world Sample.no_fault))
           (Sample.account "pending" (Some 2)));
    first [discriminate | reflexivity].
Defined.

Lemma session_after_logout (d : Store) (sid : string) :
  Sql.select_user_by_session (Sql.delete_session sid d) sid = None.
Proof.
  unfold Sql.select_user_by_session, Sql.delete_session.
  cbn [user_session with_user_session]. by rewrite lookup_delete_eq.
Qed.

(** X16. After a logout the store answered, the cookie of the session no
    longer opens the identity middleware: on any later request that
    carries it [next()] is not called, whatever the fault plan, and when
    the store answers the lookup the cookie is cleared and the answer is
    401. *)
Theorem logout_ends_session (req req2 : Request) (w w2 : World) (sid : string) :
  extractSessionId req = Ok (Some sid) -> sid <> "" ->
  faults w (ncalls w) = None ->
  extractSessionId req2 = Ok (Some sid) ->
  method req2 <> "OPTIONS" ->
  isAuthExemptPath (path req2) = false ->
  db w2 = db (run (logout req) w) ->
  (ENext ∉ emitted w2 (run (authenticate req2) w2)) /\
  (faults w2 (ncalls w2) = None ->
   (authenticate req2 w2).1 = Ok req2 /\
   emitted w2 (run (authenticate req2) w2)
   = [EQuery Pool (SelectUserBySession sid) Done;
      EClearCookie SESSION_COOKIE_NAME;
      ERespond 401 (BError "Not authenticated")]).
Proof.
  intros Hx Hsid Hf Hx2 Hm Hp Hdb.
  destruct (logout_ok req w (Some sid) Hx Hf) as (w1 & Hl & _ & Hd & _).
  unfold run in Hdb. rewrite Hl in Hdb. cbn [snd] in Hdb.
  unfold logged_out in Hd. rewrite (present_nonempty _ Hsid) in Hd.
  assert (Hnone : Sql.select_user_by_session (db w2) sid = None).
  { rewrite Hdb, Hd. apply session_after_logout. }
  split.
  - intros Hnext.
    apply authenticate_next_inv in Hnext as (sid' & row & Hx' & _ & _ & Hrow); try done.
    congruence.
  - intros Hf2. unfold run. rewrite (authenticate_rejects req2 w2 sid) by done.
    split; [reflexivity|]. cbn [snd]. apply emitted_app. wsimpl. by tidy_trace.
Qed.

Lemma logout_ends_session_witness :
  (ENext ∉ emitted
     (run (logout (Sample.logout_request (Some "pp_session=s1")))
          (Sample.world Sample.no_fault))
     (run (authenticate (Sample.request_of "GET" None))
          (run (logout (Sample.logout_request (Some "pp_session=s1")))
               (Sample.world Sample.no_fault)))) /\
  (faults (run (logout (Sample.logout_request (Some "pp_session=s1")))
               (Sample.world Sample.no_fault))
          (ncalls (run (logout (Sample.logout_request (Some "pp_session=s1")))
                       (Sample.world Sample.no_fault))) = None ->
   (authenticate (Sample.request_of "GET" None)
      (run (logout (Sample.logout_request (Some "pp_session=s1")))
           (Sample.world Sample.no_fault))).1 = Ok (Sample.request_of "GET" None) /\
   emitted
     (run (logout (Sample.logout_request (Some "pp_session=s1")))
          (Sample.world Sample.no_fault))
     (run (authenticate (Sample.request_of "GET" None))
          (run (logout (Sample.logout_request (Some "pp_session=s1")))
               (Sample.world Sample.no_fault)))
   = [EQuery Pool (SelectUserBySession "s1") Done;
      EClearCookie SESSION_COOKIE_NAME;
      ERespond 401 (BError "Not authenticated")]).
Proof.
  apply (logout_ends_session (Sample.logout_request (Some "pp_session=s1"))
           (Sample.request_of "GET" None)
           (Sample.world Sample.no_fault)
           (run (logout (Sample.logout_request (Some "pp_session=s1")))
                (Sample.world Sample.no_fault))
           "s1");
    first [discriminate | reflexivity].
Defined.

Ltac logout_close :=
  split_and!; auto;
  try first
    [ by repeat constructor
    | left; split; [done|];
      repeat first [apply list_elem_of_here | apply list_elem_of_further] ].

(** X17. Whatever the request and the fault plan, logout does not throw
    and answers exactly once, 204 after clearing the cookie or 500 with the
    store as it was; no account changes, and no session other than the one
    the cookie names is removed. *)
Theorem logout_single_response (req : Request) (w : World) :
  exists w' pre code body,
    logout req w = (Ok tt, w') /\
    emitted w w' = pre ++ [ERespond code body] /\
    Forall (fun e => is_verdict e = false) pre /\
    (code = 204 /\ EClearCookie SESSION_COOKIE_NAME ∈ pre \/
     code = 500 /\ db w' = db w) /\
    user_account (db w') = user_account (db w) /\
    (forall k, extractSessionId req <> Ok (Some k) ->
               user_session (db w') !! k = user_session (db w) !! k) /\
    txn w' = txn w /\ client w' = client w.
Proof.
  unfold logout, try_catch. unfold mbind, M_bind, bind, lift.
  destruct (extractSessionId req) as [[sid|]|e]; cbn [present].
  2:{ munfold. eexists _, [_], _, _. split; [reflexivity|].
      split; [apply emitted_app; wsimpl; by tidy_trace|]. logout_close. }
  2:{ munfold. eexists _, [_], _, _. split; [reflexivity|].
      split; [apply emitted_app; wsimpl; by tidy_trace|]. logout_close. }
  destruct (JsString.nonempty sid).
  2:{ munfold. eexists _, [_], _, _. split; [reflexivity|].
      split; [apply emitted_app; wsimpl; by tidy_trace|]. logout_close. }
  munfold. wsimpl. fault_cases.
  - eexists _, [_; _], _, _. split; [reflexivity|].
    split; [apply emitted_app; wsimpl; by tidy_trace|]. logout_close.
  - eexists _, [_; _], _, _. split; [reflexivity|].
    split; [apply emitted_app; wsimpl; by tidy_trace|].
    wsimpl. logout_close.
    intros k Hk. cbn [Sql.delete_session user_session with_user_session].
    rewrite lookup_delete_ne; [done | congruence].
Qed.

(** ** From the cookie to the gate *)

Lemma select_user_by_session_some (d : Store) (sid : string) (row : UserRoleRow) :
  Sql.select_user_by_session d sid = Some row ->
  exists s ua,
    user_session d !! sid = Some s /\
    user_account d !! s_user_id s = Some ua /\
    row = Sql.join_role d (s_user_id s) ua.
Proof.
  unfold Sql.select_user_by_session.
  destruct (user_session d !! sid) as [s|]; cbn; [|discriminate].
  destruct (user_account d !! s_user_id s) as [ua|] eqn:Hua; cbn; [|discriminate].
  intros [= <-]. by exists s, ua.
Qed.

(** The set the gate resolves for the request the identity middleware
    hands over. *)
Lemma gate_after_authenticate {LC : JsString.Lowercase}
    (pair : PermissionPair) (req : Request) (w : World) (sid : string) (row : UserRoleRow) :
  method req <> "OPTIONS" ->
  isAuthExemptPath (path req) = false ->
  extractSessionId req = Ok (Some sid) -> sid <> "" ->
  permissionCache req = None ->
  (forall n, faults w n = None) ->
  Sql.select_user_by_session (db w) sid = Some row ->
  exists req1 w1,
    authenticate req w = (Ok req1, w1) /\
    ENext ∈ emitted w w1 /\
    (ENext ∈ emitted w1 (run (requirePermissions pair req1) w1) <->
     (if is_read_method (method req)
      then hasPermission (permissions_of_row (db w) row) (required (read pair))
           || hasPermission (permissions_of_row (db w) row) (required (manage pair))
      else hasPermission (permissions_of_row (db w) row) (required (manage pair)))
     = true).
Proof.
  intros Hm Hp Hx Hsid Hc Hf Hrow.
  destruct (authenticate_accepts req w sid row) as (w1 & l & Ha & Ht & _ & Hd & _ & _ & _ & Hfs);
    try done.
  eexists _, _. split; [exact Ha|]. split.
  { rewrite (emitted_app _ _ _ Ht).
    rewrite elem_of_cons, elem_of_app, !elem_of_cons. tauto. }
  rewrite requirePermissions_passes by done.
  cbn [method set_identity].
  assert (Hg : getUserPermissions (set_identity sid (normalizeUserRow row) req) w1
               = (Ok (permissions_of_row (db w) row,
                      set_permissionCache (permissions_of_row (db w) row)
                        (set_identity sid (normalizeUserRow row) req)),
                  log (EQuery Pool (SelectUserPermissions
                                      (VNumber (num_of_Z (jr_user_id row)))) Done)
                      (count_call w1))).
  { unfold getUserPermissions. cbn [user permissionCache set_identity]. rewrite Hc.
    unfold mbind, M_bind, bind.
    rewrite queryUserPermissions_ok by (by rewrite Hfs).
    unfold permissions_of_row. cbn [user_id normalizeUserRow].
    by destruct Hd as [-> | ->]. }
  split.
  - intros (u & S & req' & w' & _ & Hg' & Hb). rewrite Hg in Hg'.
    by injection Hg' as <- <- <-.
  - intros Hb. eexists _, _, _, _. split; [reflexivity|]. split; [exact Hg|]. done.
Qed.

(** X18. From the cookie to the gate: a mutating request that carries a
    resolving session cookie passes the identity middleware, and then
    passes a gate exactly when the user of the session is granted, through
    the role, a permission whose name is the gate's manage name up to
    letter case. *)
Theorem session_passes_gate_iff {LC : JsString.Lowercase}
    (r : option string) (m : string) (req : Request) (w : World)
    (sid : string) (row : UserRoleRow) :
  method req <> "OPTIONS" ->
  isAuthExemptPath (path req) = false ->
  is_read_method (method req) = false ->
  extractSessionId req = Ok (Some sid) -> sid <> "" ->
  permissionCache req = None ->
  m <> "" ->
  (forall n, faults w n = None) ->
  Sql.select_user_by_session (db w) sid = Some row ->
  exists req1 w1,
    authenticate req w = (Ok req1, w1) /\
    ENext ∈ emitted w w1 /\
    (ENext ∈ emitted w1 (run (requirePermissions (mkPair r (Some m)) req1) w1) <->
     exists name, granted (db w) (jr_user_id row) name /\
                  JsString.toLowerCase name = JsString.toLowerCase m).
Proof.
  intros Hm Hp Hr Hx Hsid Hc Hne Hf Hrow.
  destruct (gate_after_authenticate (mkPair r (Some m)) req w sid row)
    as (req1 & w1 & Ha & Hn & Hg); try done.
  exists req1, w1. split; [done|]. split; [done|].
  rewrite Hg, Hr. cbn [manage]. rewrite hasPermission_required by done.
  unfold JsSet.has. rewrite bool_decide_eq_true. unfold permissions_of_row.
  destruct (of_array_resolves (db w) (jr_user_id row)) as [_ Hres].
  rewrite Hres. split; intros (name & Hgr & Heq); by exists name.
Qed.

Lemma session_passes_gate_iff_witness :
  exists req1 w1,
    authenticate (Sample.request_of "POST" None) (Sample.world Sample.no_fault)
    = (Ok req1, w1) /\
    ENext ∈ emitted (Sample.world Sample.no_fault) w1 /\
    (ENext ∈ emitted w1
       (run (requirePermissions (mkPair (Some "view users") (Some "MANAGE USERS")) req1) w1)
     <->
     exists name,
       granted (db (Sample.world Sample.no_fault))
         (jr_user_id (Sql.join_role Sample.store 3 (Sample.account "active" (Some 2)))) name /\
       JsString.toLowerCase name = JsString.toLowerCase "MANAGE USERS").
Proof.
  apply (session_passes_gate_iff (Some "view users") "MANAGE USERS"
           (Sample.request_of "POST" None) (Sample.world Sample.no_fault) "s1"
           (Sql.join_role Sample.store 3 (Sample.account "active" (Some 2))));
    first [discriminate | reflexivity].
Defined.

(** X19. A user without a role gets through the identity middleware and
    is stopped by every gate: whatever the pair of the gate and whatever the
    method, other than [OPTIONS], the gate does not call [next()]. *)
Theorem session_without_role_is_stopped {LC : JsString.Lowercase}
    (pair : PermissionPair) (req : Request) (w : World)
    (sid : string) (row : UserRoleRow) :
  method req <> "OPTIONS" ->
  isAuthExemptPath (path req) = false ->
  extractSessionId req = Ok (Some sid) -> sid <> "" ->
  permissionCache req = None ->
  (forall n, faults w n = None) ->
  Sql.select_user_by_session (db w) sid = Some row ->
  ua_role_id (jr_account row) = None ->
  exists req1 w1,
    authenticate req w = (Ok req1, w1) /\
    ENext ∈ emitted w w1 /\
    ENext ∉ emitted w1 (run (requirePermissions pair req1) w1).
Proof.
  intros Hm Hp Hx Hsid Hc Hf Hrow Hrole.
  destruct (gate_after_authenticate pair req w sid row)
    as (req1 & w1 & Ha & Hn & Hg); try done.
  exists req1, w1. split; [done|]. split; [done|].
  rewrite Hg. unfold permissions_of_row.
  apply select_user_by_session_some in Hrow as (s & ua & _ & Hua & ->).
  cbn [jr_user_id jr_account Sql.join_role] in *.
  rewrite (select_user_permissions_no_role _ _ _ Hua Hrole).
  change (JsSet.of_array (map JsString.toLowerCase [])) with (@nil string).
  assert (Hnone : forall p, hasPermission [] p = false).
  { intros [p|]; [|done]. unfold hasPermission, JsSet.has.
    rewrite (bool_decide_eq_false_2 _ (not_elem_of_nil p)). apply andb_false_r. }
  rewrite !Hnone. by destruct (is_read_method (method req)).
Qed.

Lemma session_without_role_is_stopped_witness :
  exists req1 w1,
    authenticate (mkRequest "GET" "/location" (Some "pp_session=s3")
                            VUndefined None None None)
      (mkWorld (with_user_session (insert "s3" (mkSession 12 0)) Sample.store)
               None false 0 0 [] Sample.no_fault (fun _ => "u") 1000)
    = (Ok req1, w1) /\
    ENext ∈ emitted
      (mkWorld (with_user_session (insert "s3" (mkSession 12 0)) Sample.store)
               None false 0 0 [] Sample.no_fault (fun _ => "u") 1000) w1 /\
    ENext ∉ emitted w1
      (run (requirePermissions (mkPair (Some "view locations") (Some "manage locations"))
              req1) w1).
Proof.
  apply (session_without_role_is_stopped
           (mkPair (Some "view locations") (Some "manage locations"))
           (mkRequest "GET" "/location" (Some "pp_session=s3") VUndefined None None None)
           (mkWorld (with_user_session (insert "s3" (mkSession 12 0)) Sample.store)
                    None false 0 0 [] Sample.no_fault (fun _ => "u") 1000)
           "s3"
           (Sql.join_role Sample.store 12 (Sample.account "pending" None)));
    first [discriminate | reflexivity].
Defined.

(** ** Every run of the login handler *)

Lemma tally_app (P : Event -> bool) (l1 l2 : list Event) :
  tally P (l1 ++ l2) = (tally P l1 + tally P l2)%nat.
Proof. unfold tally. by rewrite List.filter_app, length_app. Qed.

Lemma tally_cons (P : Event -> bool) (e : Event) (l : list Event) :
  tally P (e :: l) = ((if P e then 1 else 0) + tally P l)%nat.
Proof. unfold tally. cbn. by destruct (P e). Qed.

Lemma tally_elem (P : Event -> bool) (l : list Event) :
  tally P l = 0%nat -> forall e, e ∈ l -> P e = false.
Proof.
  induction l as [|a l IH]; intros Hz e Hin; [by apply elem_of_nil in Hin|].
  rewrite tally_cons in Hz. destruct (P a) eqn:Ha; [discriminate|].
  apply elem_of_cons in Hin as [->|Hin]; [done | by apply IH].
Qed.

Ltac tally_count :=
  repeat first [rewrite tally_cons | rewrite tally_app].

(** The permission lookup adds at most its own statement. *)
Lemma listUserPermissions_trace {LC : JsString.Lowercase}
    (uid : Z) (w : World) :
  exists r w' l,
    listUserPermissions (VNumber (num_of_Z uid)) w = (r, w') /\
    trace w' = trace w ++ l /\
    (l = [] \/ exists o, l = [EQuery Pool (SelectUserPermissions (VNumber (num_of_Z uid))) o]) /\
    db w' = db w /\ txn w' = txn w /\ client w' = client w.
Proof.
  unfold listUserPermissions. rewrite truthy_of_Z.
  destruct (uid =? 0); cbn [negb].
  - exists (Ok []), w, []. rewrite app_nil_r. split_and!; auto.
  - unfold mbind, M_bind, bind.
    destruct (faults w (ncalls w)) as [e|] eqn:Hf.
    + rewrite (queryUserPermissions_raises _ _ e Hf).
      eexists _, _, [_]. split; [reflexivity|]. wsimpl. split_and!; eauto.
    + rewrite queryUserPermissions_ok by done.
      eexists _, _, [_]. split; [reflexivity|]. wsimpl. split_and!; eauto.
Qed.

(** The [catch] of the login handler: one 500, the connection released
    when it was held, the committed store untouched. *)
Lemma login_catch_run (err : JSError) (w : World) :
  exists w' l,
    login_catch err w = (Ok tt, w') /\ trace w' = trace w ++ l /\
    db w' = db w /\ client w' = false /\
    tally is_response l = 1%nat /\
    tally is_release l = (if client w then 1 else 0)%nat /\
    tally is_connect_done l = 0%nat /\ tally is_cookie l = 0%nat.
Proof.
  destruct (client w) eqn:Hc.
  - destruct (login_catch_held err w Hc) as (o & w' & H & Ht & Hd & Hcl & _).
    eexists _, _. split; [exact H|]. split; [exact Ht|].
    split_and!; try done; destruct o; reflexivity.
  - rewrite login_catch_free by done.
    eexists _, [_; _]. split; [reflexivity|]. wsimpl. tidy_trace.
    by split_and!.
Qed.

(** The session part of the login handler, whatever the fault plan: it
    throws before the commit, with the committed store as it was and the
    connection held; or it commits the stamp and the session row together,
    releases the connection and sets the cookie, and then answers 200 or
    throws on the permission lookup. *)
Lemma login_session_run {LC : JsString.Lowercase}
    (u : User) (w : World) (t0 : Store) :
  txn w = Some t0 -> client w = true ->
  exists r w' l,
    login_session u w = (r, w') /\ trace w' = trace w ++ l /\
    tally is_connect_done l = 0%nat /\
    ((exists e, r = Throw e) /\ db w' = db w /\ client w' = true /\
     tally is_response l = 0%nat /\ tally is_release l = 0%nat /\
     tally is_cookie l = 0%nat
     \/
     Sql.insert_session (clock w) (uuids w (nuuid w)) (user_id u)
       (Sql.update_login (clock w) (user_id u) t0) = Some (db w') /\
     client w' = false /\ txn w' = None /\
     tally is_release l = 1%nat /\ tally is_cookie l = 1%nat /\
     ESetCookie SESSION_COOKIE_NAME (uuids w (nuuid w)) 604800000 ∈ l /\
     (r = Ok tt /\ tally is_response l = 1%nat \/
      (exists e, r = Throw e) /\ tally is_response l = 0%nat)).
Proof.
  intros Htx Hc. unfold login_session. munfold. wsimpl. rewrite Htx. wsimpl.
  fault_cases.
  { eexists _, _, [_]. split; [reflexivity|]. wsimpl. split; [reflexivity|].
    split; [reflexivity|]. left. split; [by eexists|]. by split_and!. }
  fault_cases.
  { eexists _, _, [_; _]. split; [reflexivity|]. wsimpl. tidy_trace.
    split; [reflexivity|]. split; [reflexivity|].
    left. split; [by eexists|]. by split_and!. }
  destruct (Sql.insert_session _ _ _ _) as [d|] eqn:Hins; wsimpl.
  2:{ eexists _, _, [_; _]. split; [reflexivity|]. wsimpl. tidy_trace.
      split; [reflexivity|]. split; [reflexivity|].
      left. split; [by eexists|]. by split_and!. }
  fault_cases.
  { eexists _, _, [_; _; _]. split; [reflexivity|]. wsimpl. tidy_trace.
    split; [reflexivity|]. split; [reflexivity|].
    left. split; [by eexists|]. by split_and!. }
  fault_cases.
  { eexists _, _, [_; _; _; _]. split; [reflexivity|]. wsimpl. tidy_trace.
    split; [reflexivity|]. split; [reflexivity|].
    left. split; [by eexists|]. by split_and!. }
  match goal with
  | |- context [listUserPermissions (VNumber (num_of_Z ?uid)) ?w0] =>
      destruct (listUserPermissions_trace uid w0)
        as (r & w' & l & Hl & Ht & Hshape & Hd & Hx & Hcl);
      rewrite Hl
  end.
  wsimpl in Ht. wsimpl in Hd. wsimpl in Hx. wsimpl in Hcl. tidy_trace in Ht.
  assert (Hzero : forall P, (forall v o, P (EQuery Pool (SelectUserPermissions v) o) = false) ->
                            tally P l = 0%nat).
  { intros P HP. destruct Hshape as [-> | [o ->]]; [done|].
    rewrite tally_cons, HP. reflexivity. }
  destruct r as [perms|e]; wsimpl.
  - eexists _, _, _. split; [reflexivity|]. wsimpl. rewrite Ht. tidy_trace.
    split; [reflexivity|].
    split. { tally_count. rewrite Hzero by done. reflexivity. }
    right. rewrite Hd, Hx, Hcl. split_and!; try done.
    + tally_count. rewrite Hzero by done. reflexivity.
    + tally_count. rewrite Hzero by done. reflexivity.
    + rewrite !elem_of_cons. tauto.
    + left. split; [done|]. tally_count. rewrite Hzero by done. reflexivity.
  - eexists _, _, _. split; [reflexivity|]. wsimpl. rewrite Ht. tidy_trace.
    split; [reflexivity|].
    split. { tally_count. rewrite Hzero by done. reflexivity. }
    right. rewrite Hd, Hx, Hcl. split_and!; try done.
    + tally_count. rewrite Hzero by done. reflexivity.
    + tally_count. rewrite Hzero by done. reflexivity.
    + rewrite !elem_of_cons. tauto.
    + right. split; [by eexists|]. tally_count. rewrite Hzero by done. reflexivity.
Qed.

Ltac run_catch :=
  match goal with
  | |- context [login_catch ?e ?w0] =>
      let w3 := fresh "w3" in
      let l3 := fresh "l3" in
      let Hc3 := fresh "Hc3" in
      let Ht3 := fresh "Ht3" in
      let Hd3 := fresh "Hd3" in
      let Hcl3 := fresh "Hcl3" in
      let Hr3 := fresh "Hr3" in
      let Hrel3 := fresh "Hrel3" in
      let Hcon3 := fresh "Hcon3" in
      let Hck3 := fresh "Hck3" in
      destruct (login_catch_run e w0)
        as (w3 & l3 & Hc3 & Ht3 & Hd3 & Hcl3 & Hr3 & Hrel3 & Hcon3 & Hck3);
      rewrite Hc3; wsimpl; rewrite ?Hcl3;
      wsimpl in Ht3; wsimpl in Hd3; wsimpl in Hrel3; tidy_trace in Ht3;
      eexists _, _; split; [reflexivity|]; split; [exact Ht3|];
      tally_count; rewrite Hr3, Hrel3, Hcon3, Hck3
  end.

Ltac close_run :=
  split_and!; try done; try (cbn; lia);
  try (left; split; [first [done | congruence] | first [done | cbn; lia]]).

(** Every run of the login handler, whatever the request and the fault
    plan. *)
Lemma login_runs {LC : JsString.Lowercase}
    (stn : string -> JSNumber) (req : Request) (w : World) :
  txn w = None ->
  exists w' l,
    login stn req w = (Ok tt, w') /\ trace w' = trace w ++ l /\
    tally is_response l = 1%nat /\
    tally is_release l = tally is_connect_done l /\
    (tally is_connect_done l <= 1)%nat /\
    (db w' = db w /\ tally is_cookie l = 0%nat
     \/
     Sql.insert_session (clock w) (uuids w (nuuid w)) (login_key stn req)
       (Sql.update_login (clock w) (login_key stn req) (db w)) = Some (db w') /\
     is_Some (user_account (db w) !! login_key stn req) /\
     ESetCookie SESSION_COOKIE_NAME (uuids w (nuuid w)) 604800000 ∈ l /\
     tally is_cookie l = 1%nat).
Proof.
  intros Htx. unfold login, login_body, login_key.
  destruct (negb (truthy (body_user_id req))
            || negb (Number_isInteger (Number stn (body_user_id req)))).
  { munfold. wsimpl. eexists _, [_]. split; [reflexivity|]. wsimpl.
    split; [reflexivity|]. close_run. }
  set (uid := integer_value (Number stn (body_user_id req))).
  munfold. wsimpl.
  fault_cases.
  { run_catch. close_run. }
  rewrite Htx. wsimpl.
  fault_cases.
  { run_catch. close_run. }
  fault_cases.
  { run_catch. close_run. }
  unfold Sql.select_user_for_login.
  destruct (user_account (db w) !! uid) as [ua|] eqn:Hua;
    cbn [fmap option_fmap option_map].
  2:{ wsimpl. fault_cases.
      - run_catch. close_run.
      - tidy_trace. eexists _, _. split; [reflexivity|]. wsimpl. tidy_trace.
        split; [reflexivity|]. close_run. }
  destruct (negb (bool_decide (_ ∈ USER_STATUSES)) || bool_decide (_ = "inactive")).
  { wsimpl. fault_cases.
    - run_catch. close_run.
    - tidy_trace. eexists _, _. split; [reflexivity|]. wsimpl. tidy_trace.
      split; [reflexivity|]. close_run. }
  match goal with
  | |- context [login_session ?u ?w1] =>
      destruct (login_session_run u w1 (db w))
        as (r & w2 & l & Hs & Ht & Hcon & Hcase);
      [reflexivity | reflexivity | rewrite Hs]
  end.
  wsimpl in Ht. tidy_trace in Ht. wsimpl in Hcase.
  cbn [user_id normalizeUserRow Sql.join_role jr_user_id] in Hcase.
  destruct Hcase as [([e ->] & Hd & Hcl & Hr & Hrel & Hck)
                    | (Hins & Hcl & _ & Hrel & Hck & Hin & Hresp)].
  - match goal with
    | |- context [login_catch ?e ?w0] =>
        destruct (login_catch_run e w0)
          as (w3 & l3 & Hc3 & Ht3 & Hd3 & Hcl3 & Hr3 & Hrel3 & Hcon3 & Hck3)
    end.
    rewrite Hc3. wsimpl. rewrite Hcl3. rewrite Hcl in Hrel3.
    rewrite Ht in Ht3. tidy_trace in Ht3.
    eexists _, _. split; [reflexivity|]. split; [exact Ht3|].
    tally_count. rewrite Hr, Hrel, Hck, Hcon, Hr3, Hrel3, Hcon3, Hck3.
    close_run.
  - destruct Hresp as [[-> Hr] | [[e ->] Hr]].
    + rewrite Hcl. eexists _, _. split; [reflexivity|]. split; [exact Ht|].
      tally_count. rewrite Hr, Hrel, Hck, Hcon.
      split_and!; try done; try (cbn; lia). right. split_and!; try done.
      rewrite !elem_of_cons. tauto.
    + match goal with
      | |- context [login_catch ?e ?w0] =>
          destruct (login_catch_run e w0)
            as (w3 & l3 & Hc3 & Ht3 & Hd3 & Hcl3 & Hr3 & Hrel3 & Hcon3 & Hck3)
      end.
      rewrite Hc3. wsimpl. rewrite Hcl3. rewrite Hcl in Hrel3.
      rewrite Ht in Ht3. tidy_trace in Ht3.
      eexists _, _. split; [reflexivity|]. split; [exact Ht3|].
      tally_count. rewrite Hr, Hrel, Hck, Hcon, Hr3, Hrel3, Hcon3, Hck3.
      split_and!; try done; try (cbn; lia). right. rewrite Hd3. split_and!; try done.
      rewrite !elem_of_cons, !elem_of_app. tauto.
Qed.

(** X20. Whatever the request and the fault plan, the login handler does
    not throw, answers exactly once, and releases the connection as many
    times as it acquired one, which is at most once. *)
Theorem login_single_response {LC : JsString.Lowercase}
    (stn : string -> JSNumber) (req : Request) (w : World) :
  txn w = None ->
  (login stn req w).1 = Ok tt /\
  tally is_response (emitted w (run (login stn req) w)) = 1%nat /\
  tally is_release (emitted w (run (login stn req) w))
  = tally is_connect_done (emitted w (run (login stn req) w)) /\
  (tally is_connect_done (emitted w (run (login stn req) w)) <= 1)%nat.
Proof.
  intros Htx.
  destruct (login_runs stn req w Htx) as (w' & l & Hl & Ht & Hr & Hrel & Hcon & _).
  unfold run. rewrite Hl. cbn [fst snd]. by rewrite (emitted_app _ _ _ Ht).
Qed.

Lemma login_single_response_witness :
  (login Sample.StringToNumber (Sample.login_request (VString "11"))
         (Sample.world (Sample.fault_at 4))).1 = Ok tt /\
  tally is_response
    (emitted (Sample.world (Sample.fault_at 4))
       (run (login Sample.StringToNumber (Sample.login_request (VString "11")))
            (Sample.world (Sample.fault_at 4)))) = 1%nat /\
  tally is_release
    (emitted (Sample.world (Sample.fault_at 4))
       (run (login Sample.StringToNumber (Sample.login_request (VString "11")))
            (Sample.world (Sample.fault_at 4))))
  = tally is_connect_done
      (emitted (Sample.world (Sample.fault_at 4))
         (run (login Sample.StringToNumber (Sample.login_request (VString "11")))
              (Sample.world (Sample.fault_at 4)))) /\
  (tally is_connect_done
     (emitted (Sample.world (Sample.fault_at 4))
        (run (login Sample.StringToNumber (Sample.login_request (VString "11")))
             (Sample.world (Sample.fault_at 4)))) <= 1)%nat.
Proof.
  apply (login_single_response Sample.StringToNumber
           (Sample.login_request (VString "11"))
           (Sample.world (Sample.fault_at 4))).
  reflexivity.
Defined.

(** X21. The login handler is all or nothing, whatever the fault plan:
    either the committed store is as before and no cookie is set, or the
    store holds the login stamp of the user together with the new session
    row and the one cookie set carries the id of that row. *)
Theorem login_all_or_nothing {LC : JsString.Lowercase}
    (stn : string -> JSNumber) (req : Request) (w : World) :
  txn w = None ->
  db (run (login stn req) w) = db w /\
  tally is_cookie (emitted w (run (login stn req) w)) = 0%nat
  \/
  Sql.insert_session (clock w) (uuids w (nuuid w)) (login_key stn req)
    (Sql.update_login (clock w) (login_key stn req) (db w))
  = Some (db (run (login stn req) w)) /\
  is_Some (user_account (db w) !! login_key stn req) /\
  ESetCookie SESSION_COOKIE_NAME (uuids w (nuuid w)) 604800000
    ∈ emitted w (run (login stn req) w) /\
  tally is_cookie (emitted w (run (login stn req) w)) = 1%nat.
Proof.
  intros Htx.
  destruct (login_runs stn req w Htx) as (w' & l & Hl & Ht & _ & _ & _ & Hcase).
  unfold run. rewrite Hl. cbn [snd]. by rewrite (emitted_app _ _ _ Ht).
Qed.

Lemma login_all_or_nothing_witness :
  db (run (login Sample.StringToNumber (Sample.login_request (VString "11")))
          (Sample.world (Sample.fault_at 6))) = db (Sample.world (Sample.fault_at 6)) /\
  tally is_cookie
    (emitted (Sample.world (Sample.fault_at 6))
       (run (login Sample.StringToNumber (Sample.login_request (VString "11")))
            (Sample.world (Sample.fault_at 6)))) = 0%nat
  \/
  Sql.insert_session (clock (Sample.world (Sample.fault_at 6)))
    (uuids (Sample.world (Sample.fault_at 6)) (nuuid (Sample.world (Sample.fault_at 6))))
    (login_key Sample.StringToNumber (Sample.login_request (VString "11")))
    (Sql.update_login (clock (Sample.world (Sample.fault_at 6)))
       (login_key Sample.StringToNumber (Sample.login_request (VString "11")))
       (db (Sample.world (Sample.fault_at 6))))
  = Some (db (run (login Sample.StringToNumber (Sample.login_request (VString "11")))
                  (Sample.world (Sample.fault_at 6)))) /\
  is_Some (user_account (db (Sample.world (Sample.fault_at 6)))
             !! login_key Sample.StringToNumber (Sample.login_request (VString "11"))) /\
  ESetCookie SESSION_COOKIE_NAME
    (uuids (Sample.world (Sample.fault_at 6)) (nuuid (Sample.world (Sample.fault_at 6))))
    604800000
    ∈ emitted (Sample.world (Sample.fault_at 6))
        (run (login Sample.StringToNumber (Sample.login_request (VString "11")))
             (Sample.world (Sample.fault_at 6))) /\
  tally is_cookie
    (emitted (Sample.world (Sample.fault_at 6))
       (run (login Sample.StringToNumber (Sample.login_request (VString "11")))
            (Sample.world (Sample.fault_at 6)))) = 1%nat.
Proof.
  apply (login_all_or_nothing Sample.StringToNumber
           (Sample.login_request (VString "11"))
           (Sample.world (Sample.fault_at 6))).
  reflexivity.
Defined.

(** X22. When the permission lookup that follows the commit raises, the
    login handler answers 500, and yet the login took place: the stamp and
    the session row are committed, the connection is released and the
    cookie is set before the lookup. *)
Theorem login_lookup_failure_after_commit {LC : JsString.Lowercase}
    (stn : string -> JSNumber) (req : Request) (w : World)
    (ua : UserAccountRow) (e : JSError) :
  truthy (body_user_id req) = true ->
  Number_isInteger (Number stn (body_user_id req)) = true ->
  user_account (db w) !! login_key stn req = Some ua ->
  eligible (account_status ua) = true ->
  login_key stn req <> 0 ->
  (forall n, (n < 7)%nat -> faults w (n + ncalls w) = None) ->
  faults w (7 + ncalls w) = Some e ->
  txn w = None ->
  user_session (db w) !! uuids w (nuuid w) = None ->
  exists w',
    login stn req w = (Ok tt, w') /\
    emitted w w' =
      [EConnect Done; EQuery Client Begin Done;
       EQuery Client (SelectUserForLogin (login_key stn req)) Done;
       EQuery Client (UpdateLogin (login_key stn req)) Done;
       EQuery Client (InsertSession (uuids w (nuuid w)) (login_key stn req)) Done;
       EQuery Client (SelectUserForLogin (login_key stn req)) Done;
       EQuery Client Commit Done; ERelease;
       ESetCookie SESSION_COOKIE_NAME (uuids w (nuuid w)) 604800000;
       EQuery Pool (SelectUserPermissions (VNumber (num_of_Z (login_key stn req))))
         (Raised e);
       EConsoleError "Error logging in:" e;
       ERespond 500 (internal_error e)] /\
    db w' = with_user_session
              (insert (uuids w (nuuid w)) (mkSession (login_key stn req) (clock w)))
              (Sql.update_login (clock w) (login_key stn req) (db w)).
Proof.
  intros Hv Hi Hua Hel Hnz Hf He Htx Hfresh.
  unfold login_key in *.
  set (uid := integer_value (Number stn (body_user_id req))) in *.
  pose proof (Hf 0%nat ltac:(lia)) as H0. pose proof (Hf 1%nat ltac:(lia)) as H1.
  pose proof (Hf 2%nat ltac:(lia)) as H2. pose proof (Hf 3%nat ltac:(lia)) as H3.
  pose proof (Hf 4%nat ltac:(lia)) as H4. pose proof (Hf 5%nat ltac:(lia)) as H5.
  pose proof (Hf 6%nat ltac:(lia)) as H6.
  cbn [Nat.add] in H0, H1, H2, H3, H4, H5, H6, He.
  unfold login, login_body. rewrite Hv, Hi.
  change (negb true || negb true) with false. cbv iota. fold uid.
  munfold. wsimpl. rewrite H0. wsimpl. rewrite Htx. wsimpl.
  rewrite H1. wsimpl. rewrite H2. wsimpl.
  unfold Sql.select_user_for_login at 1. rewrite Hua.
  cbn [fmap option_fmap option_map].
  rewrite normalizedStatus_account.
  assert (Hst : negb (bool_decide (account_status ua ∈ USER_STATUSES))
                || bool_decide (account_status ua = "inactive") = false).
  { unfold eligible in Hel. apply andb_true_iff in Hel as [-> Hn].
    apply negb_true_iff in Hn. by rewrite Hn. }
  rewrite Hst. unfold login_session. munfold. wsimpl.
  cbn [user_id normalizeUserRow Sql.join_role jr_user_id].
  rewrite H3. wsimpl. rewrite H4. wsimpl.
  unfold Sql.insert_session.
  change (user_session (Sql.update_login (clock w) uid (db w)))
    with (user_session (db w)).
  rewrite Hfresh. wsimpl. rewrite H5. wsimpl. rewrite H6. wsimpl.
  unfold listUserPermissions. rewrite truthy_of_Z.
  replace (uid =? 0) with false by (symmetry; by apply Z.eqb_neq).
  cbn [negb]. unfold mbind, M_bind, bind.
  rewrite (queryUserPermissions_raises _ _ e) by (wsimpl; exact He).
  rewrite login_catch_free by reflexivity. wsimpl.
  eexists. split; [reflexivity|]. wsimpl. split; [|reflexivity].
  apply emitted_app. wsimpl. by tidy_trace.
Qed.

Lemma login_lookup_failure_after_commit_witness :
  exists w',
    login Sample.StringToNumber (Sample.login_request (VString "11"))
          (Sample.world (Sample.fault_at 7)) = (Ok tt, w') /\
    emitted (Sample.world (Sample.fault_at 7)) w' =
      [EConnect Done; EQuery Client Begin Done;
       EQuery Client (SelectUserForLogin 11) Done;
       EQuery Client (UpdateLogin 11) Done;
       EQuery Client (InsertSession "7c9e6679-7425-40de-944b-e07fc1f90ae7" 11) Done;
       EQuery Client (SelectUserForLogin 11) Done;
       EQuery Client Commit Done; ERelease;
       ESetCookie SESSION_COOKIE_NAME "7c9e6679-7425-40de-944b-e07fc1f90ae7" 604800000;
       EQuery Pool (SelectUserPermissions (VNumber (num_of_Z 11))) (Raised Sample.boom);
       EConsoleError "Error logging in:" Sample.boom;
       ERespond 500 (internal_error Sample.boom)] /\
    db w' = with_user_session
              (insert "7c9e6679-7425-40de-944b-e07fc1f90ae7" (mkSession 11 1000))
              (Sql.update_login 1000 11 Sample.store).
Proof.
  apply (login_lookup_failure_after_commit Sample.StringToNumber
           (Sample.login_request (VString "11"))
           (Sample.world (Sample.fault_at 7))
           (Sample.account "pending" (Some 2)) Sample.boom);
    try reflexivity; try discriminate.
  intros n Hn. unfold Sample.world, Sample.fault_at. cbn [faults ncalls].
  destruct (Nat.eqb_spec (n + 0) 7); [lia | reflexivity].
Defined.

(** ** Account statuses: what is stored and what the login reads *)

(** A known status is read back by the login handler as it is. *)
Lemma account_status_known {LC : JsString.Lowercase}
    (ua : UserAccountRow) (s : string) :
  s ∈ USER_STATUSES -> ua_status ua = Some s ->
  account_status ua = s /\
  eligible (account_status ua) = negb (bool_decide (s = "inactive")).
Proof.
  intros Hs Hua. unfold account_status. rewrite Hua. cbn [default].
  unfold USER_STATUSES in Hs.
  repeat (apply elem_of_cons in Hs as [->|Hs];
          [match goal with
           | |- context [JsString.trim ?x] =>
               change (JsString.trim x) with x; rewrite (toLowerCase_word x) by reflexivity
           end; by vm_compute|]).
  by apply elem_of_nil in Hs.
Qed.

(** X23. [validateStatus] returns [null] exactly for [undefined] and
    [null]; for every other value it returns the trimmed, lowercased text
    of the value when that is an allowed status and throws its one message
    when it is not; and a status it returns is one the login handler
    recognises as it is: read back from an account it is equal to its own
    trimmed, lowercased form, it is one of [USER_STATUSES], and it lets the
    user in unless it is [inactive]. *)
Theorem validateStatus_spec {LC : JsString.Lowercase}
    (NumberToString : JSNumber -> string) (status : JSValue) :
  (validateStatus NumberToString status = Ok None <->
   status = VUndefined \/ status = VNull) /\
  (status <> VUndefined -> status <> VNull ->
   (JsString.toLowerCase (JsString.trim (ToString NumberToString status))
      ∈ ALLOWED_STATUS ->
    validateStatus NumberToString status
    = Ok (Some (JsString.toLowerCase
                  (JsString.trim (ToString NumberToString status))))) /\
   (JsString.toLowerCase (JsString.trim (ToString NumberToString status))
      ∉ ALLOWED_STATUS ->
    validateStatus NumberToString status
    = Throw (mkError "Error" "status must be one of: pending, active, inactive"))) /\
  (forall s, validateStatus NumberToString status = Ok (Some s) ->
     s ∈ ALLOWED_STATUS /\ s ∈ USER_STATUSES /\
     forall ua, ua_status ua = Some s ->
       account_status ua = s /\
       eligible (account_status ua) = negb (bool_decide (s = "inactive"))).
Proof.
  split; [|split].
  - unfold validateStatus. split.
    + destruct status; auto; by destruct (bool_decide _).
    + by intros [-> | ->].
  - intros Hu Hn. unfold validateStatus.
    destruct status; try done;
      (split; intros Hin;
       [by rewrite bool_decide_eq_true_2 | by rewrite bool_decide_eq_false_2]).
  - intros s Hs. unfold validateStatus in Hs.
    assert (Hin : s ∈ ALLOWED_STATUS).
    { destruct status; try done;
        (destruct (bool_decide _) eqn:Hb; [|done]);
        apply bool_decide_eq_true in Hb; by injection Hs as <-. }
    split; [done|]. split; [exact Hin|].
    intros ua Hua. by apply account_status_known.
Qed.

Example validateStatus_samples :
  validateStatus (fun _ => "0") (VString "  Inactive ") = Ok (Some "inactive") /\
  validateStatus (fun _ => "0") VNull = Ok None /\
  validateStatus (fun _ => "0") (VString "archived")
  = Throw (mkError "Error" "status must be one of: pending, active, inactive").
Proof. by vm_compute. Qed.

(** ** The statuses of [GET /auth/users] *)

Lemma requestedStatuses_nonempty {LC : JsString.Lowercase}
    (status : QueryValue) : requestedStatuses status <> [].
Proof. unfold requestedStatuses. by destruct (filter _ _). Qed.

(** X24. The first part of [GET /auth/users]: either every requested
    status is known, and the array handed to the query is non-empty, without
    duplicates, holds known statuses only and holds exactly the requested
    ones; or the answer is 400 and its message lists exactly the requested
    values that are unknown. *)
Theorem users_statuses_spec {LC : JsString.Lowercase} (status : QueryValue) :
  match users_statuses status with
  | inr uniqueStatuses =>
      uniqueStatuses <> [] /\ NoDup uniqueStatuses /\
      (forall s, s ∈ uniqueStatuses <-> s ∈ requestedStatuses status) /\
      (forall s, s ∈ uniqueStatuses -> s ∈ USER_STATUSES)
  | inl message =>
      exists invalidStatuses,
        invalidStatuses <> [] /\
        message = "Invalid status values: " +:+ JsString.join ", " invalidStatuses /\
        (forall s, s ∈ invalidStatuses <->
                   s ∈ requestedStatuses status /\ s ∉ USER_STATUSES)
  end.
Proof.
  unfold users_statuses.
  destruct (filter (fun value => value ∉ USER_STATUSES) (requestedStatuses status))
    as [|bad rest] eqn:Hfilter.
  - assert (Hmem : forall s, s ∈ JsSet.to_array (JsSet.of_array (requestedStatuses status))
                             <-> s ∈ requestedStatuses status).
    { intros s. unfold JsSet.to_array. apply elem_of_of_array. }
    split_and!.
    + pose proof (requestedStatuses_nonempty status) as Hne.
      destruct (requestedStatuses status) as [|x l] eqn:Hreq; [done|].
      intros Hnil. assert (Hx : x ∈ JsSet.to_array (JsSet.of_array (x :: l))).
      { apply Hmem, list_elem_of_here. }
      rewrite Hnil in Hx. by apply elem_of_nil in Hx.
    + apply of_array_NoDup.
    + exact Hmem.
    + intros s Hs. apply Hmem in Hs.
      destruct (decide (s ∈ USER_STATUSES)) as [|Hno]; [done|].
      by apply (filter_nil_not_elem_of _ _ s Hfilter) in Hno.
  - exists (bad :: rest). split; [done|]. split; [reflexivity|].
    intros s. rewrite <- Hfilter, list_elem_of_filter. tauto.
Qed.

(** ** The table of guarded routes *)

(** X25. On the routes [/permission], [/role] and [/allowed-permissions]
    reading needs what writing needs: in the same state, the gate of such a
    route passes a request with one method exactly when it passes it with
    any other, [OPTIONS] apart; and every guarded route names a manage
    permission, so that none of them is closed to every writer by
    construction. *)
Theorem guardedRoutes_administration {LC : JsString.Lowercase}
    (mount : string) (pair : PermissionPair) (req : Request) (w : World)
    (m1 m2 : string) :
  (mount, pair) ∈ guardedRoutes ->
  m1 <> "OPTIONS" -> m2 <> "OPTIONS" ->
  required (manage pair) <> None /\
  (mount ∈ ["/permission"; "/role"; "/allowed-permissions"] ->
   (ENext ∈ emitted w (run (requirePermissions pair (with_method m1 req)) w) <->
    ENext ∈ emitted w (run (requirePermissions pair (with_method m2 req)) w))).
Proof.
  intros Hin H1 H2. split.
  { unfold guardedRoutes in Hin.
    repeat (apply elem_of_cons in Hin as [[= -> ->]|Hin]; [done|]).
    by apply elem_of_nil in Hin. }
  intros Hadmin.
  assert (Hsame : read pair = manage pair).
  { unfold guardedRoutes in Hin.
    repeat (apply elem_of_cons in Hin as [[= -> ->]|Hin];
            [first [reflexivity | exfalso; elem_cases Hadmin]|]).
    by apply elem_of_nil in Hin. }
  rewrite !requirePermissions_passes by done.
  cbn [user method with_method]. rewrite !getUserPermissions_with_method.
  destruct (getUserPermissions req w) as [[[S r0]|e] w0] eqn:Hg.
  2:{ split; intros (? & ? & ? & ? & _ & ? & _); discriminate. }
  rewrite Hsame.
  assert (Hor : forall b : bool, b || b = b) by (by intros []).
  split; intros (u & S' & req' & w' & Hu & [= <- <- <-] & Hb);
    eexists u, S, _, w0; (split; [done|]); (split; [reflexivity|]);
    destruct (is_read_method m1), (is_read_method m2);
    rewrite ?Hor in *; done.
Qed.

Lemma guardedRoutes_administration_witness :
  required (manage (mkPair (Some "manage users") (Some "manage users"))) <> None /\
  ("/role" ∈ ["/permission"; "/role"; "/allowed-permissions"] ->
   (ENext ∈ emitted (Sample.world Sample.no_fault)
      (run (requirePermissions (mkPair (Some "manage users") (Some "manage users"))
              (with_method "GET" (Sample.request_of "GET" (Some Sample.admin))))
           (Sample.world Sample.no_fault)) <->
    ENext ∈ emitted (Sample.world Sample.no_fault)
      (run (requirePermissions (mkPair (Some "manage users") (Some "manage users"))
              (with_method "DELETE" (Sample.request_of "GET" (Some Sample.admin))))
           (Sample.world Sample.no_fault)))).
Proof.
  apply (guardedRoutes_administration "/role"
           (mkPair (Some "manage users") (Some "manage users"))
           (Sample.request_of "GET" (Some Sample.admin))
           (Sample.world Sample.no_fault) "GET" "DELETE");
    [ apply list_elem_of_further, list_elem_of_further, list_elem_of_here
    | discriminate | discriminate ].
Defined.
